(** * sddm-helper-x11: session orchestration of the rootless X11 helper

    A shallow embedding of [src/helper-x11/xorguserhelper.cpp] (class
    [XOrgUserHelper]) and of the older single-file helper
    [HelperStartXorgUser.cpp], together with the properties of start-up,
    display-number handshake and shutdown that the design document states.

    The helper is single threaded.  Every member function becomes a
    computation in a state monad over the object's fields and a log of the
    calls it makes to the operating system and to Qt.  Whatever the outside
    world decides (does a process start, what does the X server write on the
    pipe, does a process exit within its grace period) is read from an
    [Oracle]. *)

From Stdlib Require Import ZArith String Ascii DecimalString.
From Stdlib.Strings Require Import Byte.
From stdpp Require Import base option list gmap strings.

Local Open Scope Z_scope.

(** ** Qt and POSIX values *)

(** [QProcess *]: an object allocated by [new QProcess(this)]. *)
Definition proc := nat.

(** [QByteArray]. *)
Definition QByteArray := list byte.

(** [QProcessEnvironment]: a map from variable names to values. *)
Abbreviation QProcessEnvironment := (gmap string string).

Inductive ExitStatus := NormalExit | CrashExit.

Definition ExitStatus_eqb (a b : ExitStatus) : bool :=
  match a, b with
  | NormalExit, NormalExit | CrashExit, CrashExit => true
  | _, _ => false
  end.

(** What [QProcess::waitForFinished(msecs)] can observe: the process exits
    within the time given (the call returns [true] after the [finished]
    signal was emitted with the exit code and status), the time elapses, or
    the process was not running any more when the call was made (both
    return [false]). *)
Inductive wait_result :=
| Finished (exitCode : Z) (exitStatus : ExitStatus)
| TimedOut
| NotRunning.

(** The two lambdas connected to [QProcess::finished]:
    [QuitOnFault] is the one of [startProcess] (xorguserhelper.cpp:111-115),
    [SessionFinished] the one of [startClient] (xorguserhelper.cpp:271-276). *)
Inductive observer := QuitOnFault | SessionFinished.

(** Calls that leave the helper, in the order they are made. *)
Inductive event :=
| EvXauthSetup                                   (* m_xauth.setup() *)
| EvAddCookie (display : string) (ok : bool)     (* m_xauth.addCookie(display) *)
| EvPipe (fds : option (Z * Z))                  (* ::pipe(pipeFds) *)
| EvClose (fd : Z)                               (* ::close(fd) *)
| EvOpen (fd : Z) (ok : bool)                    (* readPipe.open(fd, ReadOnly) *)
| EvReadLine (bytes : QByteArray)                (* readPipe.readLine() *)
| EvWrite (fd : Z) (bytes : QByteArray)          (* ::write(fd, data, size) *)
| EvConnect (p : proc) (o : observer)            (* connect(p, finished, lambda) *)
| EvStart (p : proc) (program : string) (args : list string)
          (env : QProcessEnvironment)            (* p->start(program, args) *)
| EvWaitForStarted (p : proc) (ok : bool)        (* p->waitForStarted(10000) *)
| EvTerminate (p : proc)                         (* p->terminate() *)
| EvWaitForFinished (p : proc) (msecs : Z) (r : wait_result)
                                                 (* p->waitForFinished(msecs) *)
| EvKill (p : proc)                              (* p->kill() *)
| EvDeleteLater (p : proc)                       (* p->deleteLater() *)
| EvRemoveFile (path : string)                   (* QFile::remove(path) *)
| EvQuit.                                        (* QCoreApplication::quit() *)

(** The decisions of the outside world during one run of a member
    function.  [XAuth], [Configuration.h] and the system environment are
    not part of the helper: their answers are read from here too, and so
    is Qt's [QProcess::splitCommand]. *)
Record Oracle := {
  splitCommand : string -> list string;   (* QProcess::splitCommand(cmd) *)
  systemEnvironment : QProcessEnvironment;
  authPath : string;                      (* m_xauth.authPath() *)
  addCookie : string -> bool;             (* m_xauth.addCookie(display) *)
  DisplayCommand : string;                (* mainConfig.X11.DisplayCommand *)
  DisplayStopCommand : string;            (* mainConfig.X11.DisplayStopCommand *)
  pipe : option (Z * Z);                  (* read end, write end; None: failure *)
  waitForStarted : proc -> bool;
  open : bool;
  readLine : QByteArray;
  waitForFinished : proc -> Z -> wait_result;
}.

(** The fields of the helper object, the heap of [QProcess] objects with
    their signal connections, and the log. *)
Record State := {
  m_fd : Z;
  m_serverCmd : string;
  m_clientCmd : string;
  m_display : string;
  m_serverProcess : option proc;
  m_clientProcess : option proc;
  heap_next : proc;
  connections : list (proc * observer);
  trace : list event;
}.

Definition set_serverCmd (v : string) (s : State) : State :=
  {| m_fd := m_fd s; m_serverCmd := v; m_clientCmd := m_clientCmd s;
     m_display := m_display s; m_serverProcess := m_serverProcess s;
     m_clientProcess := m_clientProcess s; heap_next := heap_next s;
     connections := connections s; trace := trace s |}.

Definition set_display (v : string) (s : State) : State :=
  {| m_fd := m_fd s; m_serverCmd := m_serverCmd s; m_clientCmd := m_clientCmd s;
     m_display := v; m_serverProcess := m_serverProcess s;
     m_clientProcess := m_clientProcess s; heap_next := heap_next s;
     connections := connections s; trace := trace s |}.

Definition set_serverProcess (v : option proc) (s : State) : State :=
  {| m_fd := m_fd s; m_serverCmd := m_serverCmd s; m_clientCmd := m_clientCmd s;
     m_display := m_display s; m_serverProcess := v;
     m_clientProcess := m_clientProcess s; heap_next := heap_next s;
     connections := connections s; trace := trace s |}.

Definition set_clientProcess (v : option proc) (s : State) : State :=
  {| m_fd := m_fd s; m_serverCmd := m_serverCmd s; m_clientCmd := m_clientCmd s;
     m_display := m_display s; m_serverProcess := m_serverProcess s;
     m_clientProcess := v; heap_next := heap_next s;
     connections := connections s; trace := trace s |}.

Definition set_heap (n : proc) (cs : list (proc * observer)) (s : State) : State :=
  {| m_fd := m_fd s; m_serverCmd := m_serverCmd s; m_clientCmd := m_clientCmd s;
     m_display := m_display s; m_serverProcess := m_serverProcess s;
     m_clientProcess := m_clientProcess s; heap_next := n;
     connections := cs; trace := trace s |}.

Definition add_event (e : event) (s : State) : State :=
  {| m_fd := m_fd s; m_serverCmd := m_serverCmd s; m_clientCmd := m_clientCmd s;
     m_display := m_display s; m_serverProcess := m_serverProcess s;
     m_clientProcess := m_clientProcess s; heap_next := heap_next s;
     connections := connections s; trace := trace s ++ [e] |}.

(** ** The monad

    A computation returns [None] when the program has no defined behaviour
    from there on (a null pointer is dereferenced, the first element of an
    empty list is taken); the state reached so far is kept. *)
Definition M (A : Type) : Type := State -> option A * State.

Definition ret {A} (a : A) : M A := fun s => (Some a, s).

Definition bind {A B} (m : M A) (k : A -> M B) : M B :=
  fun s => match m s with
           | (Some a, s') => k a s'
           | (None, s') => (None, s')
           end.

Declare Scope helper_scope.
Delimit Scope helper_scope with helper.
Notation "'call' x <- m 'in' k" := (bind m (fun x => k))
  (at level 10, x name, m at level 100, k at level 200,
   format "'[v' 'call'  x  <-  m  'in' '/' k ']'") : helper_scope.
Notation "'run' m 'in' k" := (bind m (fun _ => k))
  (at level 10, m at level 100, k at level 200,
   format "'[v' 'run'  m  'in' '/' k ']'") : helper_scope.
Local Open Scope helper_scope.

Definition gets {A} (f : State -> A) : M A := fun s => (Some (f s), s).
Definition modify (f : State -> State) : M unit := fun s => (Some tt, f s).
Definition log (e : event) : M unit := modify (add_event e).
Definition undefined_behaviour {A} : M A := fun s => (None, s).

(** [when c m]: an [if (c) m;] without else branch. *)
Definition when (c : bool) (m : M unit) : M unit := if c then m else ret tt.

(** The events a computation adds to the log of [s]. *)
Definition events_of {A} (m : M A) (s : State) : list event :=
  drop (length (trace s)) (trace (snd (m s))).

Definition result_of {A} (m : M A) (s : State) : option A := fst (m s).
Definition state_after {A} (m : M A) (s : State) : State := snd (m s).

(** ** Qt classes used by the helper *)

(** [QString::number(int)]. *)
Definition QString_number (n : Z) : string :=
  NilZero.string_of_int (Z.to_int n).

(** [QStringList::join(QLatin1Char(' '))]. *)
Definition join_space (args : list string) : string :=
  String.concat " " args.

(** [QProcessEnvironment::value(name)]: the empty string when unset. *)
Definition env_value (env : QProcessEnvironment) (name : string) : string :=
  default EmptyString (env !! name).

(** [QByteArray::prepend]. *)
Definition QByteArray_prepend (a : QByteArray) (ba : QByteArray) : QByteArray :=
  a ++ ba.

(** [QByteArray::remove(pos, len)]: nothing happens when [len] is not
    positive or [pos] is out of range; the array is cut at [pos] when fewer
    than [len] bytes follow. *)
Definition QByteArray_remove (pos len : Z) (ba : QByteArray) : QByteArray :=
  let size := Z.of_nat (length ba) in
  if (len <=? 0) || (pos <? 0) || (size <=? pos) then ba
  else if size - pos <=? len then take (Z.to_nat pos) ba
  else take (Z.to_nat pos) ba ++ drop (Z.to_nat (pos + len)) ba.

(** [QString::fromLocal8Bit]: the handshake is ASCII, on which every
    locale's decoding is the identity on code units. *)
Definition QString_fromLocal8Bit (ba : QByteArray) : string :=
  string_of_list_byte ba.

Definition colon : QByteArray := [x3a].

Section Process.

Variable o : Oracle.

(** [new QProcess(this)]. *)
Definition new_QProcess : M proc :=
  fun s => (Some (heap_next s),
            set_heap (S (heap_next s)) (connections s) s).

(** [connect(p, &QProcess::finished, ..., lambda)]. *)
Definition connect_finished (p : proc) (ob : observer) : M unit :=
  run modify (fun s => set_heap (heap_next s) (connections s ++ [(p, ob)]) s) in
  log (EvConnect p ob).

(** [QCoreApplication::instance()->quit()]. *)
Definition quit : M unit := log EvQuit.

(** The bodies of the two lambdas. *)
Definition slot (ob : observer) (exitCode : Z) (exitStatus : ExitStatus)
  : M unit :=
  match ob with
  | QuitOnFault =>
      (* if (exitCode != 0 || exitStatus != QProcess::NormalExit) quit(); *)
      when (negb (exitCode =? 0)
            || negb (ExitStatus_eqb exitStatus NormalExit))
        quit
  | SessionFinished =>
      (* m_serverProcess->terminate(); quit(); *)
      call sp <- gets m_serverProcess in
      match sp with
      | Some p => run log (EvTerminate p) in quit
      | None => undefined_behaviour
      end
  end.

Fixpoint slots (obs : list observer) (exitCode : Z) (exitStatus : ExitStatus)
  : M unit :=
  match obs with
  | [] => ret tt
  | ob :: rest =>
      run slot ob exitCode exitStatus in
      slots rest exitCode exitStatus
  end.

Definition observers_of (p : proc) (cs : list (proc * observer))
  : list observer :=
  snd <$> filter (fun c => fst c = p) cs.

(** Emission of [finished(exitCode, exitStatus)] by [p]: the connected
    lambdas run in the order of connection. *)
Definition emit_finished (p : proc) (exitCode : Z) (exitStatus : ExitStatus)
  : M unit :=
  call cs <- gets connections in
  slots (observers_of p cs) exitCode exitStatus.

(** [p->waitForFinished(msecs)]. *)
Definition QProcess_waitForFinished (p : proc) (msecs : Z) : M bool :=
  let r := waitForFinished o p msecs in
  run log (EvWaitForFinished p msecs r) in
  match r with
  | Finished exitCode exitStatus =>
      run emit_finished p exitCode exitStatus in
      ret true
  | TimedOut | NotRunning => ret false
  end.

(** [p->waitForStarted(10000)]. *)
Definition QProcess_waitForStarted (p : proc) : M bool :=
  let ok := waitForStarted o p in
  run log (EvWaitForStarted p ok) in
  ret ok.

End Process.

(** ** [XOrgUserHelper], src/helper-x11/xorguserhelper.cpp *)

Module XOrgUserHelper.

(** The constructor.  The header with the default member initialisers is
    not among the sources: the initial display name is a parameter
    ([":0"] in the older helper), the two process pointers start null,
    as the tests [if (m_serverProcess)] of [stop] expect. *)
Definition XOrgUserHelper (display0 : string) (fd : Z)
    (serverCmd clientCmd : string) : State :=
  {| m_fd := fd; m_serverCmd := serverCmd; m_clientCmd := clientCmd;
     m_display := display0; m_serverProcess := None;
     m_clientProcess := None; heap_next := 0%nat; connections := [];
     trace := [] |}.

Section Members.

Variable o : Oracle.

(** [startProcess(cmd, env, p)].  The result [Some process] stands for
    [*p = process; return true], [None] for [return false]; every
    caller passes a non-null [p] and stores the result itself.  The
    channel modes set on the process do not matter to what follows and
    are left out. *)
Definition startProcess (cmd : string) (env : QProcessEnvironment)
  : M (option proc) :=
  match splitCommand o cmd with
  | [] => undefined_behaviour        (* args.takeFirst() of an empty list *)
  | program :: args =>
      call process <- new_QProcess in
      run connect_finished process QuitOnFault in
      run log (EvStart process program args env) in
      call started <- QProcess_waitForStarted o process in
      if negb started then ret None
      else ret (Some process)
  end.

(** The arguments that [startServer] appends to the server command. *)
Definition server_args (serverEnv : QProcessEnvironment) (writeFd : Z)
  : list string :=
  ["-auth"; authPath o; "-displayfd"; QString_number writeFd]
  ++ ["vt" +:+ env_value serverEnv "XDG_VTNR"]
  ++ ["-logfile"; "/dev/null"].

Definition startServer : M bool :=
  run log (EvPipe (pipe o)) in
  match pipe o with
  | None => ret false
  | Some (fd0, fd1) =>
      let serverEnv :=
        <["XORG_RUN_AS_USER_OK" := "1"]> (systemEnvironment o) in
      let args := server_args serverEnv fd1 in
      run modify (fun s =>
            set_serverCmd (m_serverCmd s +:+ " " +:+ join_space args) s) in
      call cmd <- gets m_serverCmd in
      call started <- startProcess cmd serverEnv in
      match started with
      | None => run log (EvClose fd0) in ret false
      | Some process =>
          run modify (set_serverProcess (Some process)) in
          run log (EvClose fd1) in
          run log (EvOpen fd0 (open o)) in
          if negb (open o) then run log (EvClose fd0) in ret false
          else
            let displayNumber := readLine o in
            run log (EvReadLine displayNumber) in
            if Z.of_nat (length displayNumber) <? 2
            then run log (EvClose fd0) in ret false
            else
              let displayNumber := QByteArray_prepend colon displayNumber in
              let displayNumber :=
                QByteArray_remove (Z.of_nat (length displayNumber) - 1) 1
                  displayNumber in
              run modify (set_display (QString_fromLocal8Bit displayNumber)) in
              call display <- gets m_display in
              let ok := addCookie o display in
              run log (EvAddCookie display ok) in
              if negb ok then ret false
              else
                call fd <- gets m_fd in
                run when (0 <? fd) (log (EvWrite fd displayNumber)) in
                run log (EvClose fd0) in
                ret true
      end
  end.

(** The block [if (!p->waitForFinished(msecs)) p->kill(); p->deleteLater();]
    that follows every successful [startProcess] of an auxiliary
    command. *)
Definition wait_or_kill (p : proc) (msecs : Z) : M unit :=
  call finished <- QProcess_waitForFinished o p msecs in
  run when (negb finished) (log (EvKill p)) in
  log (EvDeleteLater p).

Definition startDisplayCommand : M unit :=
  call display <- gets m_display in
  let env := <["XAUTHORITY" := authPath o]>
               (<["DISPLAY" := display]> (systemEnvironment o)) in
  call setCursor <- startProcess "xsetroot -cursor_name left_ptr" env in
  run match setCursor with
      | Some p => wait_or_kill p 1000
      | None => ret tt
      end in
  let cmd := DisplayCommand o in
  call displayScript <- startProcess cmd env in
  match displayScript with
  | Some p => wait_or_kill p 30000
  | None => ret tt
  end.

Definition displayFinished : M unit :=
  call display <- gets m_display in
  let env := <["QT_QPA_PLATFORM" := "xcb"]>
               (<["XAUTHORITY" := authPath o]>
                  (<["DISPLAY" := display]> (systemEnvironment o))) in
  let cmd := DisplayStopCommand o in
  call displayStopScript <- startProcess cmd env in
  run match displayStopScript with
      | Some p => wait_or_kill p 5000
      | None => ret tt
      end in
  log (EvRemoveFile (authPath o)).

Definition startClient : M bool :=
  call display <- gets m_display in
  let env := <["XAUTHORITY" := authPath o]>
               (<["DISPLAY" := display]> (systemEnvironment o)) in
  call cmd <- gets m_clientCmd in
  call started <- startProcess cmd env in
  match started with
  | None => ret false
  | Some process =>
      run modify (set_clientProcess (Some process)) in
      run connect_finished process SessionFinished in
      ret true
  end.

Definition start : M bool :=
  run log EvXauthSetup in
  call server <- startServer in
  if negb server then ret false
  else
    run startDisplayCommand in
    call client <- startClient in
    if negb client then ret false
    else ret true.

Definition stop : M unit :=
  call client <- gets m_clientProcess in
  run match client with
      | Some p =>
          run log (EvTerminate p) in
          call finished <- QProcess_waitForFinished o p 5000 in
          run when (negb finished) (log (EvKill p)) in
          run log (EvDeleteLater p) in
          modify (set_clientProcess None)
      | None => ret tt
      end in
  call server <- gets m_serverProcess in
  match server with
  | Some p =>
      run log (EvTerminate p) in
      call finished <- QProcess_waitForFinished o p 5000 in
      run when (negb finished) (log (EvKill p)) in
      run log (EvDeleteLater p) in
      run modify (set_serverProcess None) in
      displayFinished
  | None => ret tt
  end.

End Members.

End XOrgUserHelper.

(** ** The older helper, HelperStartXorgUser.cpp

    The class of the same name in the single-file helper, as far as
    start-up goes.  [startProcess] and [startDisplayCommand] have the same
    text as above; [start] issues the cookie before the server is started,
    for the display name of the constructor, [startServer] issues none and
    [startClient] connects no second lambda. *)

Module HelperStartXorgUser.

(** The constructor, with the default member initialisers of the class:
    [m_display = ":0"], both process pointers null. *)
Definition XOrgUserHelper (fd : Z) (serverCmd clientCmd : string) : State :=
  {| m_fd := fd; m_serverCmd := serverCmd; m_clientCmd := clientCmd;
     m_display := ":0"; m_serverProcess := None;
     m_clientProcess := None; heap_next := 0%nat; connections := [];
     trace := [] |}.

Section Members.

Variable o : Oracle.

Definition startProcess := XOrgUserHelper.startProcess o.
Definition wait_or_kill := XOrgUserHelper.wait_or_kill o.
Definition startDisplayCommand := XOrgUserHelper.startDisplayCommand o.
Definition server_args := XOrgUserHelper.server_args o.

Definition startServer : M bool :=
  run log (EvPipe (pipe o)) in
  match pipe o with
  | None => ret false
  | Some (fd0, fd1) =>
      let serverEnv :=
        <["XORG_RUN_AS_USER_OK" := "1"]> (systemEnvironment o) in
      let args := server_args serverEnv fd1 in
      run modify (fun s =>
            set_serverCmd (m_serverCmd s +:+ " " +:+ join_space args) s) in
      call cmd <- gets m_serverCmd in
      call started <- startProcess cmd serverEnv in
      match started with
      | None => run log (EvClose fd0) in ret false
      | Some process =>
          run modify (set_serverProcess (Some process)) in
          run log (EvClose fd1) in
          run log (EvOpen fd0 (open o)) in
          if negb (open o) then run log (EvClose fd0) in ret false
          else
            let displayNumber := readLine o in
            run log (EvReadLine displayNumber) in
            if Z.of_nat (length displayNumber) <? 2
            then run log (EvClose fd0) in ret false
            else
              let displayNumber := QByteArray_prepend colon displayNumber in
              let displayNumber :=
                QByteArray_remove (Z.of_nat (length displayNumber) - 1) 1
                  displayNumber in
              run modify (set_display (QString_fromLocal8Bit displayNumber)) in
              call fd <- gets m_fd in
              run when (0 <? fd) (log (EvWrite fd displayNumber)) in
              run log (EvClose fd0) in
              ret true
      end
  end.

Definition startClient : M bool :=
  call display <- gets m_display in
  let env := <["XAUTHORITY" := authPath o]>
               (<["DISPLAY" := display]> (systemEnvironment o)) in
  call cmd <- gets m_clientCmd in
  call started <- startProcess cmd env in
  match started with
  | None => ret false
  | Some process =>
      run modify (set_clientProcess (Some process)) in
      ret true
  end.

Definition start : M bool :=
  run log EvXauthSetup in
  call display <- gets m_display in
  let ok := addCookie o display in
  run log (EvAddCookie display ok) in
  if negb ok then ret false
  else
    call server <- startServer in
    if negb server then ret false
    else
      run startDisplayCommand in
      call client <- startClient in
      if negb client then ret false
      else ret true.

End Members.

End HelperStartXorgUser.

(** ** A concrete outside world, for the examples *)

(** Splitting at single spaces: what [QProcess::splitCommand] does on a
    command without quotes and without repeated or other white space. *)
Fixpoint split_spaces_aux (acc : string) (cmd : string) : list string :=
  match cmd with
  | EmptyString => if String.eqb acc EmptyString then [] else [acc]
  | String c rest =>
      if Ascii.eqb c " "
      then (if String.eqb acc EmptyString then [] else [acc])
           ++ split_spaces_aux EmptyString rest
      else split_spaces_aux (acc +:+ String c EmptyString) rest
  end.

Definition split_spaces (cmd : string) : list string :=
  split_spaces_aux EmptyString cmd.

(** A session on VT 2: the pipe is (5, 6), every process starts, the X
    server writes [answer] on the pipe, [addCookie] returns [cookie] and
    the processes exit as [exits] says. *)
Definition world (answer : QByteArray) (cookie : bool)
    (exits : proc -> Z -> wait_result) : Oracle :=
  {| splitCommand := split_spaces;
     systemEnvironment := {[ "XDG_VTNR" := "2" ]};
     authPath := "/run/user/1000/xauth_abc";
     addCookie := fun _ => cookie;
     DisplayCommand := "/usr/share/sddm/scripts/Xsetup";
     DisplayStopCommand := "/usr/share/sddm/scripts/Xstop";
     pipe := Some (5, 6);
     waitForStarted := fun _ => true;
     open := true;
     readLine := answer;
     waitForFinished := exits |}.

(** ["7\n"]: display number 7 and the line terminator. *)
Definition seven : QByteArray := [x37; x0a].

(** The helper as constructed by [main], before [start]. *)
Definition helper0 (fd : Z) : State :=
  XOrgUserHelper.XOrgUserHelper ":0" fd
    "/usr/bin/X -nolisten tcp" "/usr/bin/sddm-greeter".

(** ** Reading the log *)

Definition add_events (evs : list event) (s : State) : State :=
  {| m_fd := m_fd s; m_serverCmd := m_serverCmd s; m_clientCmd := m_clientCmd s;
     m_display := m_display s; m_serverProcess := m_serverProcess s;
     m_clientProcess := m_clientProcess s; heap_next := heap_next s;
     connections := connections s; trace := trace s ++ evs |}.

Definition is_terminate (p : proc) (e : event) : bool :=
  match e with EvTerminate q => Nat.eqb p q | _ => false end.

Definition is_kill (p : proc) (e : event) : bool :=
  match e with EvKill q => Nat.eqb p q | _ => false end.

(** A graceful stop request to [p] or a forced kill of [p]. *)
Definition is_termination (p : proc) (e : event) : bool :=
  is_terminate p e || is_kill p e.

Definition is_start (e : event) : bool :=
  match e with EvStart _ _ _ _ => true | _ => false end.

Definition is_start_of (p : proc) (e : event) : bool :=
  match e with EvStart q _ _ _ => Nat.eqb p q | _ => false end.

Definition is_remove (e : event) : bool :=
  match e with EvRemoveFile _ => true | _ => false end.

Definition is_write (e : event) : bool :=
  match e with EvWrite _ _ => true | _ => false end.

Definition is_addCookie (e : event) : bool :=
  match e with EvAddCookie _ _ => true | _ => false end.

Definition is_quit (e : event) : bool :=
  match e with EvQuit => true | _ => false end.

(** How many events of a kind the log holds. *)
Definition countb (f : event -> bool) (evs : list event) : nat :=
  length (List.filter f evs).

(** Some event of kind [A] is in the log. *)
Definition occurs (A : event -> bool) (evs : list event) : Prop :=
  existsb A evs = true.

(** Every event of kind [A] is logged before every event of kind [B]. *)
Definition precedes (A B : event -> bool) (evs : list event) : Prop :=
  forall i j a b,
    evs !! i = Some a -> evs !! j = Some b ->
    A a = true -> B b = true -> (i < j)%nat.

(** Every event a computation logs, from whatever state, satisfies [P];
    the log is only ever extended. *)
Definition emits {A} (P : event -> Prop) (m : M A) : Prop :=
  forall s, exists evs,
    trace (snd (m s)) = trace s ++ evs /\ Forall P evs.

(** ** Well-formed states

    The process pointers of the object point to allocated processes, the
    client and the server are two processes, a client is only ever there
    together with its server, and connections are to allocated processes.
    This holds of the constructed object and [start] and [stop] keep it. *)
Definition wfb (s : State) : bool :=
  forallb (fun c => Nat.ltb (fst c) (heap_next s)) (connections s)
  && match m_serverProcess s with
     | Some p => Nat.ltb p (heap_next s)
     | None => true
     end
  && match m_clientProcess s with
     | Some c =>
         Nat.ltb c (heap_next s)
         && match m_serverProcess s with
            | Some p => negb (Nat.eqb c p)
            | None => false
            end
     | None => true
     end.

(** The command cannot be split into an empty list (on which
    [takeFirst()] is not defined). *)
Definition splits (o : Oracle) (cmd : string) : bool :=
  match splitCommand o cmd with [] => false | _ :: _ => true end.

(** ** What the lambdas log *)

Definition is_fault (exitCode : Z) (exitStatus : ExitStatus) : bool :=
  negb (exitCode =? 0) || negb (ExitStatus_eqb exitStatus NormalExit).

Definition slot_events (server : option proc) (exitCode : Z)
    (exitStatus : ExitStatus) (ob : observer) : list event :=
  match ob with
  | QuitOnFault => if is_fault exitCode exitStatus then [EvQuit] else []
  | SessionFinished =>
      match server with
      | Some p => [EvTerminate p; EvQuit]
      | None => []
      end
  end.

Definition is_finished (r : wait_result) : bool :=
  match r with Finished _ _ => true | _ => false end.

(** The log of [p->waitForFinished(msecs)] when no lambda fails. *)
Definition wait_events (o : Oracle) (server : option proc)
    (cs : list (proc * observer)) (p : proc) (msecs : Z) : list event :=
  let r := waitForFinished o p msecs in
  EvWaitForFinished p msecs r ::
  match r with
  | Finished exitCode exitStatus =>
      flat_map (slot_events server exitCode exitStatus) (observers_of p cs)
  | _ => []
  end.

(** No lambda connected to [p] dereferences a null server pointer. *)
Definition safe_slots (server : option proc) (obs : list observer) : bool :=
  match server with
  | Some _ => true
  | None => forallb (fun ob => match ob with
                               | QuitOnFault => true
                               | SessionFinished => false
                               end) obs
  end.

(** ** The handshake and the server command, in the specification's words *)

(** An ASCII decimal digit. *)
Definition is_digit (b : byte) : bool :=
  (48 <=? Byte.to_N b)%N && (Byte.to_N b <=? 57)%N.

(** ASCII white space: space, and tab to carriage return. *)
Definition is_whitespace (b : byte) : bool :=
  (Byte.to_N b =? 32)%N || ((9 <=? Byte.to_N b)%N && (Byte.to_N b <=? 13)%N).

(** "Trailing whitespace/newline is stripped": all of it. *)
Fixpoint strip_trailing_whitespace (bytes : QByteArray) : QByteArray :=
  match bytes with
  | [] => []
  | b :: rest =>
      match strip_trailing_whitespace rest with
      | [] => if is_whitespace b then [] else [b]
      | kept => b :: kept
      end
  end.

(** The display name the specification derives from the bytes read:
    [':'] before the stripped bytes. *)
Definition spec_display (bytes : QByteArray) : string :=
  QString_fromLocal8Bit (colon ++ strip_trailing_whitespace bytes).

(** What [startServer] makes of the bytes read: [':'] before them, and
    the last byte taken away. *)
Definition display_bytes (bytes : QByteArray) : QByteArray :=
  colon ++ take (length bytes - 1) bytes.

(** The text appended to the server command:
    [" -auth <authorityPath> -displayfd <writeEndFd> vt<XDG_VTNR> -logfile /dev/null"]. *)
Definition spec_server_suffix (o : Oracle) (writeFd : Z) : string :=
  " -auth " +:+ authPath o +:+ " -displayfd " +:+ QString_number writeFd
  +:+ " vt" +:+ env_value (systemEnvironment o) "XDG_VTNR"
  +:+ " -logfile /dev/null".

(** The server environment: [XORG_RUN_AS_USER_OK=1] over the ambient one. *)
Definition spec_server_env (o : Oracle) : QProcessEnvironment :=
  <["XORG_RUN_AS_USER_OK" := "1"]> (systemEnvironment o).

(** No process ever exits while the helper waits for it. *)
Definition nobody_exits : proc -> Z -> wait_result := fun _ _ => TimedOut.

(** Every process exits at once, with code 0. *)
Definition everybody_exits : proc -> Z -> wait_result :=
  fun _ _ => Finished 0 NormalExit.

(** ["12"], without a line terminator. *)
Definition twelve : QByteArray := [x31; x32].

(** Events about a [QProcess] object, and the request to quit: all that
    [startProcess] and the waits that follow it can log. *)
Definition is_process_event (e : event) : bool :=
  match e with
  | EvConnect _ _ | EvStart _ _ _ _ | EvWaitForStarted _ _ | EvTerminate _
  | EvWaitForFinished _ _ _ | EvKill _ | EvDeleteLater _ | EvQuit => true
  | _ => false
  end.

(** ** The log of [stop]

    What [stop] logs from a well-formed state, written as lists: the
    graceful termination of a process, then the display stop script. *)

(** [p->terminate(); if (!p->waitForFinished(5000)) p->kill();
    p->deleteLater();] *)
Definition terminate_events (o : Oracle) (s : State) (p : proc) : list event :=
  [EvTerminate p]
  ++ wait_events o (m_serverProcess s) (connections s) p 5000
  ++ (if is_finished (waitForFinished o p 5000) then [] else [EvKill p])
  ++ [EvDeleteLater p].

(** The environment of the display stop script. *)
Definition stop_env (o : Oracle) (s : State) : QProcessEnvironment :=
  <["QT_QPA_PLATFORM" := "xcb"]>
    (<["XAUTHORITY" := authPath o]>
       (<["DISPLAY" := m_display s]> (systemEnvironment o))).

(** [displayFinished()], entered with both process pointers null; the
    script is the process [heap_next s]. *)
Definition teardown_events (o : Oracle) (s : State) : list event :=
  let p := heap_next s in
  match splitCommand o (DisplayStopCommand o) with
  | [] => []
  | program :: args =>
      [EvConnect p QuitOnFault; EvStart p program args (stop_env o s);
       EvWaitForStarted p (waitForStarted o p)]
      ++ (if waitForStarted o p
          then wait_events o None (connections s ++ [(p, QuitOnFault)]) p 5000
               ++ (if is_finished (waitForFinished o p 5000) then []
                   else [EvKill p])
               ++ [EvDeleteLater p]
          else [])
      ++ [EvRemoveFile (authPath o)]
  end.

Definition stop_events (o : Oracle) (s : State) : list event :=
  match m_clientProcess s with
  | Some c => terminate_events o s c
  | None => []
  end
  ++ match m_serverProcess s with
     | Some p => terminate_events o s p ++ teardown_events o s
     | None => []
     end.

(** The state [stop] leaves. *)
Definition stopped (o : Oracle) (s : State) : State :=
  {| m_fd := m_fd s; m_serverCmd := m_serverCmd s;
     m_clientCmd := m_clientCmd s; m_display := m_display s;
     m_serverProcess := None; m_clientProcess := None;
     heap_next := match m_serverProcess s with
                  | Some _ => S (heap_next s)
                  | None => heap_next s
                  end;
     connections := match m_serverProcess s with
                    | Some _ => connections s ++ [(heap_next s, QuitOnFault)]
                    | None => connections s
                    end;
     trace := trace s ++ stop_events o s |}.

(** The helper of the examples once [start] has succeeded: the server is
    process 0, the client process 3. *)
Definition running : State :=
  state_after (XOrgUserHelper.start (world seven true everybody_exits))
    (helper0 3).

(** The client exits when asked to, nobody else does. *)
Definition only_client_exits : proc -> Z -> wait_result :=
  fun p _ => if Nat.eqb p 3%nat then Finished 0 NormalExit else TimedOut.

(** The cursor command, process 1, exits with code 1; everybody else
    exits with code 0. *)
Definition cursor_fails : proc -> Z -> wait_result :=
  fun p _ => if Nat.eqb p 1%nat then Finished 1 NormalExit
             else Finished 0 NormalExit.

(** A computation keeps a property of the state, whatever it returns. *)
Definition preserves {A} (I : State -> Prop) (m : M A) : Prop :=
  forall s, I s -> I (snd (m s)).

(** The helper is well formed and has a server process. *)
Definition wf_with_server (s : State) : Prop :=
  wfb s = true /\ is_Some (m_serverProcess s).

(** ** The rest of HelperStartXorgUser.cpp: [stop] and [main] *)

Module HelperStartXorgUserMain.

(** The exit code of every failure of [main]. *)
Definition not_executed_manually : Z := 127.

(** [QStringList::indexOf]: the position of the first occurrence, -1
    when there is none. *)
Fixpoint indexOf_from (from : Z) (args : list string) (name : string) : Z :=
  match args with
  | [] => -1
  | a :: rest =>
      if String.eqb a name then from else indexOf_from (from + 1) rest name
  end.

Definition indexOf (args : list string) (name : string) : Z :=
  indexOf_from 0 args name.

(** What [main] makes of the command line: it returns at once with an
    exit code, or goes on to construct the helper. *)
Inductive parsed :=
| Return (code : Z)
| Helper (fd : Z) (serverCmd clientCmd : string).

(** One of the three blocks
    [if ((pos = args.indexOf(name)) >= 0) { if (pos >= args.length() - 1)
    return 127; value = args[pos + 1]; }]; the value stays the empty
    [QString] when the option is not there. *)
Definition option_value (args : list string) (name : string)
    (k : string -> parsed) : parsed :=
  let pos := indexOf args name in
  if 0 <=? pos
  then if Z.of_nat (length args) - 1 <=? pos
       then Return not_executed_manually
       else k (default EmptyString (args !! Z.to_nat (pos + 1)))
  else k EmptyString.

Definition isEmpty (s : string) : bool :=
  match s with EmptyString => true | String _ _ => false end.

Section Main.

(** [QString::toInt(&ok)]: [None] when [ok] comes back false. *)
Variable toInt : string -> option Z.

(** [main] up to the construction of the helper. *)
Definition parse (args : list string) : parsed :=
  option_value args "--fd" (fun fdArg =>
  option_value args "--server" (fun serverCmd =>
  option_value args "--client" (fun clientCmd =>
  if isEmpty serverCmd || isEmpty clientCmd
  then Return not_executed_manually
  else
    if negb (isEmpty fdArg)
    then match toInt fdArg with
         | Some fd => Helper fd serverCmd clientCmd
         | None => Return not_executed_manually
         end
    else Helper (-1) serverCmd clientCmd))).

End Main.

Section Members.

Variable o : Oracle.

Definition displayFinished : M unit :=
  call display <- gets m_display in
  let env := <["XAUTHORITY" := authPath o]>
               (<["DISPLAY" := display]> (systemEnvironment o)) in
  let cmd := DisplayStopCommand o in
  call displayStopScript <- HelperStartXorgUser.startProcess o cmd env in
  run match displayStopScript with
      | Some p => HelperStartXorgUser.wait_or_kill o p 5000
      | None => ret tt
      end in
  log (EvRemoveFile (authPath o)).

Definition stop : M unit :=
  call client <- gets m_clientProcess in
  run match client with
      | Some p =>
          run log (EvTerminate p) in
          call finished <- QProcess_waitForFinished o p 5000 in
          run when (negb finished) (log (EvKill p)) in
          run log (EvDeleteLater p) in
          modify (set_clientProcess None)
      | None => ret tt
      end in
  call server <- gets m_serverProcess in
  match server with
  | Some p =>
      run log (EvTerminate p) in
      call finished <- QProcess_waitForFinished o p 5000 in
      run when (negb finished) (log (EvKill p)) in
      run log (EvDeleteLater p) in
      run modify (set_serverProcess None) in
      displayFinished
  | None => ret tt
  end.

End Members.

End HelperStartXorgUserMain.

(** The first occurrence of [name] in [args] is followed by [value]. *)
Definition first_value (args : list string) (name value : string) : Prop :=
  exists before after,
    args = before ++ name :: value :: after /\ name ∉ before.

(** ** [XorgUserDisplayServer], src/daemon/XorgUserDisplayServer.cpp

    The display server object of the daemon: a flag, the display name, and
    the two signals it emits. *)

Module XorgUserDisplayServer.

Record Server := {
  m_started : bool;
  m_display : string;
}.

Inductive signal := started | stopped.

(** A member function returns its value, the object and the signals
    emitted. *)
Definition start (s : Server) : bool * Server * list signal :=
  if m_started s then (false, s, [])
  else (true, {| m_started := true; m_display := m_display s |}, [started]).

Definition stop (s : Server) : Server * list signal :=
  if negb (m_started s) then (s, [])
  else ({| m_started := false; m_display := m_display s |}, [stopped]).

Definition setDisplayName (displayName : string) (s : Server) : Server :=
  {| m_started := m_started s; m_display := displayName |}.

Definition sessionType : string := "x11".

(** The destructor calls [stop]. *)
Definition destructor (s : Server) : list signal := snd (stop s).

(** The calls a user of the object can make. *)
Inductive request :=
| Start
| Stop
| SetDisplayName (displayName : string).

Definition step (c : request) (s : Server) : Server * list signal :=
  match c with
  | Start => let '(_, s', signals) := start s in (s', signals)
  | Stop => stop s
  | SetDisplayName displayName => (setDisplayName displayName s, [])
  end.

(** A sequence of calls: the object at the end and all signals emitted. *)
Fixpoint serve (cs : list request) (s : Server) : Server * list signal :=
  match cs with
  | [] => (s, [])
  | c :: rest =>
      let '(s1, signals1) := step c s in
      let '(s2, signals2) := serve rest s1 in
      (s2, signals1 ++ signals2)
  end.

(** [started] and [stopped] take turns, and the first is [stopped] exactly
    when the server is running. *)
Fixpoint alternate (running : bool) (signals : list signal) : Prop :=
  match signals with
  | [] => True
  | sig :: rest =>
      sig = (if running then stopped else started)
      /\ alternate (negb running) rest
  end.

End XorgUserDisplayServer.

(** ** [xorgUserCommand], the second file of src/daemon *)

Module XorgUtils.

(** What the function reads: [daemonApp->testing()], three entries of
    [mainConfig.X11] and [display->seat()->name()]. *)
Record Settings := {
  testing : bool;
  XephyrPath : string;
  ServerPath : string;
  ServerArguments : string;
  seat_name : string;
}.

(** [QString::split(QLatin1Char(' '), Qt::SkipEmptyParts)]. *)
Definition split_skip_empty (s : string) : list string := split_spaces s.

Definition xorgUserArguments (c : Settings) : list string :=
  if testing c
  then [XephyrPath c; "-br"; "-screen"; "800x600"]
  else [ServerPath c]
       ++ split_skip_empty (ServerArguments c)
       ++ ["-background"; "none"; "-seat"; seat_name c; "-noreset";
           "-keeptty"; "-novtswitch"; "-verbose"; "3"].

Definition xorgUserCommand (c : Settings) : string :=
  join_space (xorgUserArguments c).

End XorgUtils.

(** A word: not empty, no space in it. *)
Fixpoint no_space (s : string) : bool :=
  match s with
  | EmptyString => true
  | String c rest => negb (Ascii.eqb c " ") && no_space rest
  end.

Definition is_word (s : string) : bool :=
  negb (String.eqb s EmptyString) && no_space s.

(** ** More ways to read the log *)

Definition is_close (fd : Z) (e : event) : bool :=
  match e with EvClose fd' => fd =? fd' | _ => false end.

Definition is_readLine (e : event) : bool :=
  match e with EvReadLine _ => true | _ => false end.

(** The environment of the client and of the display setup commands:
    [DISPLAY] and [XAUTHORITY] over the ambient one. *)
Definition session_env (o : Oracle) (display : string) : QProcessEnvironment :=
  <["XAUTHORITY" := authPath o]>
    (<["DISPLAY" := display]> (systemEnvironment o)).

(** What [start] never changes once the display is known. *)
Definition session_fixed (display clientCmd : string) (n : proc) (s : State)
  : Prop :=
  m_display s = display /\ m_clientCmd s = clientCmd /\ (n <= heap_next s)%nat.

Definition is_cookie_refused (e : event) : bool :=
  match e with EvAddCookie _ false => true | _ => false end.

(** [precedes], decided: no event of kind [A] at or after one of kind [B]. *)
Fixpoint precedesb (A B : event -> bool) (evs : list event) : bool :=
  match evs with
  | [] => true
  | e :: evs' =>
      (if B e then forallb (fun a => negb (A a)) evs else true)
      && precedesb A B evs'
  end.

(** ** The log of the older [stop]

    As [stop_events], for the [stop] and [displayFinished] of
    HelperStartXorgUser.cpp: the environment of the display stop script is
    [DISPLAY] and [XAUTHORITY] over the ambient one. *)
Definition legacy_teardown_events (o : Oracle) (s : State) : list event :=
  let p := heap_next s in
  match splitCommand o (DisplayStopCommand o) with
  | [] => []
  | program :: args =>
      [EvConnect p QuitOnFault;
       EvStart p program args (session_env o (m_display s));
       EvWaitForStarted p (waitForStarted o p)]
      ++ (if waitForStarted o p
          then wait_events o None (connections s ++ [(p, QuitOnFault)]) p 5000
               ++ (if is_finished (waitForFinished o p 5000) then []
                   else [EvKill p])
               ++ [EvDeleteLater p]
          else [])
      ++ [EvRemoveFile (authPath o)]
  end.

Definition legacy_stop_events (o : Oracle) (s : State) : list event :=
  match m_clientProcess s with
  | Some c => terminate_events o s c
  | None => []
  end
  ++ match m_serverProcess s with
     | Some p => terminate_events o s p ++ legacy_teardown_events o s
     | None => []
     end.

(** What the newer helper adds to the environment of a process it starts
    in [displayFinished]. *)
Definition with_platform (e : event) : event :=
  match e with
  | EvStart p program args env =>
      EvStart p program args (<["QT_QPA_PLATFORM" := "xcb"]> env)
  | _ => e
  end.

(** The members of the object, without its log. *)
Definition members (s : State) :=
  (m_fd s, m_serverCmd s, m_clientCmd s, m_display s, m_serverProcess s,
   m_clientProcess s, heap_next s, connections s).

(** ** MessageHandler.cpp, src/common

    The message handlers the daemon, the helper and the greeter install.
    The process is the two function-local statics (the log file of
    [standardLogger], the cached answer of [isJournalEnabled]) and what
    it has done to the outside, in order.  The outside answers by the
    moment it is asked: every call to it advances [now]. *)

Module MessageHandler.

Inductive QtMsgType :=
| QtDebugMsg
| QtWarningMsg
| QtCriticalMsg
| QtFatalMsg
| QtInfoMsg.

(** The priorities of [<syslog.h>]. *)
Definition LOG_ALERT : Z := 1.
Definition LOG_CRIT : Z := 2.
Definition LOG_WARNING : Z := 4.
Definition LOG_INFO : Z := 6.
Definition LOG_DEBUG : Z := 7.

(** [errno] values of [<errno.h>] on Linux. *)
Definition EPERM : Z := 1.
Definition ENOENT : Z := 2.
Definition ENXIO : Z := 6.

Definition STDIN_FILENO : Z := 0.
Definition STDOUT_FILENO : Z := 1.
Definition STDERR_FILENO : Z := 2.

(** The fields of [QMessageLogContext] the handlers read; [file] and
    [function] may be null. *)
Record QMessageLogContext := {
  ctx_file : option string;
  ctx_line : Z;
  ctx_function : option string
}.

Inductive OpenMode := Append | Truncate.

(** What the process does to the outside. *)
Inductive effect :=
| FileOpen (mode : OpenMode) (ok : bool)
| FileWrite (bytes : string)
| FileFlush
| Printf (text : string)
| FflushStdout
| JournalPrint (priority : Z) (code_file code_line func message : string)
| EnvironmentVariableIsSet (name : string) (set : bool)
| OpenTty (fd : Z)
| Close (fd : Z)
| Isatty (fd : Z) (r : Z)
| SdBooted (r : Z)
| JournalStreamFd (identifier : string) (priority : Z) (fd : Z)
| Dup2 (oldfd newfd : Z).

(** The outside: the build ([HAVE_JOURNALD], [PATH_MAX]) and, by the
    moment of the call, the answers of the file system, the clock, the
    environment, the terminal and systemd.  [open_tty] is the descriptor
    [open("/dev/tty", O_RDONLY)] returns and the [errno] it leaves. *)
Record World := {
  HAVE_JOURNALD : bool;
  PATH_MAX : Z;
  file_open : nat -> OpenMode -> bool;
  currentDateTime : nat -> string;
  qEnvironmentVariableIsSet : nat -> string -> bool;
  open_tty : nat -> Z * Z;
  isatty : nat -> Z -> Z;
  sd_booted : nat -> Z;
  sd_journal_stream_fd : nat -> string -> Z -> Z
}.

Record Process := {
  file_isOpen : bool;
  journalEnabled : option bool;
  now : nat;
  output : list effect
}.

(** The process before its first message. *)
Definition started : Process :=
  {| file_isOpen := false; journalEnabled := None; now := 0%nat;
     output := [] |}.

(** A call to the outside: it is recorded and time passes. *)
Definition observe (e : effect) (s : Process) : Process :=
  {| file_isOpen := file_isOpen s; journalEnabled := journalEnabled s;
     now := S (now s); output := output s ++ [e] |}.

Definition tick (s : Process) : Process :=
  {| file_isOpen := file_isOpen s; journalEnabled := journalEnabled s;
     now := S (now s); output := output s |}.

Definition set_isOpen (b : bool) (s : Process) : Process :=
  {| file_isOpen := b; journalEnabled := journalEnabled s;
     now := now s; output := output s |}.

Definition set_journalEnabled (b : bool) (s : Process) : Process :=
  {| file_isOpen := file_isOpen s; journalEnabled := Some b;
     now := now s; output := output s |}.

(** [qPrintable(s)] read by [%s]: the text up to its first NUL. *)
Fixpoint c_str (s : string) : string :=
  match s with
  | EmptyString => EmptyString
  | String c rest =>
      if Ascii.eqb c Ascii.zero then EmptyString else String c (c_str rest)
  end.

Fixpoint truncate (n : nat) (s : string) : string :=
  match n, s with
  | S n', String c rest => String c (truncate n' rest)
  | _, _ => EmptyString
  end.

(** [snprintf(buffer, size, ...)]: at most [size - 1] bytes of the
    formatted text. *)
Definition snprintf (size : Z) (text : string) : string :=
  truncate (Z.to_nat (size - 1)) text.

Definition newline : string := String (ascii_of_nat 10) EmptyString.

Section Functions.

Variable w : World.

Definition journaldLogger (type : QtMsgType) (context : QMessageLogContext)
    (msg : string) (s : Process) : Process :=
  let priority :=
    match type with
    | QtDebugMsg => LOG_DEBUG
    | QtWarningMsg => LOG_WARNING
    | QtCriticalMsg => LOG_CRIT
    | QtFatalMsg => LOG_ALERT
    | _ => LOG_INFO
    end in
  let fileBuffer :=
    snprintf (PATH_MAX w + 11)
      ("CODE_FILE=" +:+ default "unknown" (ctx_file context)) in
  let lineBuffer :=
    snprintf 32 ("CODE_LINE=" +:+ QString_number (ctx_line context)) in
  observe (JournalPrint priority fileBuffer lineBuffer
             (default "unknown" (ctx_function context)) (c_str msg)) s.

Definition standardLogger (type : QtMsgType) (msg : string) (s : Process)
  : Process :=
  let s :=
    if negb (file_isOpen s)
    then
      let appended := file_open w (now s) Append in
      let s := set_isOpen appended (observe (FileOpen Append appended) s) in
      if negb appended
      then
        let truncated := file_open w (now s) Truncate in
        set_isOpen truncated (observe (FileOpen Truncate truncated) s)
      else s
    else s in
  let timestamp := currentDateTime w (now s) in
  let s := tick s in
  let logPriority :=
    match type with
    | QtDebugMsg => "(II)"
    | QtWarningMsg => "(WW)"
    | QtCriticalMsg | QtFatalMsg => "(EE)"
    | _ => "(II)"
    end in
  let logMessage :=
    "[" +:+ timestamp +:+ "] " +:+ logPriority +:+ " " +:+ msg +:+ newline in
  if file_isOpen s
  then observe FileFlush (observe (FileWrite logMessage) s)
  else observe FflushStdout (observe (Printf (c_str logMessage)) s).

Definition hasConsoleAttached (s : Process) : bool * Process :=
  let set := qEnvironmentVariableIsSet w (now s) "SDDM_JOURNAL_ENABLED" in
  let s := observe (EnvironmentVariableIsSet "SDDM_JOURNAL_ENABLED" set) s in
  if set then (false, s)
  else
    let '(fd, errno) := open_tty w (now s) in
    let s := observe (OpenTty fd) s in
    if 0 <=? fd then (true, observe (Close fd) s)
    else if (errno =? ENOENT) || (errno =? EPERM) || (errno =? ENXIO)
    then
      let r := isatty w (now s) STDIN_FILENO in
      (negb (r =? 0), observe (Isatty STDIN_FILENO r) s)
    else (false, s).

Definition isJournalEnabled (s : Process) : bool * Process :=
  if HAVE_JOURNALD w
  then
    match journalEnabled s with
    | Some enabled => (enabled, s)
    | None =>
        let booted := sd_booted w (now s) in
        let s := observe (SdBooted booted) s in
        let '(enabled, s) :=
          if negb (booted =? 0)
          then let '(console, s) := hasConsoleAttached s in (negb console, s)
          else (false, s) in
        (enabled, set_journalEnabled enabled s)
    end
  else (false, s).

Definition messageHandler (type : QtMsgType) (context : QMessageLogContext)
    (prefix msg : string) (s : Process) : Process :=
  let logMessage := msg in
  let '(journal, s) := isJournalEnabled s in
  if journal then journaldLogger type context logMessage s
  else
    let logMessage := prefix +:+ msg in
    standardLogger type logMessage s.

Definition DaemonMessageHandler (type : QtMsgType)
    (context : QMessageLogContext) (msg : string) : Process -> Process :=
  messageHandler type context "DAEMON: " msg.

Definition HelperMessageHandler (type : QtMsgType)
    (context : QMessageLogContext) (msg : string) : Process -> Process :=
  messageHandler type context "HELPER: " msg.

Definition GreeterMessageHandler (type : QtMsgType)
    (context : QMessageLogContext) (msg : string) : Process -> Process :=
  messageHandler type context "GREETER: " msg.

Definition setupJournalFds (identifier : string) (s : Process)
  : bool * Process :=
  if HAVE_JOURNALD w
  then
    let '(journal, s) := isJournalEnabled s in
    if journal
    then
      let out := sd_journal_stream_fd w (now s) (c_str identifier) LOG_INFO in
      let s := observe (JournalStreamFd (c_str identifier) LOG_INFO out) s in
      if out <? 0 then (false, s)
      else
        let err :=
          sd_journal_stream_fd w (now s) (c_str identifier) LOG_WARNING in
        let s :=
          observe (JournalStreamFd (c_str identifier) LOG_WARNING err) s in
        if err <? 0 then (false, observe (Close out) s)
        else
          let s := observe (Dup2 out STDOUT_FILENO) s in
          let s := observe (Dup2 err STDERR_FILENO) s in
          (true, s)
    else (true, s)
  else (true, s).

End Functions.

(** What a call does to the outside: the part of [output] it adds. *)
Definition effects_of (f : Process -> Process) (s : Process) : list effect :=
  drop (length (output s)) (output (f s)).

(** One message to a handler installed with [qInstallMessageHandler]:
    which of the three handlers, and its arguments. *)
Inductive program := Daemon | Helper | Greeter.

Record message := {
  msg_program : program;
  msg_type : QtMsgType;
  msg_context : QMessageLogContext;
  msg_text : string
}.

Definition prefix_of (p : program) : string :=
  match p with
  | Daemon => "DAEMON: "
  | Helper => "HELPER: "
  | Greeter => "GREETER: "
  end.

Definition handle (w : World) (m : message) : Process -> Process :=
  match msg_program m with
  | Daemon => DaemonMessageHandler w (msg_type m) (msg_context m) (msg_text m)
  | Helper => HelperMessageHandler w (msg_type m) (msg_context m) (msg_text m)
  | Greeter => GreeterMessageHandler w (msg_type m) (msg_context m) (msg_text m)
  end.

(** The messages of a run, handled in order. *)
Definition handle_all (w : World) (ms : list message) (s : Process) : Process :=
  fold_left (fun s m => handle w m s) ms s.

(** [standardLogger] on a list of messages, in order. *)
Definition log_all (w : World) (ms : list (QtMsgType * string)) (s : Process)
  : Process :=
  fold_left (fun s m => standardLogger w (fst m) (snd m) s) ms s.

(** The tag [standardLogger] gives a message type. *)
Definition tag (type : QtMsgType) : string :=
  match type with
  | QtWarningMsg => "(WW)"
  | QtCriticalMsg | QtFatalMsg => "(EE)"
  | _ => "(II)"
  end.

(** [text] is the line for [msg]: a time stamp in brackets, the tag, the
    message, a newline. *)
Definition is_line_of (m : QtMsgType * string) (text : string) : Prop :=
  exists timestamp,
    text = "[" +:+ timestamp +:+ "] " +:+ tag (fst m) +:+ " " +:+ snd m
           +:+ newline.

(** The effects of a message written to the open log file, and of one
    printed because the file could not be opened. *)
Definition file_block (text : string) : list effect :=
  [FileWrite text; FileFlush].

Definition stdout_block (text : string) : list effect :=
  [FileOpen Append false; FileOpen Truncate false; Printf (c_str text);
   FflushStdout].

Definition is_dup2 (e : effect) : bool :=
  match e with Dup2 _ _ => true | _ => false end.

End MessageHandler.

(** A world for the examples: systemd answers [booted], [/dev/tty] can be
    opened when there is a [console], the log file cannot be opened before
    moment 6, the journal gives descriptor 10 and up. *)
Definition sample_world (booted : Z) (console : bool) : MessageHandler.World :=
  {| MessageHandler.HAVE_JOURNALD := true;
     MessageHandler.PATH_MAX := 4096;
     MessageHandler.file_open := fun t _ => Nat.ltb 5 t;
     MessageHandler.currentDateTime := fun _ => "12:00:00.000";
     MessageHandler.qEnvironmentVariableIsSet := fun _ _ => false;
     MessageHandler.open_tty :=
       fun _ => if console then (3, 0) else (-1, MessageHandler.ENXIO);
     MessageHandler.isatty := fun _ _ => 0;
     MessageHandler.sd_booted := fun _ => booted;
     MessageHandler.sd_journal_stream_fd := fun t _ _ => Z.of_nat t + 10 |}.

Definition sample_message (p : MessageHandler.program) (text : string)
  : MessageHandler.message :=
  {| MessageHandler.msg_program := p;
     MessageHandler.msg_type := MessageHandler.QtWarningMsg;
     MessageHandler.msg_context :=
       {| MessageHandler.ctx_file := None; MessageHandler.ctx_line := 0;
          MessageHandler.ctx_function := None |};
     MessageHandler.msg_text := text |}.

(** ** The two versions of [start]

    The object with another log: what a member function does next does
    not depend on the log. *)
Definition with_trace (t : list event) (s : State) : State :=
  {| m_fd := m_fd s; m_serverCmd := m_serverCmd s; m_clientCmd := m_clientCmd s;
     m_display := m_display s; m_serverProcess := m_serverProcess s;
     m_clientProcess := m_clientProcess s; heap_next := heap_next s;
     connections := connections s; trace := t |}.

(** A computation that does not read the log: from the same object with
    another log it returns the same, leaves the same object and adds the
    same events. *)
Definition blind {A} (m : M A) : Prop :=
  forall s, exists evs,
    trace (snd (m s)) = trace s ++ evs
    /\ forall t, m (with_trace t s)
                 = (fst (m s), with_trace (t ++ evs) (snd (m s))).

(** The events only one of the two versions has: the cookie, asked for at
    another moment and for another name, and the second lambda connected
    to the client. *)
Definition is_session_connect (e : event) : bool :=
  match e with EvConnect _ SessionFinished => true | _ => false end.

Definition in_both_versions (e : event) : bool :=
  negb (is_addCookie e || is_session_connect e).

(** The members of the object but for the connections of its processes. *)
Definition fields (s : State) :=
  (m_fd s, m_serverCmd s, m_clientCmd s, m_display s, m_serverProcess s,
   m_clientProcess s, heap_next s).

(** ** The log of [startDisplayCommand]

    The events of one auxiliary command, started as process [heap_next s]
    with the environment of the session and given [msecs] to finish: the
    start and, when it started, the wait, the kill if it is still running,
    and the release. *)
Definition auxiliary_events (o : Oracle) (s : State) (cmd : string)
    (msecs : Z) : list event :=
  let p := heap_next s in
  match splitCommand o cmd with
  | [] => []
  | program :: args =>
      [EvConnect p QuitOnFault;
       EvStart p program args (session_env o (m_display s));
       EvWaitForStarted p (waitForStarted o p)]
      ++ (if waitForStarted o p
          then wait_events o (m_serverProcess s)
                 (connections s ++ [(p, QuitOnFault)]) p msecs
               ++ (if is_finished (waitForFinished o p msecs) then []
                   else [EvKill p])
               ++ [EvDeleteLater p]
          else [])
  end.

(** The object after an auxiliary command: one more process, with the
    first lambda connected. *)
Definition after_auxiliary (evs : list event) (s : State) : State :=
  set_heap (S (heap_next s)) (connections s ++ [(heap_next s, QuitOnFault)])
    (add_events evs s).

Definition cursor_command : string := "xsetroot -cursor_name left_ptr".

Definition is_deleteLater (p : proc) (e : event) : bool :=
  match e with EvDeleteLater q => Nat.eqb p q | _ => false end.

Definition is_wait (p : proc) (msecs : Z) (e : event) : bool :=
  match e with
  | EvWaitForFinished q m _ => Nat.eqb p q && (msecs =? m)
  | _ => false
  end.

(** An event about the process [p] after its start. *)
Definition is_after_start (p : proc) (e : event) : bool :=
  match e with
  | EvWaitForFinished q _ _ | EvKill q | EvDeleteLater q | EvTerminate q =>
      Nat.eqb p q
  | _ => false
  end.

(** * Properties *)

(** ** The log *)

Lemma events_of_add_events {A} (m : M A) (s : State) (evs : list event) :
  trace (snd (m s)) = trace s ++ evs -> events_of m s = evs.
Proof.
  intros H. unfold events_of. rewrite H. apply drop_app_length.
Qed.


Lemma add_events_nil (s : State) : add_events [] s = s.
Proof. destruct s. unfold add_events. cbn. by rewrite app_nil_r. Qed.

Lemma add_events_app (evs1 evs2 : list event) (s : State) :
  add_events evs2 (add_events evs1 s) = add_events (evs1 ++ evs2) s.
Proof. unfold add_events. cbn. by rewrite app_assoc. Qed.

Lemma add_event_add_events (e : event) (s : State) :
  add_event e s = add_events [e] s.
Proof. reflexivity. Qed.

(** Symbolic execution of a member function: unfold the monad, then
    bring the log into the form [trace s ++ events]. *)
Ltac unfold_monad :=
  cbv [bind ret log modify gets when undefined_behaviour quit
       connect_finished new_QProcess QProcess_waitForStarted] in *.

Ltac normalize_log :=
  cbn [trace add_event add_events set_serverCmd set_display set_serverProcess
       set_clientProcess set_heap fst snd m_fd m_serverCmd m_clientCmd
       m_display m_serverProcess m_clientProcess heap_next connections] in *;
  rewrite <- ?app_assoc in *; cbn [app] in *.

Ltac case_step :=
  match goal with
  | |- context [match pipe ?o with _ => _ end] =>
      let fd0 := fresh "fd0" in
      let fd1 := fresh "fd1" in
      destruct (pipe o) as [[fd0 fd1]|] eqn:?
  | |- context [match splitCommand ?o ?c with _ => _ end] =>
      let program := fresh "program" in
      let args := fresh "args" in
      destruct (splitCommand o c) as [|program args] eqn:?
  | |- context [if negb ?b then _ else _] => destruct b eqn:?; cbn [negb]
  | |- context [if ?b then _ else _] => destruct b eqn:?
  end.

Ltac exec :=
  unfold events_of, result_of, state_after; unfold_monad; cbn beta iota;
  normalize_log; repeat (case_step; normalize_log);
  rewrite ?drop_app_length.

(** Case analysis on [H : e ∈ log] for an explicit log: the events of
    another kind are ruled out. *)
Ltac in_log H :=
  lazymatch type of H with
  | _ ∈ [] => apply elem_of_nil in H; contradiction
  | _ ∈ _ :: _ =>
      apply elem_of_cons in H as [H|H]; [try discriminate H | in_log H]
  end.

(** ** Strings and byte arrays *)

Lemma append_cons (c : ascii) (a b : string) :
  String c a +:+ b = String c (a +:+ b).
Proof. reflexivity. Qed.

Lemma append_nil_r (a : string) : a +:+ EmptyString = a.
Proof.
  induction a as [|c a IH]; [reflexivity|].
  rewrite append_cons. by f_equal.
Qed.

Lemma append_cons_ne (a : string) (c : ascii) (b : string) :
  a +:+ String c b <> a.
Proof.
  intros H.
  assert (a +:+ String c b = a +:+ EmptyString) as H'
    by (by rewrite append_nil_r).
  apply (inj (String.app a)) in H'. discriminate H'.
Qed.

Lemma server_suffix_spec (o : Oracle) (writeFd : Z) :
  " " +:+ join_space (XOrgUserHelper.server_args o (spec_server_env o) writeFd)
  = spec_server_suffix o writeFd.
Proof.
  unfold spec_server_suffix, XOrgUserHelper.server_args, join_space,
    spec_server_env, env_value.
  rewrite lookup_insert_ne by done. reflexivity.
Qed.

Lemma remove_last_byte (bytes : QByteArray) :
  (2 <= length bytes)%nat ->
  QByteArray_remove (Z.of_nat (length (QByteArray_prepend colon bytes)) - 1) 1
    (QByteArray_prepend colon bytes)
  = display_bytes bytes.
Proof.
  intros Hlen. unfold QByteArray_remove, QByteArray_prepend, display_bytes, colon.
  cbn [length app].
  replace (Z.of_nat (S (length bytes)) - 1) with (Z.of_nat (length bytes)) by lia.
  repeat match goal with
         | |- context [?a <? ?b] => destruct (Z.ltb_spec a b); try lia
         | |- context [?a <=? ?b] => destruct (Z.leb_spec a b); try lia
         end.
  cbn [orb]. rewrite Nat2Z.id.
  destruct bytes as [|b bytes]; [cbn in Hlen; lia|].
  cbn [length]. replace (S (length bytes) - 1)%nat with (length bytes) by lia.
  reflexivity.
Qed.

Lemma display_bytes_snoc (ds : QByteArray) (t : byte) :
  display_bytes (ds ++ [t]) = colon ++ ds.
Proof.
  unfold display_bytes. rewrite length_app. cbn [length].
  replace (length ds + 1 - 1)%nat with (length ds) by lia.
  by rewrite take_app_length.
Qed.

Lemma strip_digits (ds : QByteArray) (t : byte) :
  Forall (fun b => is_digit b = true) ds -> is_whitespace t = true ->
  strip_trailing_whitespace (ds ++ [t]) = ds.
Proof.
  intros Hds Ht. induction Hds as [|d ds Hd Hds IH]; cbn.
  - by rewrite Ht.
  - rewrite IH. destruct ds as [|d' ds]; [|done].
    replace (is_whitespace d) with false; [done|].
    revert Hd. destruct d; vm_compute; congruence.
Qed.

(** ** The handshake *)

Lemma short_read (bytes : QByteArray) :
  (Z.of_nat (length bytes) <? 2) = false -> (2 <= length bytes)%nat.
Proof. intros H. apply Z.ltb_ge in H. lia. Qed.

(** C5: the code at a line that does not end in white space.  The
    server's answer ["12"] arrives without a line terminator; the line
    [displayNumber.remove(displayNumber.size() - 1, 1)], commented
    "trim trailing whitespace", takes the digit [2] away.  [startServer]
    succeeds, records display [":1"], has the cookie issued for [":1"]
    and reports [":1"] to the caller, where stripping trailing white
    space gives [":12"]. *)
Theorem unterminated_line_loses_digit :
  let o := world twelve true nobody_exits in
  let s' := state_after (XOrgUserHelper.startServer o) (helper0 3) in
  let evs := events_of (XOrgUserHelper.startServer o) (helper0 3) in
  readLine o = [x31; x32]
  /\ result_of (XOrgUserHelper.startServer o) (helper0 3) = Some true
  /\ m_display s' = ":1"
  /\ List.filter is_addCookie evs = [EvAddCookie ":1" true]
  /\ List.filter is_write evs = [EvWrite 3 [x3a; x31]]
  /\ spec_display (readLine o) = ":12"
  /\ m_display s' <> spec_display (readLine o).
Proof. vm_compute. repeat split; congruence. Qed.

(** What [startServer] makes of the line read.  Once a line of at least
    2 bytes has been read from the pipe, the recorded display name is
    [':'] followed by the bytes read without their last byte; when the
    bytes read are decimal digits followed by one white-space byte (the
    line terminator), this is [':'] followed by the digits, the name the
    specification derives. *)
Theorem display_name_resolved (o : Oracle) (s : State) :
  EvReadLine (readLine o) ∈ events_of (XOrgUserHelper.startServer o) s ->
  (2 <= length (readLine o))%nat ->
  let s' := state_after (XOrgUserHelper.startServer o) s in
  m_display s' = QString_fromLocal8Bit (display_bytes (readLine o))
  /\ forall ds t,
       readLine o = ds ++ [t] ->
       Forall (fun b => is_digit b = true) ds -> is_whitespace t = true ->
       m_display s' = String ":" (string_of_list_byte ds)
       /\ m_display s' = spec_display (readLine o).
Proof.
  intros Hread Hlen.
  assert (m_display (state_after (XOrgUserHelper.startServer o) s)
          = QString_fromLocal8Bit (display_bytes (readLine o))) as Hname.
  { revert Hread.
    unfold XOrgUserHelper.startServer, XOrgUserHelper.startProcess. exec;
      intros Hread; try solve [in_log Hread];
      try (match goal with
           | H : (_ <? 2) = true |- _ => apply Z.ltb_lt in H; lia
           end);
      f_equal; by apply remove_last_byte. }
  intros s'. split; [exact Hname|].
  intros ds t Hbytes Hds Ht. subst s'. rewrite Hname, Hbytes.
  unfold spec_display. rewrite strip_digits, display_bytes_snoc by done.
  split; reflexivity.
Qed.

Lemma display_name_resolved_witness :
  let o := world seven true nobody_exits in
  EvReadLine (readLine o) ∈ events_of (XOrgUserHelper.startServer o) (helper0 3)
  /\ (2 <= length (readLine o))%nat
  /\ m_display (state_after (XOrgUserHelper.startServer o) (helper0 3)) = ":7".
Proof.
  intros o.
  assert (EvReadLine (readLine o)
          ∈ events_of (XOrgUserHelper.startServer o) (helper0 3)) as Hread
    by (apply list_elem_of_lookup; exists 6%nat; vm_compute; reflexivity).
  assert (2 <= length (readLine o))%nat as Hlen by (cbn; lia).
  split; [exact Hread|]. split; [exact Hlen|].
  destruct (display_name_resolved o (helper0 3) Hread Hlen) as [_ Hdigits].
  destruct (Hdigits [x37] x0a) as [Hname _].
  - reflexivity.
  - repeat constructor.
  - reflexivity.
  - exact Hname.
Defined.

(** ** What a computation can log *)

Section Emits.

Variable P : event -> Prop.

Lemma emits_ret {A} (a : A) : emits P (ret a).
Proof. intros s. exists []. cbn. by rewrite app_nil_r. Qed.

Lemma emits_gets {A} (f : State -> A) : emits P (gets f).
Proof. intros s. exists []. cbn. by rewrite app_nil_r. Qed.

Lemma emits_null {A} : emits P (@undefined_behaviour A).
Proof. intros s. exists []. cbn. by rewrite app_nil_r. Qed.

Lemma emits_log (e : event) : P e -> emits P (log e).
Proof. intros He s. exists [e]. cbn. split; [done | by constructor]. Qed.

Lemma emits_modify (f : State -> State) :
  (forall s, trace (f s) = trace s) -> emits P (modify f).
Proof. intros Hf s. exists []. cbn. by rewrite Hf, app_nil_r. Qed.

Lemma emits_bind {A B} (m : M A) (k : A -> M B) :
  emits P m -> (forall a, emits P (k a)) -> emits P (bind m k).
Proof.
  intros Hm Hk s. unfold bind.
  destruct (Hm s) as (evs1 & Htr1 & HP1).
  destruct (m s) as [[a|] s1]; cbn in *.
  - destruct (Hk a s1) as (evs2 & Htr2 & HP2).
    exists (evs1 ++ evs2). rewrite Htr2, Htr1, app_assoc.
    split; [done | by apply Forall_app].
  - by exists evs1.
Qed.

Lemma emits_when (c : bool) (m : M unit) : emits P m -> emits P (when c m).
Proof. destruct c; [done | intros _; apply emits_ret]. Qed.

End Emits.

Lemma emits_weaken {A} (P Q : event -> Prop) (m : M A) :
  (forall e, P e -> Q e) -> emits P m -> emits Q m.
Proof.
  intros HPQ Hm s. destruct (Hm s) as (evs & Htr & HP).
  exists evs. split; [done | by eapply Forall_impl].
Qed.

(** Proves [emits P m] by following the structure of [m]. *)
Ltac emits_step :=
  lazymatch goal with
  | |- emits _ (bind _ _) => apply emits_bind; [|intros ?]
  | |- emits _ (ret _) => apply emits_ret
  | |- emits _ (gets _) => apply emits_gets
  | |- emits _ undefined_behaviour => apply emits_null
  | |- emits _ (log _) => apply emits_log; first [reflexivity | exact I | idtac]
  | |- emits _ (modify _) => apply emits_modify; intros ?; reflexivity
  | |- emits _ (when _ _) => apply emits_when
  | |- emits _ (match ?x with _ => _ end) => destruct x
  | |- emits _ (let _ := _ in _) => cbv zeta
  end.

Section ProcessEvents.

Variable o : Oracle.

Let P (e : event) : Prop := is_process_event e = true.

Lemma emits_slots (obs : list observer) (exitCode : Z) (st : ExitStatus) :
  emits P (slots obs exitCode st).
Proof.
  induction obs as [|ob obs IH]; cbn [slots]; [apply emits_ret|].
  apply emits_bind; [|intros _; exact IH].
  destruct ob; unfold slot, quit; repeat emits_step.
Qed.

Lemma emits_waitForFinished (p : proc) (msecs : Z) :
  emits P (QProcess_waitForFinished o p msecs).
Proof.
  unfold QProcess_waitForFinished, emit_finished.
  repeat emits_step; apply emits_slots.
Qed.

Lemma emits_startProcess (cmd : string) (env : QProcessEnvironment) :
  emits P (XOrgUserHelper.startProcess o cmd env).
Proof.
  assert (emits P new_QProcess) as Hnew.
  { intros s. exists []. cbn. by rewrite app_nil_r. }
  unfold XOrgUserHelper.startProcess, connect_finished,
    QProcess_waitForStarted.
  repeat first [ exact Hnew | emits_step ].
Qed.

Lemma emits_wait_or_kill (p : proc) (msecs : Z) :
  emits P (XOrgUserHelper.wait_or_kill o p msecs).
Proof.
  unfold XOrgUserHelper.wait_or_kill.
  repeat emits_step. apply emits_waitForFinished.
Qed.

Lemma emits_startDisplayCommand :
  emits P (XOrgUserHelper.startDisplayCommand o).
Proof.
  unfold XOrgUserHelper.startDisplayCommand.
  repeat first [ apply emits_startProcess | apply emits_wait_or_kill
               | emits_step ].
Qed.

Lemma emits_startClient : emits P (XOrgUserHelper.startClient o).
Proof.
  unfold XOrgUserHelper.startClient, connect_finished.
  repeat first [ apply emits_startProcess | emits_step ].
Qed.

Lemma emits_legacy_startClient : emits P (HelperStartXorgUser.startClient o).
Proof.
  unfold HelperStartXorgUser.startClient, HelperStartXorgUser.startProcess.
  repeat first [ apply emits_startProcess | emits_step ].
Qed.

End ProcessEvents.

(** ** [start] is [startServer] followed by process events *)

Lemma startServer_extends (o : Oracle) :
  emits (fun _ => True) (XOrgUserHelper.startServer o).
Proof.
  unfold XOrgUserHelper.startServer.
  repeat first
    [ eapply emits_weaken; [|apply emits_startProcess]; done | emits_step ].
Qed.

Lemma legacy_startServer_extends (o : Oracle) :
  emits (fun _ => True) (HelperStartXorgUser.startServer o).
Proof.
  unfold HelperStartXorgUser.startServer, HelperStartXorgUser.startProcess.
  repeat first
    [ eapply emits_weaken; [|apply emits_startProcess]; done | emits_step ].
Qed.

(** The part of [start] that runs from [startServer] on, from state [s1]
    whose log is the log of [s] followed by [pre]. *)
Ltac solve_start_tail o s1 Hs1 extends startServer emitsC startClient :=
  destruct (extends o s1) as (?evsS & ?HS & _);
  destruct (startServer o s1) as [[[|]|] ?s2]; cbn [negb fst snd] in *;
  [ destruct (emits_startDisplayCommand o s2) as (?evsD & ?HD & ?HPD);
    destruct (XOrgUserHelper.startDisplayCommand o s2) as [[[]|] ?s3];
    cbn [fst snd] in *;
    [ destruct (emitsC o s3) as (?evsC & ?HC & ?HPC);
      exists (evsD ++ evsC);
      destruct (startClient o s3) as [[[|]|] ?s4];
      cbn [negb fst snd] in *;
      rewrite HC, HD, HS, drop_app_length, Hs1, <- !app_assoc,
        drop_app_length;
      (repeat split; [by apply Forall_app | congruence..])
    | exists evsD;
      rewrite HD, HS, drop_app_length, Hs1, <- !app_assoc, drop_app_length;
      (repeat split; [done | congruence..]) ]
  | exists [];
    rewrite HS, drop_app_length, Hs1, <- !app_assoc, drop_app_length,
      app_nil_r; done
  | exists [];
    rewrite HS, drop_app_length, Hs1, <- !app_assoc, drop_app_length,
      app_nil_r; done ].

Lemma start_events (o : Oracle) (s : State) :
  let s1 := add_event EvXauthSetup s in
  exists rest,
    events_of (XOrgUserHelper.start o) s
    = EvXauthSetup :: events_of (XOrgUserHelper.startServer o) s1 ++ rest
    /\ Forall (fun e => is_process_event e = true) rest
    /\ (result_of (XOrgUserHelper.startServer o) s1 <> Some true ->
        rest = []
        /\ result_of (XOrgUserHelper.start o) s
           = result_of (XOrgUserHelper.startServer o) s1
        /\ state_after (XOrgUserHelper.start o) s
           = state_after (XOrgUserHelper.startServer o) s1).
Proof.
  intros s1. assert (trace s1 = trace s ++ [EvXauthSetup]) as Hs1 by reflexivity.
  unfold events_of, result_of, state_after, XOrgUserHelper.start.
  cbv [bind log modify ret]. change (add_event EvXauthSetup s) with s1.
  clearbody s1.
  solve_start_tail o s1 Hs1 startServer_extends XOrgUserHelper.startServer
    emits_startClient XOrgUserHelper.startClient.
Qed.

Lemma legacy_start_events (o : Oracle) (s : State) :
  addCookie o (m_display s) = true ->
  let s1 := add_event (EvAddCookie (m_display s) true)
              (add_event EvXauthSetup s) in
  exists rest,
    events_of (HelperStartXorgUser.start o) s
    = EvXauthSetup :: EvAddCookie (m_display s) true
      :: events_of (HelperStartXorgUser.startServer o) s1 ++ rest
    /\ Forall (fun e => is_process_event e = true) rest
    /\ (result_of (HelperStartXorgUser.startServer o) s1 <> Some true ->
        rest = []
        /\ result_of (HelperStartXorgUser.start o) s
           = result_of (HelperStartXorgUser.startServer o) s1
        /\ state_after (HelperStartXorgUser.start o) s
           = state_after (HelperStartXorgUser.startServer o) s1).
Proof.
  intros Hcookie s1.
  assert (trace s1 = trace s ++ [EvXauthSetup; EvAddCookie (m_display s) true])
    as Hs1 by (cbn; by rewrite <- app_assoc).
  unfold events_of, result_of, state_after, HelperStartXorgUser.start.
  cbv [bind log modify ret gets]. cbn [m_display add_event].
  rewrite Hcookie. cbn [negb].
  change (add_event (EvAddCookie (m_display s) true)
            (add_event EvXauthSetup s)) with s1.
  clearbody s1. unfold HelperStartXorgUser.startDisplayCommand.
  solve_start_tail o s1 Hs1 legacy_startServer_extends
    HelperStartXorgUser.startServer
    emits_legacy_startClient HelperStartXorgUser.startClient.
Qed.

(** ** The report through the inherited descriptor *)

Lemma elem_of_filter_true (f : event -> bool) (e : event) (evs : list event) :
  e ∈ evs -> f e = true -> e ∈ List.filter f evs.
Proof.
  intros Hin Hf. apply list_elem_of_In, filter_In.
  split; [by apply list_elem_of_In | done].
Qed.

Lemma filter_process_events (f : event -> bool) (evs : list event) :
  (forall e, is_process_event e = true -> f e = false) ->
  Forall (fun e => is_process_event e = true) evs ->
  List.filter f evs = [].
Proof.
  intros Hf Hevs. induction Hevs as [|e evs He _ IH]; [done|].
  cbn. by rewrite (Hf e He).
Qed.

(** What [startServer] writes: the display name, once, when it succeeds
    and the descriptor is positive. *)
Lemma startServer_writes (o : Oracle) (s : State) :
  List.filter is_write (events_of (XOrgUserHelper.startServer o) s)
  = match result_of (XOrgUserHelper.startServer o) s with
    | Some true =>
        if 0 <? m_fd s
        then [EvWrite (m_fd s) (display_bytes (readLine o))]
        else []
    | _ => []
    end.
Proof.
  unfold XOrgUserHelper.startServer, XOrgUserHelper.startProcess. exec;
    try reflexivity.
  rewrite remove_last_byte by (by apply short_read). reflexivity.
Qed.

Lemma legacy_startServer_writes (o : Oracle) (s : State) :
  List.filter is_write (events_of (HelperStartXorgUser.startServer o) s)
  = match result_of (HelperStartXorgUser.startServer o) s with
    | Some true =>
        if 0 <? m_fd s
        then [EvWrite (m_fd s) (display_bytes (readLine o))]
        else []
    | _ => []
    end.
Proof.
  unfold HelperStartXorgUser.startServer, HelperStartXorgUser.startProcess,
    XOrgUserHelper.startProcess. exec; try reflexivity.
  rewrite remove_last_byte by (by apply short_read). reflexivity.
Qed.

(** What [start] writes is what its [startServer] writes. *)
Lemma start_writes (o : Oracle) (s : State) :
  List.filter is_write (events_of (XOrgUserHelper.start o) s)
  = List.filter is_write
      (events_of (XOrgUserHelper.startServer o) (add_event EvXauthSetup s)).
Proof.
  destruct (start_events o s) as (rest & Hev & HP & _).
  rewrite Hev. cbn [List.filter is_write]. rewrite List.filter_app.
  rewrite (filter_process_events is_write rest), app_nil_r; [done| |done].
  by intros [].
Qed.

Lemma legacy_start_writes (o : Oracle) (s : State) :
  List.filter is_write (events_of (HelperStartXorgUser.start o) s)
  = if addCookie o (m_display s)
    then List.filter is_write
           (events_of (HelperStartXorgUser.startServer o)
              (add_event (EvAddCookie (m_display s) true)
                 (add_event EvXauthSetup s)))
    else [].
Proof.
  destruct (addCookie o (m_display s)) eqn:Hcookie.
  - destruct (legacy_start_events o s Hcookie) as (rest & Hev & HP & _).
    rewrite Hev. cbn [List.filter is_write]. rewrite List.filter_app.
    rewrite (filter_process_events is_write rest), app_nil_r; [done| |done].
    by intros [].
  - unfold HelperStartXorgUser.start. exec; first [discriminate | reflexivity].
Qed.

(** C9: with a report descriptor of 0 or less, 0 included, [start] writes
    nothing at all: the display name is reported to no descriptor.  This
    holds of both helpers. *)
Theorem report_needs_positive_fd (o : Oracle) (s : State) :
  m_fd s <= 0 ->
  (forall fd bytes, EvWrite fd bytes ∉ events_of (XOrgUserHelper.start o) s)
  /\ (forall fd bytes,
        EvWrite fd bytes ∉ events_of (HelperStartXorgUser.start o) s).
Proof.
  intros Hfd.
  assert ((0 <? m_fd s) = false) as Hneg by (apply Z.ltb_ge; lia).
  split; intros fd bytes Hin;
    apply (elem_of_filter_true is_write) in Hin; try reflexivity.
  - rewrite start_writes, startServer_writes in Hin.
    cbn [m_fd add_event] in Hin. rewrite Hneg in Hin.
    destruct (result_of _ _) as [[|]|]; by apply elem_of_nil in Hin.
  - rewrite legacy_start_writes in Hin.
    destruct (addCookie o (m_display s)); [|by apply elem_of_nil in Hin].
    rewrite legacy_startServer_writes in Hin.
    cbn [m_fd add_event] in Hin. rewrite Hneg in Hin.
    destruct (result_of _ _) as [[|]|]; by apply elem_of_nil in Hin.
Qed.

Lemma report_needs_positive_fd_witness :
  let o := world seven true everybody_exits in
  m_fd (helper0 0) <= 0
  /\ result_of (XOrgUserHelper.start o) (helper0 0) = Some true
  /\ (forall fd bytes,
        EvWrite fd bytes ∉ events_of (XOrgUserHelper.start o) (helper0 0))
  /\ (forall fd bytes,
        EvWrite fd bytes ∉ events_of (HelperStartXorgUser.start o) (helper0 0)).
Proof.
  intros o.
  assert (m_fd (helper0 0) <= 0) as Hfd by (cbn; lia).
  split; [exact Hfd|]. split; [vm_compute; reflexivity|].
  exact (report_needs_positive_fd o (helper0 0) Hfd).
Defined.




(** ** The server command *)

Lemma server_suffix_not_empty (o : Oracle) (writeFd : Z) (cmd : string) :
  cmd +:+ spec_server_suffix o writeFd <> cmd.
Proof. apply append_cons_ne. Qed.

(** The process events of [startServer], whatever its outcome. *)
Lemma startServer_starts (o : Oracle) (s : State) (fd0 fd1 : Z) :
  pipe o = Some (fd0, fd1) ->
  let cmd := m_serverCmd s +:+ spec_server_suffix o fd1 in
  List.filter is_start (events_of (XOrgUserHelper.startServer o) s)
  = match splitCommand o cmd with
    | [] => []
    | program :: args =>
        [EvStart (heap_next s) program args (spec_server_env o)]
    end
  /\ m_serverCmd (state_after (XOrgUserHelper.startServer o) s) = cmd.
Proof.
  intros Hpipe cmd. subst cmd. rewrite <- server_suffix_spec.
  unfold XOrgUserHelper.startServer, XOrgUserHelper.startProcess, spec_server_env.
  rewrite Hpipe. exec; split; reflexivity.
Qed.

Lemma legacy_startServer_starts (o : Oracle) (s : State) (fd0 fd1 : Z) :
  pipe o = Some (fd0, fd1) ->
  let cmd := m_serverCmd s +:+ spec_server_suffix o fd1 in
  List.filter is_start (events_of (HelperStartXorgUser.startServer o) s)
  = match splitCommand o cmd with
    | [] => []
    | program :: args =>
        [EvStart (heap_next s) program args (spec_server_env o)]
    end
  /\ m_serverCmd (state_after (HelperStartXorgUser.startServer o) s) = cmd.
Proof.
  intros Hpipe cmd. subst cmd. rewrite <- server_suffix_spec.
  unfold HelperStartXorgUser.startServer, HelperStartXorgUser.startProcess,
    HelperStartXorgUser.server_args, XOrgUserHelper.startProcess, spec_server_env.
  rewrite Hpipe. exec; split; reflexivity.
Qed.

(** C10: once the pipe is there, the command [startServer] runs is never
    the command it was given: it is that command followed by
    [" -auth <authorityPath> -displayfd <writeEndFd> vt<XDG_VTNR> -logfile /dev/null"],
    which is also what [m_serverCmd] holds afterwards; the one process it
    starts gets the program and arguments this command splits into, and the
    ambient environment with [XORG_RUN_AS_USER_OK=1] on top.  This holds of
    both helpers. *)
Theorem server_command_extended (o : Oracle) (s : State) (fd0 fd1 : Z) :
  pipe o = Some (fd0, fd1) ->
  let cmd := m_serverCmd s +:+ spec_server_suffix o fd1 in
  cmd <> m_serverCmd s
  /\ (forall program args,
        splitCommand o cmd = program :: args ->
        List.filter is_start (events_of (XOrgUserHelper.startServer o) s)
        = [EvStart (heap_next s) program args
             (<["XORG_RUN_AS_USER_OK" := "1"]> (systemEnvironment o))]
        /\ List.filter is_start
             (events_of (HelperStartXorgUser.startServer o) s)
           = [EvStart (heap_next s) program args
                (<["XORG_RUN_AS_USER_OK" := "1"]> (systemEnvironment o))])
  /\ (forall p program args env,
        EvStart p program args env ∈ events_of (XOrgUserHelper.startServer o) s
        \/ EvStart p program args env
           ∈ events_of (HelperStartXorgUser.startServer o) s ->
        splitCommand o cmd = program :: args
        /\ env = <["XORG_RUN_AS_USER_OK" := "1"]> (systemEnvironment o))
  /\ m_serverCmd (state_after (XOrgUserHelper.startServer o) s) = cmd
  /\ m_serverCmd (state_after (HelperStartXorgUser.startServer o) s) = cmd.
Proof.
  intros Hpipe cmd.
  destruct (startServer_starts o s fd0 fd1 Hpipe) as [Hnew Hcmd].
  destruct (legacy_startServer_starts o s fd0 fd1 Hpipe) as [Hold Hcmd'].
  fold cmd in Hnew, Hold, Hcmd, Hcmd'. fold (spec_server_env o).
  split; [apply server_suffix_not_empty|].
  split; [|split; [|by split]].
  - intros program args Hsplit. rewrite Hsplit in Hnew, Hold. by split.
  - intros p program args env Hin.
    assert (EvStart p program args env
            ∈ match splitCommand o cmd with
              | [] => []
              | program :: args =>
                  [EvStart (heap_next s) program args (spec_server_env o)]
              end) as Hin'.
    { destruct Hin as [Hin|Hin];
        apply (elem_of_filter_true is_start) in Hin; try reflexivity;
        by rewrite ?Hnew, ?Hold in Hin. }
    destruct (splitCommand o cmd) as [|program' args']; in_log Hin'.
    by injection Hin' as -> -> -> ->.
Qed.

Lemma server_command_extended_witness :
  let o := world seven true everybody_exits in
  let s := helper0 3 in
  pipe o = Some (5, 6)
  /\ m_serverCmd (state_after (XOrgUserHelper.startServer o) s)
     = "/usr/bin/X -nolisten tcp -auth /run/user/1000/xauth_abc -displayfd 6 vt2 -logfile /dev/null"
  /\ List.filter is_start (events_of (XOrgUserHelper.startServer o) s)
     = [EvStart 0%nat "/usr/bin/X"
          ["-nolisten"; "tcp"; "-auth"; "/run/user/1000/xauth_abc";
           "-displayfd"; "6"; "vt2"; "-logfile"; "/dev/null"]
          (<["XORG_RUN_AS_USER_OK" := "1"]> {[ "XDG_VTNR" := "2" ]})].
Proof.
  intros o s.
  assert (pipe o = Some (5, 6)) as Hpipe by reflexivity.
  split; [exact Hpipe|].
  destruct (server_command_extended o s 5 6 Hpipe)
    as (_ & Hstart & _ & Hcmd & _).
  split; [exact Hcmd|].
  destruct (Hstart "/usr/bin/X"
              ["-nolisten"; "tcp"; "-auth"; "/run/user/1000/xauth_abc";
               "-displayfd"; "6"; "vt2"; "-logfile"; "/dev/null"])
    as [Hnew _]; [vm_compute; reflexivity|].
  exact Hnew.
Defined.

(** ** A malformed handshake *)

Lemma read_too_short (o : Oracle) :
  (length (readLine o) < 2)%nat ->
  (Z.of_nat (length (readLine o)) <? 2) = false -> False.
Proof. intros Hlen Hge. apply Z.ltb_ge in Hge. lia. Qed.

Lemma malformed_handshake (o : Oracle) (s : State) :
  (length (readLine o) < 2)%nat ->
  EvReadLine (readLine o) ∈ events_of (XOrgUserHelper.start o) s ->
  let s' := state_after (XOrgUserHelper.start o) s in
  let evs := events_of (XOrgUserHelper.start o) s in
  result_of (XOrgUserHelper.start o) s = Some false
  /\ (forall d ok, EvAddCookie d ok ∉ evs)
  /\ (forall p program args env,
        EvStart p program args env ∈ evs -> m_serverProcess s' = Some p)
  /\ m_clientProcess s' = m_clientProcess s.
Proof.
  intros Hlen. cbv zeta.
  unfold XOrgUserHelper.start, XOrgUserHelper.startServer,
    XOrgUserHelper.startProcess.
  exec; try (exfalso; by eapply read_too_short);
    intros Hread; try solve [in_log Hread];
    (split; [reflexivity|]); (split; [intros d ok Hin; in_log Hin|]);
    (split; [|reflexivity]);
    intros p ? ? ? Hin; in_log Hin; by injection Hin as -> _ _ _.
Qed.

Lemma legacy_malformed_handshake (o : Oracle) (s : State) :
  (length (readLine o) < 2)%nat ->
  EvReadLine (readLine o) ∈ events_of (HelperStartXorgUser.start o) s ->
  let s' := state_after (HelperStartXorgUser.start o) s in
  let evs := events_of (HelperStartXorgUser.start o) s in
  result_of (HelperStartXorgUser.start o) s = Some false
  /\ (forall d ok, EvAddCookie d ok ∈ evs -> d = m_display s)
  /\ m_display s' = m_display s
  /\ (forall p program args env,
        EvStart p program args env ∈ evs -> m_serverProcess s' = Some p)
  /\ m_clientProcess s' = m_clientProcess s.
Proof.
  intros Hlen. cbv zeta.
  unfold HelperStartXorgUser.start, HelperStartXorgUser.startServer,
    HelperStartXorgUser.startProcess, XOrgUserHelper.startProcess.
  exec; try (exfalso; by eapply read_too_short);
    intros Hread; try solve [in_log Hread];
    (split; [reflexivity|]);
    (split; [intros d ok Hin; in_log Hin; by injection Hin as -> _|]);
    (split; [reflexivity|]); (split; [|reflexivity]);
    intros p ? ? ? Hin; in_log Hin; by injection Hin as -> _ _ _.
Qed.

(** C3: when the line read from the pipe has fewer than 2 bytes, [start]
    returns false, the only process it has started is the server, no client
    is recorded, and no cookie is issued for a display read from the pipe.
    This holds of each helper wherever it reads the line, whatever the
    other does: [XOrgUserHelper] has not called [addCookie] at all; the
    older helper has called it only before the server was started, for
    the display name it was constructed with, which it keeps. *)
Theorem malformed_handshake_fails (o : Oracle) (s : State) :
  (length (readLine o) < 2)%nat ->
  (EvReadLine (readLine o) ∈ events_of (XOrgUserHelper.start o) s ->
   result_of (XOrgUserHelper.start o) s = Some false
   /\ (forall d ok, EvAddCookie d ok ∉ events_of (XOrgUserHelper.start o) s)
   /\ (forall p program args env,
         EvStart p program args env ∈ events_of (XOrgUserHelper.start o) s ->
         m_serverProcess (state_after (XOrgUserHelper.start o) s) = Some p)
   /\ m_clientProcess (state_after (XOrgUserHelper.start o) s)
      = m_clientProcess s)
  /\ (EvReadLine (readLine o) ∈ events_of (HelperStartXorgUser.start o) s ->
      result_of (HelperStartXorgUser.start o) s = Some false
      /\ (forall d ok,
            EvAddCookie d ok ∈ events_of (HelperStartXorgUser.start o) s ->
            d = m_display s)
      /\ m_display (state_after (HelperStartXorgUser.start o) s) = m_display s
      /\ (forall p program args env,
            EvStart p program args env
            ∈ events_of (HelperStartXorgUser.start o) s ->
            m_serverProcess (state_after (HelperStartXorgUser.start o) s)
            = Some p)
      /\ m_clientProcess (state_after (HelperStartXorgUser.start o) s)
         = m_clientProcess s).
Proof.
  intros Hlen. split.
  - intros Hnew. exact (malformed_handshake o s Hlen Hnew).
  - intros Hold. exact (legacy_malformed_handshake o s Hlen Hold).
Qed.

(** A lone line terminator, in a world where the cookie is refused: the
    newer helper reads the line and fails on it; the older helper has
    failed on the cookie before and never reads. *)
Lemma malformed_handshake_fails_witness :
  let o := world [x0a] false everybody_exits in
  let s := helper0 3 in
  (length (readLine o) < 2)%nat
  /\ EvReadLine (readLine o) ∈ events_of (XOrgUserHelper.start o) s
  /\ (EvReadLine (readLine o) ∉ events_of (HelperStartXorgUser.start o) s)
  /\ result_of (XOrgUserHelper.start o) s = Some false
  /\ (forall d ok, EvAddCookie d ok ∉ events_of (XOrgUserHelper.start o) s)
  /\ m_clientProcess (state_after (XOrgUserHelper.start o) s) = None.
Proof.
  intros o s.
  assert (length (readLine o) < 2)%nat as Hlen by (cbn; lia).
  assert (EvReadLine (readLine o) ∈ events_of (XOrgUserHelper.start o) s)
    as Hnew by (apply list_elem_of_lookup; exists 7%nat; vm_compute; reflexivity).
  assert (EvReadLine (readLine o) ∉ events_of (HelperStartXorgUser.start o) s)
    as Hold.
  { assert (events_of (HelperStartXorgUser.start o) s
            = [EvXauthSetup; EvAddCookie ":0" false]) as ->
      by (vm_compute; reflexivity).
    intros Hin. in_log Hin. }
  destruct (malformed_handshake_fails o s Hlen) as [Hnewer _].
  destruct (Hnewer Hnew) as (Hresult & Hcookie & _ & Hclient).
  split; [exact Hlen|]. split; [exact Hnew|]. split; [exact Hold|].
  split; [exact Hresult|]. split; [exact Hcookie | exact Hclient].
Defined.

(** ** Waiting for a process *)

Lemma slots_spec (obs : list observer) (exitCode : Z) (st : ExitStatus)
    (s : State) :
  safe_slots (m_serverProcess s) obs = true ->
  slots obs exitCode st s
  = (Some tt,
     add_events (flat_map (slot_events (m_serverProcess s) exitCode st) obs) s).
Proof.
  revert s. induction obs as [|ob obs IH]; intros s Hsafe.
  - cbn. by rewrite add_events_nil.
  - cbn [slots flat_map]. unfold bind.
    assert (safe_slots (m_serverProcess s) obs = true) as Hsafe'.
    { unfold safe_slots in *. destruct (m_serverProcess s); [done|].
      cbn in Hsafe. by apply andb_true_iff in Hsafe as [_ ?]. }
    destruct ob; cbn [slot_events].
    + unfold slot, when, quit, log, modify, ret.
      fold (is_fault exitCode st).
      destruct (is_fault exitCode st).
      * rewrite IH by exact Hsafe'. cbn [m_serverProcess add_event].
        by rewrite add_event_add_events, add_events_app.
      * by rewrite IH.
    + unfold slot, bind, gets.
      destruct (m_serverProcess s) as [p|] eqn:Hserver; [|by cbn in Hsafe].
      unfold quit, log, modify. rewrite IH by (cbn; by rewrite Hserver).
      cbn [m_serverProcess add_event]. rewrite Hserver.
      by rewrite !add_event_add_events, !add_events_app.
Qed.

Lemma waitForFinished_spec (o : Oracle) (p : proc) (msecs : Z) (s : State) :
  safe_slots (m_serverProcess s) (observers_of p (connections s)) = true ->
  QProcess_waitForFinished o p msecs s
  = (Some (is_finished (waitForFinished o p msecs)),
     add_events (wait_events o (m_serverProcess s) (connections s) p msecs) s).
Proof.
  intros Hsafe. unfold QProcess_waitForFinished, wait_events, emit_finished.
  destruct (waitForFinished o p msecs) as [exitCode st| |]; try reflexivity.
  unfold bind, log, modify, gets, ret. cbn [connections add_event].
  rewrite slots_spec by done. cbn [m_serverProcess add_event].
  by rewrite add_event_add_events, add_events_app.
Qed.

(** ** Well-formed states *)

Lemma observers_of_app (p : proc) (cs1 cs2 : list (proc * observer)) :
  observers_of p (cs1 ++ cs2) = observers_of p cs1 ++ observers_of p cs2.
Proof. unfold observers_of. by rewrite filter_app, fmap_app. Qed.

Lemma observers_of_fresh (n : proc) (cs : list (proc * observer)) :
  forallb (fun c => Nat.ltb (fst c) n) cs = true -> observers_of n cs = [].
Proof.
  unfold observers_of. induction cs as [|[q ob] cs IH]; [done|].
  cbn [forallb fst]. intros [Hq Hcs]%andb_true_iff.
  apply Nat.ltb_lt in Hq. rewrite filter_cons_False by (cbn; lia).
  by apply IH.
Qed.

Lemma wfb_connections (s : State) :
  wfb s = true ->
  forallb (fun c => Nat.ltb (fst c) (heap_next s)) (connections s) = true.
Proof. unfold wfb. by intros [[? _]%andb_true_iff _]%andb_true_iff. Qed.

Lemma wfb_server (s : State) (p : proc) :
  wfb s = true -> m_serverProcess s = Some p -> (p < heap_next s)%nat.
Proof.
  unfold wfb. intros [[_ Hp]%andb_true_iff _]%andb_true_iff Hserver.
  rewrite Hserver in Hp. by apply Nat.ltb_lt.
Qed.

Lemma wfb_client (s : State) (c : proc) :
  wfb s = true -> m_clientProcess s = Some c ->
  (c < heap_next s)%nat
  /\ exists p, m_serverProcess s = Some p /\ c <> p.
Proof.
  unfold wfb. intros [_ Hc]%andb_true_iff Hclient.
  rewrite Hclient in Hc. apply andb_true_iff in Hc as [Hlt Hp].
  apply Nat.ltb_lt in Hlt. split; [done|].
  destruct (m_serverProcess s) as [p|]; [|done].
  exists p. split; [done|]. apply negb_true_iff, Nat.eqb_neq in Hp. done.
Qed.

(** ** What [stop] does *)

Lemma state_ext (s1 s2 : State) :
  m_fd s1 = m_fd s2 -> m_serverCmd s1 = m_serverCmd s2 ->
  m_clientCmd s1 = m_clientCmd s2 -> m_display s1 = m_display s2 ->
  m_serverProcess s1 = m_serverProcess s2 ->
  m_clientProcess s1 = m_clientProcess s2 ->
  heap_next s1 = heap_next s2 -> connections s1 = connections s2 ->
  trace s1 = trace s2 -> s1 = s2.
Proof. destruct s1, s2. cbn. by intros -> -> -> -> -> -> -> -> ->. Qed.

(** Equality of two states, field by field. *)
Ltac state_eq :=
  f_equal; apply state_ext; normalize_log;
  rewrite <- ?app_assoc; cbn [app]; rewrite <- ?app_assoc;
  try done.

Lemma displayFinished_spec (o : Oracle) (s : State) :
  m_serverProcess s = None ->
  observers_of (heap_next s) (connections s) = [] ->
  splits o (DisplayStopCommand o) = true ->
  XOrgUserHelper.displayFinished o s
  = (Some tt,
     set_heap (S (heap_next s)) (connections s ++ [(heap_next s, QuitOnFault)])
       (add_events (teardown_events o s) s)).
Proof.
  intros Hserver Hfresh Hsplits.
  unfold XOrgUserHelper.displayFinished, XOrgUserHelper.startProcess,
    XOrgUserHelper.wait_or_kill, teardown_events, stop_env, splits in *.
  destruct (splitCommand o (DisplayStopCommand o)) as [|program args];
    [done|].
  unfold_monad. cbn beta iota. normalize_log.
  destruct (waitForStarted o (heap_next s)) eqn:Hstarted; cbn [negb].
  - rewrite waitForFinished_spec.
    + normalize_log. rewrite Hserver.
      destruct (is_finished (waitForFinished o (heap_next s) 5000));
        cbn [negb]; state_eq.
    + normalize_log. rewrite Hserver, observers_of_app, Hfresh.
      unfold observers_of. rewrite filter_cons_True by done. reflexivity.
  - state_eq.
Qed.

Lemma stop_spec (o : Oracle) (s : State) :
  wfb s = true -> splits o (DisplayStopCommand o) = true ->
  XOrgUserHelper.stop o s = (Some tt, stopped o s).
Proof.
  intros Hwf Hsplits.
  pose proof (wfb_connections s Hwf) as Hfresh.
  apply observers_of_fresh in Hfresh.
  unfold XOrgUserHelper.stop, stopped, stop_events, terminate_events.
  destruct (m_clientProcess s) as [c|] eqn:Hclient.
  - destruct (wfb_client s c Hwf Hclient) as (_ & p & Hserver & _).
    unfold_monad. cbn beta iota. rewrite Hclient.
    rewrite waitForFinished_spec
      by (cbn [m_serverProcess add_event]; by rewrite Hserver).
    normalize_log. rewrite Hserver.
    destruct (is_finished (waitForFinished o c 5000)); cbn [negb];
      normalize_log; rewrite Hserver;
      (rewrite waitForFinished_spec
        by (normalize_log; by rewrite Hserver));
      normalize_log; rewrite Hserver;
      destruct (is_finished (waitForFinished o p 5000)); cbn [negb];
      normalize_log; rewrite displayFinished_spec by done;
      state_eq.
  - unfold_monad. cbn beta iota. rewrite Hclient.
    destruct (m_serverProcess s) as [p|] eqn:Hserver.
    + rewrite waitForFinished_spec
        by (normalize_log; by rewrite Hserver).
      normalize_log. rewrite Hserver.
      destruct (is_finished (waitForFinished o p 5000)); cbn [negb];
        normalize_log; rewrite displayFinished_spec by done;
        state_eq.
    + destruct s. cbn in *. subst. by rewrite app_nil_r.
Qed.

(** ** Reading the log of [stop] *)

Lemma stop_events_of (o : Oracle) (s : State) :
  wfb s = true -> splits o (DisplayStopCommand o) = true ->
  events_of (XOrgUserHelper.stop o) s = stop_events o s.
Proof.
  intros Hwf Hsplits. apply events_of_add_events.
  by rewrite stop_spec.
Qed.

Lemma wait_events_Forall (P : event -> Prop) (o : Oracle)
    (server : option proc) (cs : list (proc * observer)) (p : proc)
    (msecs : Z) :
  P (EvWaitForFinished p msecs (waitForFinished o p msecs)) ->
  P EvQuit ->
  (forall q, server = Some q -> P (EvTerminate q)) ->
  Forall P (wait_events o server cs p msecs).
Proof.
  intros Hwait Hquit Hterm. unfold wait_events.
  apply Forall_cons; split; [done|].
  destruct (waitForFinished o p msecs) as [exitCode st| |]; [|done..].
  induction (observers_of p cs) as [|ob obs IH]; [done|].
  cbn [flat_map]. apply Forall_app; split; [|done].
  destruct ob; cbn [slot_events].
  - destruct (is_fault exitCode st); repeat constructor; done.
  - destruct server as [q|]; repeat constructor; auto.
Qed.

Lemma wait_events_not_finished (o : Oracle) (server : option proc)
    (cs : list (proc * observer)) (p : proc) (msecs : Z) :
  is_finished (waitForFinished o p msecs) = false ->
  wait_events o server cs p msecs
  = [EvWaitForFinished p msecs (waitForFinished o p msecs)].
Proof.
  unfold wait_events. by destruct (waitForFinished o p msecs).
Qed.

Lemma countb_app (f : event -> bool) (l1 l2 : list event) :
  countb f (l1 ++ l2) = (countb f l1 + countb f l2)%nat.
Proof. unfold countb. by rewrite List.filter_app, length_app. Qed.

Lemma countb_none (f : event -> bool) (l : list event) :
  Forall (fun e => f e = false) l -> countb f l = 0%nat.
Proof.
  unfold countb. induction 1 as [|e l He _ IH]; [done|].
  cbn. by rewrite He.
Qed.

Lemma precedes_split (A B : event -> bool) (l1 l2 : list event) :
  Forall (fun e => B e = false) l1 -> Forall (fun e => A e = false) l2 ->
  precedes A B (l1 ++ l2).
Proof.
  intros H1 H2 i j a b Hi Hj Ha Hb.
  rewrite Forall_lookup in H1, H2.
  destruct (decide (i < length l1)%nat) as [Hlt|Hge].
  - destruct (decide (j < length l1)%nat) as [Hlt'|Hge']; [|lia].
    rewrite lookup_app_l in Hj by done.
    specialize (H1 _ _ Hj). cbn in H1. congruence.
  - rewrite lookup_app_r in Hi by lia.
    specialize (H2 _ _ Hi). cbn in H2. congruence.
Qed.

(** Proves [Forall (fun e => f e = false) log] for the logs above. *)
Ltac forall_events :=
  repeat first
    [ apply wait_events_Forall;
      [| |let H := fresh in
          intros ? H; try (injection H as <-); try discriminate H]
    | apply Forall_nil
    | apply Forall_app; split
    | apply Forall_cons; split
    | match goal with
      | |- Forall _ (if ?b then _ else _) => destruct b
      | |- Forall _ (match ?x with _ => _ end) => destruct x
      end ];
  unfold is_termination;
  cbn [is_terminate is_kill is_start is_start_of is_remove is_write
       is_addCookie is_quit orb];
  rewrite ?Nat.eqb_refl; try reflexivity.

(** ** Forced kills *)

Lemma kills_in_terminate_events (o : Oracle) (s : State) (p q : proc) :
  countb (is_kill q) (terminate_events o s p)
  = if Nat.eqb q p
    then (if is_finished (waitForFinished o p 5000) then 0 else 1)%nat
    else 0%nat.
Proof.
  unfold terminate_events. rewrite !countb_app.
  rewrite (countb_none _ (wait_events _ _ _ _ _)) by forall_events.
  destruct (is_finished (waitForFinished o p 5000));
    cbn; destruct (Nat.eqb q p); reflexivity.
Qed.

Lemma kills_in_teardown_events (o : Oracle) (s : State) (q : proc) :
  q <> heap_next s -> countb (is_kill q) (teardown_events o s) = 0%nat.
Proof.
  intros Hq%Nat.eqb_neq. apply countb_none. unfold teardown_events.
  forall_events. exact Hq.
Qed.

(** C8: [stop] asks the client and the server to terminate and waits 5 s
    for each; a process that exits within that time is never killed, one
    that has not exited when the time is over is killed exactly once. *)
Theorem stop_kills_after_grace (o : Oracle) (s : State) (p : proc) :
  wfb s = true -> splits o (DisplayStopCommand o) = true ->
  m_clientProcess s = Some p \/ m_serverProcess s = Some p ->
  result_of (XOrgUserHelper.stop o) s = Some tt
  /\ occurs (is_terminate p) (events_of (XOrgUserHelper.stop o) s)
  /\ (forall exitCode exitStatus,
        waitForFinished o p 5000 = Finished exitCode exitStatus ->
        countb (is_kill p) (events_of (XOrgUserHelper.stop o) s) = 0%nat)
  /\ (waitForFinished o p 5000 = TimedOut ->
      countb (is_kill p) (events_of (XOrgUserHelper.stop o) s) = 1%nat).
Proof.
  intros Hwf Hsplits Hp.
  assert (countb (is_kill p) (stop_events o s)
          = (if is_finished (waitForFinished o p 5000) then 0 else 1)%nat
          /\ occurs (is_terminate p) (stop_events o s)) as [Hkills Hterm].
  { unfold stop_events.
    destruct (m_clientProcess s) as [c|] eqn:Hclient.
    - destruct (wfb_client s c Hwf Hclient) as (Hc & sp & Hserver & Hne).
      pose proof (wfb_server s sp Hwf Hserver) as Hsp.
      rewrite Hserver in *. rewrite !countb_app, !kills_in_terminate_events.
      rewrite kills_in_teardown_events
        by (destruct Hp as [[= <-]|[= <-]]; lia).
      assert (Nat.eqb c sp = false) as Hcsp by (by apply Nat.eqb_neq).
      assert (Nat.eqb sp c = false) as Hspc
        by (apply Nat.eqb_neq; congruence).
      unfold occurs. rewrite !existsb_app. unfold terminate_events.
      cbn [existsb app is_terminate].
      destruct Hp as [[= <-]|[= <-]];
        rewrite Nat.eqb_refl, ?Hcsp, ?Hspc, ?orb_true_r; cbn [orb];
        (split; [lia|reflexivity]).
    - destruct Hp as [[=]|Hserver]. rewrite Hserver.
      pose proof (wfb_server s p Hwf Hserver) as Hsp.
      rewrite !countb_app, !kills_in_terminate_events.
      rewrite kills_in_teardown_events by lia. rewrite Nat.eqb_refl.
      split; [cbn; lia|]. unfold occurs, terminate_events. cbn.
      by rewrite Nat.eqb_refl. }
  rewrite stop_events_of by done. unfold result_of. rewrite stop_spec by done.
  split; [reflexivity|]. split; [exact Hterm|]. split.
  - intros exitCode exitStatus Hexit. by rewrite Hkills, Hexit.
  - intros Htimeout. by rewrite Hkills, Htimeout.
Qed.

Lemma stop_kills_after_grace_witness :
  let o := world seven true only_client_exits in
  wfb running = true
  /\ splits o (DisplayStopCommand o) = true
  /\ m_clientProcess running = Some 3%nat
  /\ m_serverProcess running = Some 0%nat
  /\ waitForFinished o 3%nat 5000 = Finished 0 NormalExit
  /\ waitForFinished o 0%nat 5000 = TimedOut
  /\ countb (is_kill 3%nat) (events_of (XOrgUserHelper.stop o) running) = 0%nat
  /\ countb (is_kill 0%nat) (events_of (XOrgUserHelper.stop o) running) = 1%nat.
Proof.
  intros o.
  assert (wfb running = true) as Hwf by (vm_compute; reflexivity).
  assert (splits o (DisplayStopCommand o) = true) as Hsplits
    by (vm_compute; reflexivity).
  assert (m_clientProcess running = Some 3%nat) as Hclient
    by (vm_compute; reflexivity).
  assert (m_serverProcess running = Some 0%nat) as Hserver
    by (vm_compute; reflexivity).
  destruct (stop_kills_after_grace o running 3%nat Hwf Hsplits (or_introl Hclient))
    as (_ & _ & Hexited & _).
  destruct (stop_kills_after_grace o running 0%nat Hwf Hsplits (or_intror Hserver))
    as (_ & _ & _ & Htimeout).
  split; [exact Hwf|]. split; [exact Hsplits|].
  split; [exact Hclient|]. split; [exact Hserver|].
  split; [reflexivity|]. split; [reflexivity|].
  split; [exact (Hexited 0 NormalExit eq_refl) | exact (Htimeout eq_refl)].
Defined.

(** ** The order of shutdown *)

Lemma filter_none (f : event -> bool) (l : list event) :
  Forall (fun e => f e = false) l -> List.filter f l = [].
Proof.
  induction 1 as [|e l He _ IH]; [done|]. cbn. by rewrite He.
Qed.

(** The client is dealt with before the server is. *)
Lemma client_before_server (o : Oracle) (s : State) (c p : proc)
    (rest : list event) :
  m_serverProcess s = Some p -> c <> p ->
  Forall (fun e => is_termination c e = false) rest ->
  precedes (is_termination c) (is_termination p)
    (terminate_events o s c ++ terminate_events o s p ++ rest).
Proof.
  intros Hserver Hne Hrest.
  assert (Nat.eqb c p = false) as Hcp by (by apply Nat.eqb_neq).
  assert (Nat.eqb p c = false) as Hpc by (apply Nat.eqb_neq; congruence).
  unfold terminate_events at 1.
  destruct (is_finished (waitForFinished o c 5000)) eqn:Hfinished.
  - rewrite <- app_assoc. apply precedes_split.
    + forall_events. by rewrite Hpc.
    + unfold terminate_events. rewrite Hserver.
      forall_events; by rewrite ?Hcp.
  - rewrite wait_events_not_finished by done.
    apply precedes_split.
    + forall_events; by rewrite ?Hpc.
    + unfold terminate_events. rewrite Hserver.
      forall_events; by rewrite ?Hcp.
Qed.

Lemma teardown_events_no_termination (o : Oracle) (s : State) (q : proc) :
  q <> heap_next s ->
  Forall (fun e => is_termination q e = false) (teardown_events o s).
Proof.
  intros Hq%Nat.eqb_neq. unfold teardown_events. forall_events; by rewrite ?Hq.
Qed.

Lemma terminate_events_no_start (o : Oracle) (s : State) (p : proc) :
  Forall (fun e => is_start e = false) (terminate_events o s p)
  /\ Forall (fun e => is_remove e = false) (terminate_events o s p).
Proof. unfold terminate_events. split; forall_events. Qed.

(** The display stop script: started once, before the one removal of the
    authority file. *)
Lemma teardown_events_shape (o : Oracle) (s : State) (program : string)
    (args : list string) :
  splitCommand o (DisplayStopCommand o) = program :: args ->
  List.filter is_start (teardown_events o s)
  = [EvStart (heap_next s) program args (stop_env o s)]
  /\ List.filter is_remove (teardown_events o s) = [EvRemoveFile (authPath o)]
  /\ exists body,
       teardown_events o s = body ++ [EvRemoveFile (authPath o)]
       /\ Forall (fun e => is_remove e = false) body.
Proof.
  intros Hsplit. unfold teardown_events. rewrite Hsplit.
  set (script := if waitForStarted o (heap_next s) then _ else _).
  assert (Forall (fun e => is_start e = false) script
          /\ Forall (fun e => is_remove e = false) script) as [Hs Hr].
  { subst script. split; forall_events. }
  split; [|split].
  - cbn. rewrite List.filter_app, (filter_none _ _ Hs). reflexivity.
  - cbn. rewrite List.filter_app, (filter_none _ _ Hr). reflexivity.
  - eexists. rewrite app_assoc. split; [reflexivity|]. forall_events. done.
Qed.

(** Proves [Forall (fun e => f e = false) log] where [f] asks for an
    event about one process. *)
Ltac forall_about :=
  forall_events; cbn [is_after_start is_wait is_deleteLater andb];
  try reflexivity.

Lemma terminate_events_about (o : Oracle) (s : State) (p q server : proc) :
  m_serverProcess s = Some server ->
  Nat.eqb q p = false -> Nat.eqb q server = false ->
  Forall (fun e => is_after_start q e = false) (terminate_events o s p).
Proof.
  intros Hserver Hqp Hqs. unfold terminate_events. rewrite Hserver.
  forall_about; by rewrite ?Hqp, ?Hqs.
Qed.

Lemma terminate_events_no_wait (o : Oracle) (s : State) (p q : proc)
    (msecs : Z) :
  Nat.eqb q p = false ->
  Forall (fun e => is_wait q msecs e = false) (terminate_events o s p).
Proof.
  intros Hqp. unfold terminate_events. forall_about; by rewrite ?Hqp.
Qed.

Lemma teardown_events_about (o : Oracle) (s : State) (q : proc) :
  Nat.eqb q (heap_next s) = false ->
  Forall (fun e => is_after_start q e = false) (teardown_events o s).
Proof.
  intros Hq. unfold teardown_events. forall_about; by rewrite ?Hq.
Qed.

Lemma teardown_events_no_wait (o : Oracle) (s : State) (q : proc)
    (msecs : Z) :
  Nat.eqb q (heap_next s) = false ->
  Forall (fun e => is_wait q msecs e = false) (teardown_events o s).
Proof.
  intros Hq. unfold teardown_events. forall_about; by rewrite ?Hq.
Qed.

(** The display stop script after its start: the wait, the kill when it
    has not finished in time, the release; nothing when it has not
    started. *)
Lemma teardown_events_phases (o : Oracle) (s : State) (program : string)
    (args : list string) :
  splitCommand o (DisplayStopCommand o) = program :: args ->
  let q := heap_next s in
  teardown_events o s
  = [EvConnect q QuitOnFault; EvStart q program args (stop_env o s);
     EvWaitForStarted q (waitForStarted o q)]
    ++ (if waitForStarted o q
        then wait_events o None (connections s ++ [(q, QuitOnFault)]) q 5000
             ++ (if is_finished (waitForFinished o q 5000) then []
                 else [EvKill q])
             ++ [EvDeleteLater q]
        else [])
    ++ [EvRemoveFile (authPath o)].
Proof. intros Hsplit. unfold teardown_events. by rewrite Hsplit. Qed.

Lemma last_snoc_event (l : list event) (e : event) : last (l ++ [e]) = Some e.
Proof. apply last_snoc. Qed.

(** The log cut after a wait. *)
Lemma cut_after_wait (a b c d e : list event) :
  a ++ (b ++ c ++ d) ++ e = (a ++ b ++ c) ++ (d ++ e).
Proof. by rewrite <- !app_assoc. Qed.

Lemma cut_after_script_wait (a b c d e f : list event) :
  a ++ b ++ c ++ (d ++ e) ++ f = (a ++ b ++ c ++ d) ++ (e ++ f).
Proof. by rewrite <- !app_assoc. Qed.

(** C6: the log of [stop].  The client is asked to terminate first and
    waited for at once; every request to it (terminate, kill), its wait
    and its release come before the wait for the server, and every
    request to it before every request to the server.  The server is
    asked to terminate, waited for 5 s at once, killed only after that
    wait, and released; all of this comes before the start of the display
    stop script, the only process [stop] starts.  The script, when it has
    started, is waited for 5 s, killed if it has not finished by then,
    only after that wait, and released; all of this comes after its start
    and before the removal of the authority file, the only file [stop]
    removes and the last thing [stop] does. *)
Theorem stop_order (o : Oracle) (s : State) :
  wfb s = true -> splits o (DisplayStopCommand o) = true ->
  let evs := events_of (XOrgUserHelper.stop o) s in
  result_of (XOrgUserHelper.stop o) s = Some tt
  /\ (forall c p,
        m_clientProcess s = Some c -> m_serverProcess s = Some p ->
        evs !! 0%nat = Some (EvTerminate c)
        /\ evs !! 1%nat
           = Some (EvWaitForFinished c 5000 (waitForFinished o c 5000))
        /\ occurs (is_terminate p) evs
        /\ precedes (is_termination c) (is_termination p) evs
        /\ precedes (is_after_start c) (is_wait p 5000) evs)
  /\ (forall p,
        m_serverProcess s = Some p ->
        let script := heap_next s in
        occurs (is_terminate p) evs
        /\ (exists i,
              evs !! i = Some (EvTerminate p)
              /\ evs !! S i
                 = Some (EvWaitForFinished p 5000 (waitForFinished o p 5000)))
        /\ precedes (is_wait p 5000) (is_kill p) evs
        /\ EvDeleteLater p ∈ evs
        /\ (exists program args,
              splitCommand o (DisplayStopCommand o) = program :: args
              /\ List.filter is_start evs
                 = [EvStart script program args (stop_env o s)])
        /\ List.filter is_remove evs = [EvRemoveFile (authPath o)]
        /\ precedes (is_termination p) is_start evs
        /\ precedes (is_after_start p) is_start evs
        /\ EvWaitForStarted script (waitForStarted o script) ∈ evs
        /\ (waitForStarted o script = true ->
            EvWaitForFinished script 5000 (waitForFinished o script 5000)
            ∈ evs
            /\ (is_finished (waitForFinished o script 5000) = false ->
                EvKill script ∈ evs)
            /\ EvDeleteLater script ∈ evs)
        /\ precedes (is_wait script 5000) (is_kill script) evs
        /\ precedes is_start (is_after_start script) evs
        /\ precedes (is_after_start script) is_remove evs
        /\ precedes is_start is_remove evs
        /\ last evs = Some (EvRemoveFile (authPath o))).
Proof.
  intros Hwf Hsplits evs. subst evs. rewrite stop_events_of by done.
  unfold result_of. rewrite stop_spec by done.
  split; [reflexivity|]. split.
  - intros c p Hclient Hserver.
    destruct (wfb_client s c Hwf Hclient) as (Hc & p' & Hserver' & Hne).
    assert (p' = p) as -> by congruence.
    pose proof (wfb_server s p Hwf Hserver) as Hp.
    assert (Nat.eqb c p = false) as Hcp by (by apply Nat.eqb_neq).
    assert (Nat.eqb p c = false) as Hpc by (apply Nat.eqb_neq; congruence).
    assert (Nat.eqb c (heap_next s) = false) as Hcq
      by (apply Nat.eqb_neq; lia).
    unfold stop_events. rewrite Hclient, Hserver.
    split; [reflexivity|]. split; [reflexivity|]. split; [|split].
    + unfold occurs. rewrite !existsb_app.
      apply orb_true_iff. right. apply orb_true_iff. left.
      unfold terminate_events. cbn. by rewrite Nat.eqb_refl.
    + apply client_before_server; [done..|].
      apply teardown_events_no_termination. lia.
    + apply precedes_split.
      * by apply terminate_events_no_wait.
      * apply Forall_app. split.
        -- by apply (terminate_events_about o s p c p).
        -- by apply teardown_events_about.
  - intros p Hserver. cbv zeta.
    pose proof (wfb_server s p Hwf Hserver) as Hp.
    assert (Nat.eqb p (heap_next s) = false) as Hpq
      by (apply Nat.eqb_neq; lia).
    assert (Nat.eqb (heap_next s) p = false) as Hqp
      by (apply Nat.eqb_neq; lia).
    destruct (splitCommand o (DisplayStopCommand o)) as [|program args]
      eqn:Hsplit; [by unfold splits in Hsplits; rewrite Hsplit in Hsplits|].
    destruct (teardown_events_shape o s program args Hsplit)
      as (Hstart & Hremove & body & Hbody & Hnoremove).
    pose proof (teardown_events_phases o s program args Hsplit) as Hphases.
    cbv zeta in Hphases.
    assert (exists block,
              stop_events o s
              = block ++ terminate_events o s p ++ teardown_events o s
              /\ Forall (fun e => is_start e = false) block
              /\ Forall (fun e => is_remove e = false) block
              /\ Forall (fun e => is_after_start (heap_next s) e = false) block
              /\ Forall (fun e => is_kill p e = false) block
              /\ Forall (fun e => is_kill (heap_next s) e = false) block)
      as (block & -> & Hbs & Hbr & Hbq & Hbk & Hbkq).
    { unfold stop_events. rewrite Hserver.
      destruct (m_clientProcess s) as [c|] eqn:Hclient.
      - destruct (wfb_client s c Hwf Hclient) as (Hc & p' & Hserver' & Hne).
        assert (p' = p) as -> by congruence.
        assert (Nat.eqb p c = false) as Hpc
          by (apply Nat.eqb_neq; congruence).
        assert (Nat.eqb (heap_next s) c = false) as Hqc
          by (apply Nat.eqb_neq; lia).
        eexists. split; [reflexivity|].
        split; [apply terminate_events_no_start|].
        split; [apply terminate_events_no_start|].
        split; [by apply (terminate_events_about o s c _ p)|].
        split; unfold terminate_events; forall_events; by rewrite ?Hpc, ?Hqc.
      - exists []. by repeat split. }
    destruct (terminate_events_no_start o s p) as [Hts Htr].
    assert (Forall (fun e => is_after_start (heap_next s) e = false)
              (terminate_events o s p)) as Htq
      by by apply (terminate_events_about o s p _ p).
    set (tail := (if is_finished (waitForFinished o p 5000) then []
                  else [EvKill p]) ++ [EvDeleteLater p]).
    assert (terminate_events o s p
            = [EvTerminate p]
              ++ wait_events o (m_serverProcess s) (connections s) p 5000
              ++ tail) as Hterm by reflexivity.
    set (script := if waitForStarted o (heap_next s)
                   then wait_events o None
                          (connections s ++ [(heap_next s, QuitOnFault)])
                          (heap_next s) 5000
                        ++ (if is_finished
                                 (waitForFinished o (heap_next s) 5000)
                            then [] else [EvKill (heap_next s)])
                        ++ [EvDeleteLater (heap_next s)]
                   else []) in Hphases.
    assert (Forall (fun e => is_start e = false) script
            /\ Forall (fun e => is_remove e = false) script) as [Hss Hsr].
    { subst script. split; forall_events. }
    repeat match goal with |- _ /\ _ => split end.
    + unfold occurs. rewrite !existsb_app.
      apply orb_true_iff. right. apply orb_true_iff. left.
      unfold terminate_events. cbn. by rewrite Nat.eqb_refl.
    + exists (length block). split.
      * rewrite lookup_app_r by lia.
        replace (length block - length block)%nat with 0%nat by lia.
        reflexivity.
      * rewrite lookup_app_r by lia.
        replace (S (length block) - length block)%nat with 1%nat by lia.
        reflexivity.
    + rewrite Hterm, cut_after_wait.
      apply precedes_split.
      * apply Forall_app. split; [done|]. forall_events.
      * apply Forall_app. split.
        -- subst tail. forall_about.
        -- by apply teardown_events_no_wait.
    + rewrite Hterm. subst tail. rewrite !elem_of_app.
      right. left. right. right. right. apply list_elem_of_here.
    + exists program, args. split; [done|].
      by rewrite !List.filter_app, (filter_none _ _ Hbs), (filter_none _ _ Hts).
    + by rewrite !List.filter_app, (filter_none _ _ Hbr), (filter_none _ _ Htr).
    + rewrite app_assoc. apply precedes_split.
      * by apply Forall_app.
      * apply teardown_events_no_termination. lia.
    + rewrite app_assoc. apply precedes_split.
      * by apply Forall_app.
      * by apply teardown_events_about.
    + rewrite Hphases, !elem_of_app. right. right. left.
      apply list_elem_of_In. cbn. tauto.
    + intros Hstarted. rewrite Hphases. subst script. rewrite Hstarted.
      split; [|split].
      * rewrite !elem_of_app. right. right. right. left. left.
        unfold wait_events. apply list_elem_of_here.
      * intros Hslow. rewrite Hslow, !elem_of_app.
        right. right. right. left. right. left. apply list_elem_of_here.
      * rewrite !elem_of_app.
        right. right. right. left. right. right. apply list_elem_of_here.
    + rewrite Hphases. subst script.
      destruct (waitForStarted o (heap_next s)).
      * rewrite cut_after_script_wait.
        apply precedes_split.
        -- apply Forall_app. split; [done|].
           apply Forall_app. split.
           { unfold terminate_events. forall_events; by rewrite ?Hqp. }
           apply Forall_app. split; forall_events.
        -- forall_about.
      * rewrite <- (app_nil_r (block ++ _)).
        apply precedes_split; [|done].
        apply Forall_app. split; [done|].
        apply Forall_app. split.
        { unfold terminate_events. forall_events; by rewrite ?Hqp. }
        forall_events.
    + rewrite Hphases.
      rewrite (app_assoc block), (app_assoc (block ++ _)).
      apply precedes_split.
      * apply Forall_app.
        split; [apply Forall_app; split; [exact Hbq | exact Htq]|].
        forall_about.
      * apply Forall_app. split; [exact Hss | forall_events].
    + rewrite Hbody, !app_assoc. apply precedes_split.
      * apply Forall_app; split; [apply Forall_app; split|]; done.
      * forall_about.
    + rewrite Hbody, !app_assoc. apply precedes_split.
      * apply Forall_app; split; [apply Forall_app; split|]; done.
      * by repeat constructor.
    + rewrite Hbody, !app_assoc. apply last_snoc_event.
Qed.

Lemma stop_order_witness :
  let o := world seven true only_client_exits in
  let evs := events_of (XOrgUserHelper.stop o) running in
  wfb running = true
  /\ splits o (DisplayStopCommand o) = true
  /\ m_clientProcess running = Some 3%nat
  /\ m_serverProcess running = Some 0%nat
  /\ precedes (is_termination 3%nat) (is_termination 0%nat) evs
  /\ precedes (is_after_start 3%nat) (is_wait 0%nat 5000) evs
  /\ precedes (is_after_start 0%nat) is_start evs
  /\ EvWaitForFinished 4%nat 5000 TimedOut ∈ evs
  /\ EvKill 4%nat ∈ evs
  /\ precedes is_start (is_after_start 4%nat) evs
  /\ precedes (is_after_start 4%nat) is_remove evs
  /\ last evs = Some (EvRemoveFile (authPath o)).
Proof.
  intros o evs.
  assert (wfb running = true) as Hwf by (vm_compute; reflexivity).
  assert (splits o (DisplayStopCommand o) = true) as Hsplits
    by (vm_compute; reflexivity).
  assert (m_clientProcess running = Some 3%nat) as Hclient
    by (vm_compute; reflexivity).
  assert (m_serverProcess running = Some 0%nat) as Hserver
    by (vm_compute; reflexivity).
  destruct (stop_order o running Hwf Hsplits) as (_ & Hcs & Hteardown).
  destruct (Hcs 3%nat 0%nat Hclient Hserver) as (_ & _ & _ & Hfirst & Hwaits).
  destruct (Hteardown 0%nat Hserver)
    as (_ & _ & _ & _ & _ & _ & _ & Hserver_first & _ & Hscript & _
        & Hafter & Hbefore & _ & Hlast).
  destruct (Hscript eq_refl) as (Hwaited & Hkilled & _).
  split; [exact Hwf|]. split; [exact Hsplits|].
  split; [exact Hclient|]. split; [exact Hserver|].
  split; [exact Hfirst|]. split; [exact Hwaits|].
  split; [exact Hserver_first|]. split; [exact Hwaited|].
  split; [exact (Hkilled eq_refl)|]. split; [exact Hafter|].
  split; [exact Hbefore | exact Hlast].
Defined.

(** ** Stopping twice *)

(** With both process pointers null [stop] does nothing. *)
Lemma stop_idle (o : Oracle) (s : State) :
  m_clientProcess s = None -> m_serverProcess s = None ->
  XOrgUserHelper.stop o s = (Some tt, s).
Proof.
  intros Hclient Hserver. unfold XOrgUserHelper.stop.
  unfold_monad. cbn beta iota. rewrite Hclient. by rewrite Hserver.
Qed.

Lemma stop_events_counts (o : Oracle) (s : State) :
  wfb s = true -> splits o (DisplayStopCommand o) = true ->
  (countb is_start (stop_events o s) <= 1)%nat
  /\ (countb is_remove (stop_events o s) <= 1)%nat.
Proof.
  intros Hwf Hsplits. unfold stop_events.
  destruct (m_serverProcess s) as [p|] eqn:Hserver.
  - destruct (splitCommand o (DisplayStopCommand o)) as [|program args]
      eqn:Hsplit; [by unfold splits in Hsplits; rewrite Hsplit in Hsplits|].
    destruct (teardown_events_shape o s program args Hsplit)
      as (Hstart & Hremove & _).
    destruct (terminate_events_no_start o s p) as [Hts Htr].
    assert (Forall (fun e => is_start e = false)
              match m_clientProcess s with
              | Some c => terminate_events o s c
              | None => []
              end
            /\ Forall (fun e => is_remove e = false)
                 match m_clientProcess s with
                 | Some c => terminate_events o s c
                 | None => []
                 end) as [Hcs Hcr].
    { destruct (m_clientProcess s); [apply terminate_events_no_start|done]. }
    unfold countb.
    rewrite !List.filter_app, (filter_none _ _ Hcs), (filter_none _ _ Hts),
      (filter_none _ _ Hcr), (filter_none _ _ Htr), Hstart, Hremove.
    cbn. lia.
  - destruct (m_clientProcess s) as [c|] eqn:Hclient.
    + destruct (wfb_client s c Hwf Hclient) as (_ & p & Hp & _). congruence.
    + cbn. lia.
Qed.

(** C7: a second [stop] right after a first one, with whatever the outside
    world now answers, returns without any call to the outside and leaves
    the object as it was; over both calls the display stop script is run at
    most once and the authority file removed at most once.  The same holds
    of a [stop] on an object whose process pointers are both null, such as
    one that was never started. *)
Theorem stop_idempotent (o1 o2 : Oracle) (s : State) :
  wfb s = true -> splits o1 (DisplayStopCommand o1) = true ->
  let s1 := state_after (XOrgUserHelper.stop o1) s in
  let evs := events_of (XOrgUserHelper.stop o1) s
             ++ events_of (XOrgUserHelper.stop o2) s1 in
  result_of (XOrgUserHelper.stop o1) s = Some tt
  /\ XOrgUserHelper.stop o2 s1 = (Some tt, s1)
  /\ events_of (XOrgUserHelper.stop o2) s1 = []
  /\ (countb is_start evs <= 1)%nat
  /\ (countb is_remove evs <= 1)%nat
  /\ (m_clientProcess s = None -> m_serverProcess s = None ->
      XOrgUserHelper.stop o1 s = (Some tt, s)
      /\ events_of (XOrgUserHelper.stop o1) s = []).
Proof.
  intros Hwf Hsplits s1 evs.
  assert (XOrgUserHelper.stop o2 s1 = (Some tt, s1)) as Hsecond.
  { subst s1. unfold state_after. rewrite (stop_spec o1 s) by done.
    by apply stop_idle. }
  assert (forall o' s', XOrgUserHelper.stop o' s' = (Some tt, s') ->
                        events_of (XOrgUserHelper.stop o') s' = []) as Hquiet.
  { intros o' s' Hstop. apply events_of_add_events.
    by rewrite Hstop, app_nil_r. }
  destruct (stop_events_counts o1 s Hwf Hsplits) as [Hstart Hremove].
  assert (result_of (XOrgUserHelper.stop o1) s = Some tt) as Hfirst
    by (unfold result_of; by rewrite stop_spec).
  assert (m_clientProcess s = None -> m_serverProcess s = None ->
          XOrgUserHelper.stop o1 s = (Some tt, s)
          /\ events_of (XOrgUserHelper.stop o1) s = []) as Hidle.
  { intros Hclient Hserver.
    pose proof (stop_idle o1 s Hclient Hserver) as Hstop.
    split; [exact Hstop | by apply Hquiet]. }
  refine (conj Hfirst (conj Hsecond (conj (Hquiet _ _ Hsecond)
            (conj _ (conj _ Hidle)))));
    subst evs; rewrite (Hquiet _ _ Hsecond), app_nil_r;
    rewrite stop_events_of by done; assumption.
Qed.

Lemma stop_idempotent_witness :
  let o1 := world seven true only_client_exits in
  let o2 := world seven true everybody_exits in
  let s1 := state_after (XOrgUserHelper.stop o1) running in
  wfb running = true
  /\ splits o1 (DisplayStopCommand o1) = true
  /\ countb is_start (events_of (XOrgUserHelper.stop o1) running) = 1%nat
  /\ countb is_remove (events_of (XOrgUserHelper.stop o1) running) = 1%nat
  /\ XOrgUserHelper.stop o2 s1 = (Some tt, s1)
  /\ XOrgUserHelper.stop o1 (helper0 3) = (Some tt, helper0 3).
Proof.
  intros o1 o2 s1.
  assert (wfb running = true) as Hwf by (vm_compute; reflexivity).
  assert (splits o1 (DisplayStopCommand o1) = true) as Hsplits
    by (vm_compute; reflexivity).
  destruct (stop_idempotent o1 o2 running Hwf Hsplits)
    as (_ & Hsecond & _ & _ & _ & _).
  assert (wfb (helper0 3) = true) as Hwf0 by reflexivity.
  destruct (stop_idempotent o1 o2 (helper0 3) Hwf0 Hsplits)
    as (_ & _ & _ & _ & _ & Hidle).
  destruct (Hidle eq_refl eq_refl) as [Hnever _].
  repeat split; try assumption; vm_compute; reflexivity.
Defined.

(** ** A cookie that cannot be written *)

Lemma forallb_ltb_S (n : nat) (cs : list (proc * observer)) :
  forallb (fun c => Nat.ltb (fst c) n) cs = true ->
  forallb (fun c => Nat.ltb (fst c) (S n)) cs = true.
Proof.
  rewrite !forallb_forall. intros H c Hc. specialize (H c Hc).
  apply Nat.ltb_lt in H. apply Nat.ltb_lt. lia.
Qed.

Lemma startServer_cookie_failure (o : Oracle) (s : State) (d : string) :
  EvAddCookie d false ∈ events_of (XOrgUserHelper.startServer o) s ->
  let s' := state_after (XOrgUserHelper.startServer o) s in
  let evs := events_of (XOrgUserHelper.startServer o) s in
  result_of (XOrgUserHelper.startServer o) s = Some false
  /\ m_serverProcess s' = Some (heap_next s)
  /\ m_clientProcess s' = m_clientProcess s
  /\ heap_next s' = S (heap_next s)
  /\ connections s' = connections s ++ [(heap_next s, QuitOnFault)]
  /\ occurs (is_start_of (heap_next s)) evs
  /\ Forall (fun e => is_termination (heap_next s) e = false) evs.
Proof.
  cbv zeta.
  unfold XOrgUserHelper.startServer, XOrgUserHelper.startProcess.
  exec; intros Hin; in_log Hin.
  repeat split; try reflexivity.
  - unfold occurs. cbn. by rewrite Nat.eqb_refl.
  - repeat constructor.
Qed.

(** C4, as the specification has it, fails: the cookie cannot be written,
    [start] returns false, and the server, process 0, is still the
    helper's server process; nothing has asked it to terminate. *)
Lemma server_not_terminated_counterexample :
  let o := world seven false everybody_exits in
  let s' := state_after (XOrgUserHelper.start o) (helper0 3) in
  let evs := events_of (XOrgUserHelper.start o) (helper0 3) in
  result_of (XOrgUserHelper.start o) (helper0 3) = Some false
  /\ evs !! 8%nat = Some (EvAddCookie ":7" false)
  /\ List.filter (is_start_of 0%nat) evs
     = [EvStart 0%nat "/usr/bin/X"
          ["-nolisten"; "tcp"; "-auth"; "/run/user/1000/xauth_abc";
           "-displayfd"; "6"; "vt2"; "-logfile"; "/dev/null"]
          (spec_server_env o)]
  /\ m_serverProcess s' = Some 0%nat
  /\ countb (is_termination 0%nat) evs = 0%nat.
Proof. vm_compute. repeat split; reflexivity. Qed.

(** C4 (amended): when the cookie cannot be written after the server was
    started, [start] returns false and does not terminate the server: the
    process stays the helper's server process, no terminate and no kill
    has been requested, and it is the [stop] that follows which asks it to
    terminate, first thing. *)
Theorem cookie_failure_leaves_server (o : Oracle) (s : State) (d : string) :
  wfb s = true -> m_clientProcess s = None ->
  EvAddCookie d false ∈ events_of (XOrgUserHelper.start o) s ->
  let s' := state_after (XOrgUserHelper.start o) s in
  let evs := events_of (XOrgUserHelper.start o) s in
  result_of (XOrgUserHelper.start o) s = Some false
  /\ occurs (is_start_of (heap_next s)) evs
  /\ m_serverProcess s' = Some (heap_next s)
  /\ countb (is_termination (heap_next s)) evs = 0%nat
  /\ forall o',
       splits o' (DisplayStopCommand o') = true ->
       result_of (XOrgUserHelper.stop o') s' = Some tt
       /\ events_of (XOrgUserHelper.stop o') s' !! 0%nat
          = Some (EvTerminate (heap_next s)).
Proof.
  intros Hwf Hclient Hin. cbv zeta.
  destruct (start_events o s) as (rest & Hev & Hrest & Hfail).
  rewrite Hev in Hin.
  assert (EvAddCookie d false
          ∈ events_of (XOrgUserHelper.startServer o) (add_event EvXauthSetup s))
    as Hin'.
  { apply elem_of_cons in Hin as [[=]|Hin].
    apply elem_of_app in Hin as [Hin|Hin]; [done|].
    rewrite Forall_forall in Hrest. by specialize (Hrest _ Hin). }
  destruct (startServer_cookie_failure o _ d Hin')
    as (Hres & Hserver & Hclient' & Hheap & Hconn & Hstart & Hterm).
  cbn [heap_next m_clientProcess connections add_event] in *.
  destruct Hfail as (-> & Hres' & Hstate); [congruence|].
  rewrite Hev, Hres', Hstate, app_nil_r.
  split; [done|]. split; [|split; [done|split]].
  - unfold occurs in *. cbn [existsb is_start_of]. exact Hstart.
  - apply countb_none. by constructor.
  - intros o' Hsplits.
    set (s' := state_after (XOrgUserHelper.startServer o)
                 (add_event EvXauthSetup s)) in *.
    assert (wfb s' = true) as Hwf'.
    { unfold wfb. rewrite Hserver, Hclient', Hclient, Hheap, Hconn.
      rewrite andb_true_r. apply andb_true_iff. split.
      - rewrite forallb_app. apply andb_true_iff. split.
        + exact (forallb_ltb_S _ _ (wfb_connections s Hwf)).
        + cbn [forallb fst]. rewrite andb_true_r. apply Nat.ltb_lt. lia.
      - apply Nat.ltb_lt. lia. }
    rewrite stop_events_of by done. unfold result_of.
    rewrite stop_spec by done. split; [reflexivity|].
    unfold stop_events. rewrite Hclient', Hclient, Hserver. reflexivity.
Qed.

Lemma cookie_failure_leaves_server_witness :
  let o := world seven false everybody_exits in
  let s' := state_after (XOrgUserHelper.start o) (helper0 3) in
  wfb (helper0 3) = true
  /\ m_clientProcess (helper0 3) = None
  /\ EvAddCookie ":7" false ∈ events_of (XOrgUserHelper.start o) (helper0 3)
  /\ m_serverProcess s' = Some 0%nat
  /\ events_of (XOrgUserHelper.stop o) s' !! 0%nat = Some (EvTerminate 0%nat).
Proof.
  intros o s'.
  assert (wfb (helper0 3) = true) as Hwf by reflexivity.
  assert (m_clientProcess (helper0 3) = None) as Hclient by reflexivity.
  assert (EvAddCookie ":7" false
          ∈ events_of (XOrgUserHelper.start o) (helper0 3)) as Hin
    by (apply list_elem_of_lookup; exists 8%nat; vm_compute; reflexivity).
  destruct (cookie_failure_leaves_server o (helper0 3) ":7" Hwf Hclient Hin)
    as (_ & _ & Hserver & _ & Hstop).
  destruct (Hstop o) as [_ Hfirst]; [vm_compute; reflexivity|].
  repeat split; assumption.
Defined.

(** ** Faults of auxiliary processes *)




(** ** Well-formedness is kept

    The constructed object is well formed, and [start] and [stop] keep it
    so: the properties of [stop] above hold of every state the helper can
    be in between calls. *)

Lemma wfb_intro (s : State) :
  (forall c, c ∈ connections s -> (fst c < heap_next s)%nat) ->
  (forall p, m_serverProcess s = Some p -> (p < heap_next s)%nat) ->
  (forall c, m_clientProcess s = Some c ->
             (c < heap_next s)%nat
             /\ exists p, m_serverProcess s = Some p /\ c <> p) ->
  wfb s = true.
Proof.
  intros Hconn Hserver Hclient. unfold wfb.
  repeat (apply andb_true_iff; split).
  - apply forallb_forall. intros c Hc%list_elem_of_In.
    apply Nat.ltb_lt. by apply Hconn.
  - destruct (m_serverProcess s) as [p|]; [|done].
    apply Nat.ltb_lt. by apply Hserver.
  - destruct (m_clientProcess s) as [c|]; [|done].
    destruct (Hclient c eq_refl) as (Hc & p & -> & Hne).
    apply andb_true_iff. split; [by apply Nat.ltb_lt|].
    by apply negb_true_iff, Nat.eqb_neq.
Qed.

Lemma wfb_elim (s : State) :
  wfb s = true ->
  (forall c, c ∈ connections s -> (fst c < heap_next s)%nat)
  /\ (forall p, m_serverProcess s = Some p -> (p < heap_next s)%nat)
  /\ (forall c, m_clientProcess s = Some c ->
                (c < heap_next s)%nat
                /\ exists p, m_serverProcess s = Some p /\ c <> p).
Proof.
  intros Hwf. split; [|split].
  - pose proof (wfb_connections s Hwf) as H.
    rewrite forallb_forall in H. intros c Hc%list_elem_of_In.
    apply Nat.ltb_lt. by apply H.
  - intros p. by apply wfb_server.
  - intros c. by apply wfb_client.
Qed.

(** Well-formedness of a state reached from a well-formed [s] by
    allocating the process [heap_next s] and connecting to it. *)
Ltac wfb_tac Hwf :=
  let Hconn := fresh "Hconn" in
  let Hserver := fresh "Hserver" in
  let Hclient := fresh "Hclient" in
  apply wfb_elim in Hwf as (Hconn & Hserver & Hclient);
  apply wfb_intro; normalize_log;
  [ intros ?c ?Hc;
    repeat (apply elem_of_app in Hc as [Hc|Hc]);
    try (apply Hconn in Hc; lia);
    repeat (apply elem_of_cons in Hc as [->|Hc]; [cbn [fst]; lia|]);
    try (by apply elem_of_nil in Hc)
  | intros ?p ?Hp; try discriminate Hp; try (injection Hp as <-; lia);
    try (apply Hserver in Hp; lia)
  | intros ?c ?Hc; try discriminate Hc;
    try (injection Hc as <-);
    try (destruct (Hclient _ Hc) as (? & ?p & ?Hp & ?));
    (split; [lia|]);
    first
      [ eexists; split; [reflexivity|lia]
      | eexists; split; [eassumption|assumption]
      | match goal with
        | H : m_serverProcess _ = Some ?q |- _ =>
            exists q; split; [exact H|]; apply Hserver in H; lia
        end ] ].

Lemma wfb_constructor (display0 : string) (fd : Z) (serverCmd clientCmd : string) :
  wfb (XOrgUserHelper.XOrgUserHelper display0 fd serverCmd clientCmd) = true.
Proof. reflexivity. Qed.

Lemma wfb_stop (o : Oracle) (s : State) :
  wfb s = true -> splits o (DisplayStopCommand o) = true ->
  wfb (state_after (XOrgUserHelper.stop o) s) = true.
Proof.
  intros Hwf Hsplits. unfold state_after. rewrite stop_spec by done.
  unfold stopped. destruct (m_serverProcess s); wfb_tac Hwf.
Qed.

Section Preserves.

Variable I : State -> Prop.
Hypothesis I_add_event : forall e s, I s -> I (add_event e s).

Lemma preserves_ret {A} (a : A) : preserves I (ret a).
Proof. by intros s. Qed.

Lemma preserves_gets {A} (f : State -> A) : preserves I (gets f).
Proof. by intros s. Qed.

Lemma preserves_null {A} : preserves I (@undefined_behaviour A).
Proof. by intros s. Qed.

Lemma preserves_log (e : event) : preserves I (log e).
Proof. intros s. apply I_add_event. Qed.

Lemma preserves_bind {A B} (m : M A) (k : A -> M B) :
  preserves I m -> (forall a, preserves I (k a)) -> preserves I (bind m k).
Proof.
  intros Hm Hk s Hs. unfold bind. specialize (Hm s Hs).
  destruct (m s) as [[a|] s1]; cbn in *; [by apply Hk | done].
Qed.

Lemma preserves_when (c : bool) (m : M unit) :
  preserves I m -> preserves I (when c m).
Proof. destruct c; [done | intros _; apply preserves_ret]. Qed.

Lemma preserves_slots (obs : list observer) (exitCode : Z) (st : ExitStatus) :
  preserves I (slots obs exitCode st).
Proof.
  induction obs as [|ob obs IH]; cbn [slots]; [apply preserves_ret|].
  apply preserves_bind; [|intros _; exact IH].
  destruct ob; unfold slot, quit.
  - apply preserves_when, preserves_log.
  - apply preserves_bind; [apply preserves_gets|].
    intros [p|]; [|apply preserves_null].
    apply preserves_bind; [apply preserves_log|].
    intros _. apply preserves_log.
Qed.

Lemma preserves_wait_or_kill (o : Oracle) (p : proc) (msecs : Z) :
  preserves I (XOrgUserHelper.wait_or_kill o p msecs).
Proof.
  unfold XOrgUserHelper.wait_or_kill, QProcess_waitForFinished, emit_finished.
  apply preserves_bind.
  - apply preserves_bind; [apply preserves_log|]. intros _.
    destruct (waitForFinished o p msecs); try apply preserves_ret.
    apply preserves_bind; [|intros _; apply preserves_ret].
    apply preserves_bind; [apply preserves_gets|].
    intros cs. apply preserves_slots.
  - intros finished. apply preserves_bind; [|intros _; apply preserves_log].
    apply preserves_when, preserves_log.
Qed.

End Preserves.

Lemma wf_with_server_add_event (e : event) (s : State) :
  wf_with_server s -> wf_with_server (add_event e s).
Proof. done. Qed.

Lemma startProcess_keeps_wf (o : Oracle) (cmd : string)
    (env : QProcessEnvironment) :
  preserves wf_with_server (XOrgUserHelper.startProcess o cmd env).
Proof.
  intros s [Hwf Hserver]. unfold XOrgUserHelper.startProcess.
  destruct (splitCommand o cmd) as [|program args]; [done|].
  unfold_monad. cbn beta iota.
  destruct (waitForStarted o (heap_next s)); cbn [negb snd];
    (split; [wfb_tac Hwf | exact Hserver]).
Qed.

Lemma startDisplayCommand_keeps_wf (o : Oracle) :
  preserves wf_with_server (XOrgUserHelper.startDisplayCommand o).
Proof.
  unfold XOrgUserHelper.startDisplayCommand.
  apply preserves_bind; [apply preserves_gets|]. intros display.
  apply preserves_bind; [apply startProcess_keeps_wf|]. intros setCursor.
  apply preserves_bind.
  { destruct setCursor; [|apply preserves_ret].
    apply preserves_wait_or_kill, wf_with_server_add_event. }
  intros _. apply preserves_bind; [apply startProcess_keeps_wf|].
  intros displayScript. destruct displayScript; [|apply preserves_ret].
  apply preserves_wait_or_kill, wf_with_server_add_event.
Qed.

Lemma startClient_keeps_wf (o : Oracle) :
  preserves wf_with_server (XOrgUserHelper.startClient o).
Proof.
  intros s [Hwf [p Hserver]].
  unfold XOrgUserHelper.startClient, XOrgUserHelper.startProcess.
  unfold_monad. cbn beta iota.
  destruct (splitCommand o (m_clientCmd s)) as [|program args];
    [by split; [|exists p]|].
  destruct (waitForStarted o (heap_next s)); cbn [negb snd];
    (split; [|by exists p]); wfb_tac Hwf.
Qed.

Lemma startServer_keeps_wf (o : Oracle) (s : State) :
  wfb s = true ->
  wfb (state_after (XOrgUserHelper.startServer o) s) = true
  /\ (result_of (XOrgUserHelper.startServer o) s = Some true ->
      is_Some (m_serverProcess (state_after (XOrgUserHelper.startServer o) s))).
Proof.
  intros Hwf.
  unfold XOrgUserHelper.startServer, XOrgUserHelper.startProcess.
  exec; (split; [try exact Hwf; wfb_tac Hwf | try discriminate; by eexists]).
Qed.

(** [start] keeps the helper well formed. *)
Lemma wfb_start (o : Oracle) (s : State) :
  wfb s = true -> wfb (state_after (XOrgUserHelper.start o) s) = true.
Proof.
  intros Hwf. unfold state_after, XOrgUserHelper.start.
  cbv [bind log modify ret].
  destruct (startServer_keeps_wf o (add_event EvXauthSetup s) Hwf)
    as [Hwf1 Hserver].
  unfold state_after, result_of in *.
  destruct (XOrgUserHelper.startServer o (add_event EvXauthSetup s))
    as [[[|]|] s1]; cbn [negb fst snd] in *; try exact Hwf1.
  pose proof (startDisplayCommand_keeps_wf o s1 (conj Hwf1 (Hserver eq_refl)))
    as Hwf2.
  destruct (XOrgUserHelper.startDisplayCommand o s1) as [[[]|] s2];
    cbn [fst snd] in *; [|exact (proj1 Hwf2)].
  pose proof (startClient_keeps_wf o s2 Hwf2) as [Hwf3 _].
  destruct (XOrgUserHelper.startClient o s2) as [[[|]|] s3];
    cbn [negb fst snd] in *; exact Hwf3.
Qed.

(** * Further properties *)

(** ** The command line of the helper *)

Lemma eqb_string_neq (a b : string) : a <> b -> String.eqb a b = false.
Proof. by intros H; apply String.eqb_neq. Qed.

Lemma indexOf_from_absent (from : Z) (args : list string) (name : string) :
  name ∉ args -> HelperStartXorgUserMain.indexOf_from from args name = -1.
Proof.
  revert from. induction args as [|a rest IH]; intros from Hnot; [done|].
  cbn. apply not_elem_of_cons in Hnot as [Hne Hrest].
  rewrite eqb_string_neq by done. by apply IH.
Qed.

Lemma indexOf_from_first (from : Z) (before after : list string)
    (name : string) :
  name ∉ before ->
  HelperStartXorgUserMain.indexOf_from from (before ++ name :: after) name
  = from + Z.of_nat (length before).
Proof.
  revert from. induction before as [|a before IH]; intros from Hnot; cbn.
  - rewrite String.eqb_refl. lia.
  - apply not_elem_of_cons in Hnot as [Hne Hrest].
    rewrite eqb_string_neq by done. rewrite IH by done. lia.
Qed.

Lemma elem_of_first (args : list string) (name : string) :
  name ∈ args ->
  exists before after, args = before ++ name :: after /\ name ∉ before.
Proof.
  induction args as [|a rest IH]; intros Hin; [by apply elem_of_nil in Hin|].
  destruct (decide (a = name)) as [->|Hne].
  - exists [], rest. split; [done|]. apply not_elem_of_nil.
  - apply elem_of_cons in Hin as [->|Hin]; [done|].
    destruct (IH Hin) as (before & after & -> & Hnot).
    exists (a :: before), after. split; [done|].
    apply not_elem_of_cons. split; [congruence|done].
Qed.

Lemma option_value_absent (args : list string) (name : string)
    (k : string -> HelperStartXorgUserMain.parsed) :
  name ∉ args ->
  HelperStartXorgUserMain.option_value args name k = k EmptyString.
Proof.
  intros Hnot. unfold HelperStartXorgUserMain.option_value,
    HelperStartXorgUserMain.indexOf.
  by rewrite indexOf_from_absent.
Qed.

Lemma option_value_last (before : list string) (name : string)
    (k : string -> HelperStartXorgUserMain.parsed) :
  name ∉ before ->
  HelperStartXorgUserMain.option_value (before ++ [name]) name k
  = HelperStartXorgUserMain.Return 127.
Proof.
  intros Hnot. unfold HelperStartXorgUserMain.option_value,
    HelperStartXorgUserMain.indexOf.
  rewrite indexOf_from_first by done. rewrite length_app. cbn [length].
  destruct (Z.leb_spec 0 (0 + Z.of_nat (length before))); [|lia].
  destruct (Z.leb_spec (Z.of_nat (length before + 1) - 1)
              (0 + Z.of_nat (length before))); [done|lia].
Qed.

Lemma option_value_first (args : list string) (name value : string)
    (k : string -> HelperStartXorgUserMain.parsed) :
  first_value args name value ->
  HelperStartXorgUserMain.option_value args name k = k value.
Proof.
  intros (before & after & -> & Hnot).
  unfold HelperStartXorgUserMain.option_value,
    HelperStartXorgUserMain.indexOf.
  rewrite indexOf_from_first by done. rewrite length_app. cbn [length].
  destruct (Z.leb_spec 0 (0 + Z.of_nat (length before))); [|lia].
  destruct (Z.leb_spec (Z.of_nat (length before + S (S (length after))) - 1)
              (0 + Z.of_nat (length before))); [lia|].
  replace (Z.to_nat (0 + Z.of_nat (length before) + 1))
    with (length before + 1)%nat by lia.
  rewrite lookup_app_r by lia.
  replace (length before + 1 - length before)%nat with 1%nat by lia.
  reflexivity.
Qed.

(** An option is absent, last on the command line, or followed by a
    value. *)
Lemma option_cases (args : list string) (name : string) :
  name ∉ args
  \/ (exists before, args = before ++ [name] /\ name ∉ before)
  \/ exists value, first_value args name value.
Proof.
  destruct (decide (name ∈ args)) as [Hin|Hnot]; [|by left].
  right. destruct (elem_of_first args name Hin)
    as (before & [|value after] & -> & Hnot).
  - left. by exists before.
  - right. exists value, before, after. done.
Qed.

Lemma first_value_elem_of (args : list string) (name value : string) :
  first_value args name value -> name ∈ args.
Proof.
  intros (before & after & -> & _). apply elem_of_app. right. by left.
Qed.

Lemma first_value_unique (args : list string) (name v1 v2 : string) :
  first_value args name v1 -> first_value args name v2 -> v1 = v2.
Proof.
  intros H1 H2.
  pose proof (option_value_first args name v1
                (fun v => HelperStartXorgUserMain.Helper 0 v v) H1) as E1.
  pose proof (option_value_first args name v2
                (fun v => HelperStartXorgUserMain.Helper 0 v v) H2) as E2.
  congruence.
Qed.

Lemma isEmpty_false (s : string) :
  HelperStartXorgUserMain.isEmpty s = false <-> s <> EmptyString.
Proof. destruct s; cbn; split; congruence. Qed.

(** X1: [main] goes on to construct the helper exactly when [--server]
    and [--client] are each followed, at their first occurrence, by a
    non-empty value, and [--fd] is absent, followed by the empty string (the
    descriptor is then -1), or followed by a text [toInt] accepts (the
    descriptor is then its value).  The helper gets these values; options
    may come in any order and a value may look like an option. *)
Theorem main_constructs_helper_iff (toInt : string -> option Z)
    (args : list string) (fd : Z) (serverCmd clientCmd : string) :
  HelperStartXorgUserMain.parse toInt args
  = HelperStartXorgUserMain.Helper fd serverCmd clientCmd
  <-> first_value args "--server" serverCmd /\ serverCmd <> EmptyString
      /\ first_value args "--client" clientCmd /\ clientCmd <> EmptyString
      /\ ((("--fd" ∉ args) /\ fd = -1)
          \/ (first_value args "--fd" EmptyString /\ fd = -1)
          \/ exists fdArg,
               first_value args "--fd" fdArg /\ fdArg <> EmptyString
               /\ toInt fdArg = Some fd).
Proof.
  unfold HelperStartXorgUserMain.parse. split.
  - destruct (option_cases args "--fd") as [Hfd|[(b & -> & Hb)|[fdArg Hfd]]];
      [rewrite option_value_absent by done
      |by rewrite option_value_last
      |rewrite (option_value_first _ _ _ _ Hfd)];
      (destruct (option_cases args "--server")
         as [Hs|[(b & -> & Hb)|[s Hs]]];
       [rewrite option_value_absent by done
       |by rewrite option_value_last
       |rewrite (option_value_first _ _ _ _ Hs)]);
      (destruct (option_cases args "--client")
         as [Hc|[(b & -> & Hb)|[c Hc]]];
       [rewrite option_value_absent by done
       |by rewrite option_value_last
       |rewrite (option_value_first _ _ _ _ Hc)]);
      cbn [HelperStartXorgUserMain.isEmpty orb]; try done;
      try (by destruct s);
      (destruct s as [|a s]; [done|]); (destruct c as [|a' c]; [done|]);
      cbn [HelperStartXorgUserMain.isEmpty orb negb].
    + intros [= <- <- <-]. repeat split; try done. by left.
    + destruct fdArg as [|x fdArg]; cbn [HelperStartXorgUserMain.isEmpty negb].
      * intros [= <- <- <-]. repeat split; try done. right. by left.
      * destruct (toInt (String x fdArg)) as [n|] eqn:Hint; [|done].
        intros [= <- <- <-]. repeat split; try done. right. right.
        by exists (String x fdArg).
  - intros (Hs & Hse & Hc & Hce & Hfd).
    apply isEmpty_false in Hse, Hce.
    destruct Hfd as [[Hfd ->]|[[Hfd ->]|(fdArg & Hfd & Hne & Hint)]].
    + rewrite option_value_absent by done.
      rewrite (option_value_first _ _ _ _ Hs), (option_value_first _ _ _ _ Hc).
      by rewrite Hse, Hce.
    + rewrite (option_value_first _ _ _ _ Hfd),
        (option_value_first _ _ _ _ Hs), (option_value_first _ _ _ _ Hc).
      by rewrite Hse, Hce.
    + rewrite (option_value_first _ _ _ _ Hfd),
        (option_value_first _ _ _ _ Hs), (option_value_first _ _ _ _ Hc).
      apply isEmpty_false in Hne. by rewrite Hse, Hce, Hne, Hint.
Qed.

Lemma main_constructs_helper_iff_witness :
  let toInt := fun s => if String.eqb s "9" then Some 9 else None in
  let args := ["sddm-helper-x11"; "--client"; "--server"; "--fd"; "9";
               "--server"; "/usr/bin/X" ] in
  first_value args "--server" "--fd"
  /\ first_value args "--client" "--server"
  /\ HelperStartXorgUserMain.parse toInt args
     = HelperStartXorgUserMain.Helper 9 "--fd" "--server".
Proof.
  intros toInt args.
  assert (first_value args "--server" "--fd") as Hs.
  { exists ["sddm-helper-x11"; "--client"], ["9"; "--server"; "/usr/bin/X"].
    split; [reflexivity|]. intros Hin. in_log Hin. }
  assert (first_value args "--client" "--server") as Hc.
  { exists ["sddm-helper-x11"], ["--fd"; "9"; "--server"; "/usr/bin/X"].
    split; [reflexivity|]. intros Hin. in_log Hin. }
  split; [exact Hs|]. split; [exact Hc|].
  apply (main_constructs_helper_iff toInt args 9 "--fd" "--server").
  repeat split; try done.
  right. right. exists "9". repeat split; [|done].
  exists ["sddm-helper-x11"; "--client"; "--server"], ["--server"; "/usr/bin/X"].
  split; [reflexivity|]. intros Hin. in_log Hin.
Defined.

(** X2: whenever [main] returns before it constructs the helper, it
    returns 127, and it does so in particular when the first occurrence of
    one of the three options is the last word of the command line. *)
Theorem main_fails_with_127 (toInt : string -> option Z) (args : list string) :
  (forall code,
     HelperStartXorgUserMain.parse toInt args
     = HelperStartXorgUserMain.Return code -> code = 127)
  /\ (forall name before,
        name ∈ ["--fd"; "--server"; "--client"] ->
        args = before ++ [name] -> name ∉ before ->
        HelperStartXorgUserMain.parse toInt args
        = HelperStartXorgUserMain.Return 127).
Proof.
  assert (forall args name k,
            (forall v, k v = HelperStartXorgUserMain.Return 127
                       \/ exists fd s c,
                            k v = HelperStartXorgUserMain.Helper fd s c) ->
            HelperStartXorgUserMain.option_value args name k
            = HelperStartXorgUserMain.Return 127
            \/ exists fd s c,
                 HelperStartXorgUserMain.option_value args name k
                 = HelperStartXorgUserMain.Helper fd s c) as Hstep.
  { intros args' name k Hk.
    destruct (option_cases args' name) as [H|[(b & -> & Hb)|[v H]]].
    - rewrite option_value_absent by done. apply Hk.
    - left. by apply option_value_last.
    - rewrite (option_value_first _ _ _ _ H). apply Hk. }
  split.
  - intros code Hcode.
    assert (HelperStartXorgUserMain.parse toInt args
            = HelperStartXorgUserMain.Return 127
            \/ exists fd s c,
                 HelperStartXorgUserMain.parse toInt args
                 = HelperStartXorgUserMain.Helper fd s c) as [H|(?&?&?&H)].
    { unfold HelperStartXorgUserMain.parse.
      apply Hstep. intros fdArg. apply Hstep. intros s. apply Hstep. intros c.
      destruct (_ || _); [by left|].
      destruct (negb _); [|right; by eauto].
      destruct (toInt fdArg); [right; by eauto | by left]. }
    + congruence.
    + congruence.
  - intros name before Hname -> Hnot.
    unfold HelperStartXorgUserMain.parse.
    assert (forall other k,
              other <> name ->
              HelperStartXorgUserMain.option_value (before ++ [name]) other k
              = HelperStartXorgUserMain.Return 127
              \/ exists v,
                   HelperStartXorgUserMain.option_value
                     (before ++ [name]) other k = k v) as Hother.
    { intros other k Hne.
      destruct (option_cases (before ++ [name]) other)
        as [H|[(b & Hb & Hnb)|[v H]]].
      - right. exists EmptyString. by apply option_value_absent.
      - apply app_inj_tail in Hb as [_ ->]. done.
      - right. exists v. by apply option_value_first. }
    in_log Hname; subst name;
      repeat match goal with
             | |- HelperStartXorgUserMain.option_value (_ ++ [?last]) ?n ?k = _ =>
                 first
                   [ by apply option_value_last
                   | let H := fresh in
                     destruct (Hother n k ltac:(done)) as [H|[? H]];
                     [exact H | rewrite H] ]
             end.
Qed.

(** ** The display server object of the daemon *)

Lemma serve_alternate (cs : list XorgUserDisplayServer.request)
    (s : XorgUserDisplayServer.Server) :
  XorgUserDisplayServer.alternate (XorgUserDisplayServer.m_started s)
    (snd (XorgUserDisplayServer.serve cs s))
  /\ XorgUserDisplayServer.m_started (fst (XorgUserDisplayServer.serve cs s))
     = xorb (XorgUserDisplayServer.m_started s)
         (Nat.odd (length (snd (XorgUserDisplayServer.serve cs s)))).
Proof.
  revert s. induction cs as [|c cs IH]; intros s.
  - cbn. by destruct (XorgUserDisplayServer.m_started s).
  - cbn [XorgUserDisplayServer.serve].
    destruct (XorgUserDisplayServer.step c s) as [s1 signals1] eqn:Hstep.
    specialize (IH s1).
    destruct (XorgUserDisplayServer.serve cs s1) as [s2 signals2].
    cbn [fst snd] in *.
    assert ((signals1 = []
             /\ XorgUserDisplayServer.m_started s1
                = XorgUserDisplayServer.m_started s)
            \/ (signals1 = [if XorgUserDisplayServer.m_started s
                            then XorgUserDisplayServer.stopped
                            else XorgUserDisplayServer.started]
                /\ XorgUserDisplayServer.m_started s1
                   = negb (XorgUserDisplayServer.m_started s))) as Hcase.
    { destruct c; cbn in Hstep.
      - unfold XorgUserDisplayServer.start in Hstep.
        destruct (XorgUserDisplayServer.m_started s) eqn:Hs;
          injection Hstep as <- <-; [left|right]; by rewrite ?Hs.
      - unfold XorgUserDisplayServer.stop in Hstep.
        destruct (XorgUserDisplayServer.m_started s) eqn:Hs;
          injection Hstep as <- <-; [right|left]; by rewrite ?Hs.
      - injection Hstep as <- <-. by left. }
    destruct IH as [Halt Hend].
    destruct Hcase as [[-> Hs1]|[-> Hs1]]; rewrite Hs1 in *; cbn [app].
    + done.
    + split; [by split|]. rewrite Hend. cbn [length].
      rewrite Nat.odd_succ, <- Nat.negb_odd.
      by destruct (XorgUserDisplayServer.m_started s), (Nat.odd _).
Qed.

(** X3: whatever calls are made to the display server object, in whatever
    order, the signals [started] and [stopped] it emits take turns, the
    first being [started] when the object was not running; the object is
    running at the end exactly when the number of signals says so.  A
    [start] of a running server and a [stop] of a stopped one return
    without a signal and without a change. *)
Theorem display_server_signals_alternate
    (cs : list XorgUserDisplayServer.request)
    (s : XorgUserDisplayServer.Server) :
  XorgUserDisplayServer.alternate (XorgUserDisplayServer.m_started s)
    (snd (XorgUserDisplayServer.serve cs s))
  /\ XorgUserDisplayServer.m_started (fst (XorgUserDisplayServer.serve cs s))
     = xorb (XorgUserDisplayServer.m_started s)
         (Nat.odd (length (snd (XorgUserDisplayServer.serve cs s))))
  /\ (XorgUserDisplayServer.m_started s = true ->
      XorgUserDisplayServer.start s = (false, s, []))
  /\ (XorgUserDisplayServer.m_started s = false ->
      XorgUserDisplayServer.stop s = (s, [])).
Proof.
  destruct (serve_alternate cs s) as [Halt Hend].
  split; [done|]. split; [done|]. split.
  - intros Hs. unfold XorgUserDisplayServer.start. by rewrite Hs.
  - intros Hs. unfold XorgUserDisplayServer.stop. by rewrite Hs.
Qed.

Lemma display_server_signals_alternate_witness :
  let s := {| XorgUserDisplayServer.m_started := false;
              XorgUserDisplayServer.m_display := ":0" |} in
  let cs := [XorgUserDisplayServer.Stop; XorgUserDisplayServer.Start;
             XorgUserDisplayServer.Start;
             XorgUserDisplayServer.SetDisplayName ":1";
             XorgUserDisplayServer.Stop; XorgUserDisplayServer.Stop;
             XorgUserDisplayServer.Start] in
  snd (XorgUserDisplayServer.serve cs s)
  = [XorgUserDisplayServer.started; XorgUserDisplayServer.stopped;
     XorgUserDisplayServer.started]
  /\ XorgUserDisplayServer.alternate false
       (snd (XorgUserDisplayServer.serve cs s))
  /\ XorgUserDisplayServer.stop s = (s, []).
Proof.
  intros s cs.
  destruct (display_server_signals_alternate cs s) as (Halt & _ & _ & Hstop).
  split; [reflexivity|]. split; [exact Halt | exact (Hstop eq_refl)].
Defined.

(** ** The server command of the daemon *)

Lemma split_spaces_aux_word (acc a rest : string) :
  no_space a = true ->
  split_spaces_aux acc (a +:+ rest) = split_spaces_aux (acc +:+ a) rest.
Proof.
  revert acc. induction a as [|c a IH]; intros acc Ha.
  - by rewrite append_nil_r.
  - cbn in Ha. apply andb_true_iff in Ha as [Hc Ha].
    apply negb_true_iff in Hc.
    rewrite append_cons. cbn [split_spaces_aux]. rewrite Hc.
    rewrite IH by done. f_equal.
    clear. induction acc as [|x acc IH]; [reflexivity|].
    rewrite !append_cons. by f_equal.
Qed.

Lemma split_spaces_aux_space (acc rest : string) :
  acc <> EmptyString ->
  split_spaces_aux acc (String " " rest) = acc :: split_spaces_aux EmptyString rest.
Proof.
  intros Hacc. cbn [split_spaces_aux]. rewrite Ascii.eqb_refl.
  by rewrite eqb_string_neq.
Qed.

Lemma is_word_spec (a : string) :
  is_word a = true -> a <> EmptyString /\ no_space a = true.
Proof.
  unfold is_word. intros [Hne Hns]%andb_true_iff. split; [|done].
  apply negb_true_iff in Hne. by apply String.eqb_neq.
Qed.

(** Joining words with spaces and splitting at spaces gives the words
    back. *)
Lemma split_join_words (words : list string) :
  Forall (fun a => is_word a = true) words ->
  split_spaces (join_space words) = words.
Proof.
  unfold split_spaces, join_space.
  induction 1 as [|a words Ha Hwords IH]; [reflexivity|].
  apply is_word_spec in Ha as [Hne Hns].
  destruct words as [|b words].
  - cbn [String.concat]. rewrite <- (append_nil_r a) at 1.
    rewrite split_spaces_aux_word by done. cbn.
    by rewrite eqb_string_neq.
  - change (String.concat " " (a :: b :: words))
      with (a +:+ String " " (String.concat " " (b :: words))).
    rewrite split_spaces_aux_word by done. cbn [String.append].
    rewrite split_spaces_aux_space by done. by rewrite IH.
Qed.

Lemma no_space_app (a b : string) :
  no_space (a +:+ b) = no_space a && no_space b.
Proof.
  induction a as [|x a IH]; [reflexivity|].
  rewrite append_cons. cbn [no_space]. by rewrite IH, andb_assoc.
Qed.

(** What splitting at spaces gives are words. *)
Lemma split_spaces_aux_words (acc s : string) :
  no_space acc = true ->
  Forall (fun a => is_word a = true) (split_spaces_aux acc s).
Proof.
  revert acc. induction s as [|c s IH]; intros acc Hacc; cbn.
  - destruct (String.eqb_spec acc EmptyString) as [->|Hne]; [done|].
    repeat constructor. unfold is_word. by rewrite eqb_string_neq.
  - destruct (Ascii.eqb_spec c " ") as [->|Hc].
    + apply Forall_app. split; [|by apply IH].
      destruct (String.eqb_spec acc EmptyString) as [->|Hne]; [done|].
      repeat constructor. unfold is_word. by rewrite eqb_string_neq.
    + apply IH. rewrite no_space_app, Hacc. cbn [no_space andb].
      apply Ascii.eqb_neq in Hc. by rewrite Hc.
Qed.

Lemma split_spaces_words (s : string) :
  Forall (fun a => is_word a = true) (split_spaces s).
Proof. by apply split_spaces_aux_words. Qed.

Lemma xorgUserArguments_words (c : XorgUtils.Settings) :
  is_word (if XorgUtils.testing c then XorgUtils.XephyrPath c
           else XorgUtils.ServerPath c) = true ->
  is_word (XorgUtils.seat_name c) = true ->
  Forall (fun a => is_word a = true) (XorgUtils.xorgUserArguments c).
Proof.
  intros Hpath Hseat. unfold XorgUtils.xorgUserArguments.
  destruct (XorgUtils.testing c).
  - by repeat constructor.
  - apply Forall_app. split; [by repeat constructor|].
    apply Forall_app. split; [apply split_spaces_words|].
    by repeat constructor.
Qed.

(** X4: when the path of the X server (of Xephyr, when testing) and the
    name of the seat are words, the command [xorgUserCommand] returns
    splits at spaces into exactly the arguments it was built from: the
    path first, then the words of [ServerArguments], however many spaces
    were between them, then the fixed options. *)
Theorem xorgUserCommand_splits_back (c : XorgUtils.Settings) :
  is_word (if XorgUtils.testing c then XorgUtils.XephyrPath c
           else XorgUtils.ServerPath c) = true ->
  is_word (XorgUtils.seat_name c) = true ->
  split_spaces (XorgUtils.xorgUserCommand c) = XorgUtils.xorgUserArguments c
  /\ (XorgUtils.testing c = false ->
      XorgUtils.xorgUserArguments c
      = XorgUtils.ServerPath c
        :: split_spaces (XorgUtils.ServerArguments c)
        ++ ["-background"; "none"; "-seat"; XorgUtils.seat_name c;
            "-noreset"; "-keeptty"; "-novtswitch"; "-verbose"; "3"]).
Proof.
  intros Hpath Hseat. split; [|intros Ht; unfold XorgUtils.xorgUserArguments;
                                by rewrite Ht].
  unfold XorgUtils.xorgUserCommand. apply split_join_words.
  by apply xorgUserArguments_words.
Qed.

Lemma xorgUserCommand_splits_back_witness :
  let c := {| XorgUtils.testing := false;
              XorgUtils.XephyrPath := "/usr/bin/Xephyr";
              XorgUtils.ServerPath := "/usr/bin/X";
              XorgUtils.ServerArguments := "  -nolisten  tcp -dpi 96 ";
              XorgUtils.seat_name := "seat0" |} in
  XorgUtils.xorgUserCommand c
  = "/usr/bin/X -nolisten tcp -dpi 96 -background none -seat seat0 -noreset -keeptty -novtswitch -verbose 3"
  /\ split_spaces (XorgUtils.xorgUserCommand c)
     = ["/usr/bin/X"; "-nolisten"; "tcp"; "-dpi"; "96"; "-background"; "none";
        "-seat"; "seat0"; "-noreset"; "-keeptty"; "-novtswitch"; "-verbose";
        "3"].
Proof.
  intros c. split; [reflexivity|].
  destruct (xorgUserCommand_splits_back c eq_refl eq_refl) as [Hsplit _].
  exact Hsplit.
Defined.

(** ** From the daemon's command to the process the helper starts *)

Lemma append_assoc (a b c : string) : (a +:+ b) +:+ c = a +:+ b +:+ c.
Proof.
  induction a as [|x a IH]; [reflexivity|].
  rewrite !append_cons. by f_equal.
Qed.

Lemma join_space_app (ws1 ws2 : list string) :
  ws1 <> [] -> ws2 <> [] ->
  join_space (ws1 ++ ws2) = join_space ws1 +:+ " " +:+ join_space ws2.
Proof.
  unfold join_space. intros H1 H2.
  induction ws1 as [|a ws1 IH]; [done|].
  destruct ws1 as [|a' ws1].
  - destruct ws2 as [|b ws2]; [done|]. reflexivity.
  - change (String.concat " " ((a :: a' :: ws1) ++ ws2))
      with (a +:+ " " +:+ String.concat " " ((a' :: ws1) ++ ws2)).
    rewrite IH by done.
    change (String.concat " " (a :: a' :: ws1))
      with (a +:+ " " +:+ String.concat " " (a' :: ws1)).
    by rewrite !append_assoc.
Qed.

Lemma no_space_uint (d : Decimal.uint) :
  no_space (NilEmpty.string_of_uint d) = true.
Proof. induction d; cbn; done. Qed.

(** [QString::number] of an [int] is a word. *)
Lemma QString_number_word (n : Z) : is_word (QString_number n) = true.
Proof.
  unfold QString_number, NilZero.string_of_int, NilZero.string_of_uint.
  destruct (Z.to_int n) as [d|d]; destruct d; try reflexivity;
    unfold is_word; cbn [String.eqb negb andb no_space Ascii.eqb Bool.eqb];
    cbn; apply no_space_uint.
Qed.

Lemma server_args_words (o : Oracle) (fd : Z) :
  is_word (authPath o) = true ->
  no_space (env_value (systemEnvironment o) "XDG_VTNR") = true ->
  Forall (fun a => is_word a = true)
    (XOrgUserHelper.server_args o (spec_server_env o) fd).
Proof.
  intros Hauth Hvt. unfold XOrgUserHelper.server_args, spec_server_env.
  repeat (apply Forall_cons; split); try done.
  - apply QString_number_word.
  - unfold env_value in *. rewrite lookup_insert_ne by done.
    unfold is_word. rewrite no_space_app, Hvt. reflexivity.
Qed.

(** X5: the daemon builds the server command with [xorgUserCommand], the
    helper appends its own arguments and has Qt split the result.  When
    the paths, the seat name and the VT number are free of spaces and Qt
    splits this command at its spaces, the one process [startServer] starts
    is the X server of the configuration (Xephyr when testing), with the
    daemon's arguments followed by [-auth], [-displayfd], the VT and
    [-logfile /dev/null]. *)
Theorem helper_starts_configured_server (o : Oracle) (s : State)
    (c : XorgUtils.Settings) (fd0 fd1 : Z) :
  pipe o = Some (fd0, fd1) ->
  m_serverCmd s = XorgUtils.xorgUserCommand c ->
  is_word (if XorgUtils.testing c then XorgUtils.XephyrPath c
           else XorgUtils.ServerPath c) = true ->
  is_word (XorgUtils.seat_name c) = true ->
  is_word (authPath o) = true ->
  no_space (env_value (systemEnvironment o) "XDG_VTNR") = true ->
  splitCommand o (m_serverCmd s +:+ spec_server_suffix o fd1)
  = split_spaces (m_serverCmd s +:+ spec_server_suffix o fd1) ->
  List.filter is_start (events_of (XOrgUserHelper.startServer o) s)
  = [EvStart (heap_next s)
       (if XorgUtils.testing c then XorgUtils.XephyrPath c
        else XorgUtils.ServerPath c)
       (tail (XorgUtils.xorgUserArguments c)
        ++ ["-auth"; authPath o; "-displayfd"; QString_number fd1;
            "vt" +:+ env_value (systemEnvironment o) "XDG_VTNR";
            "-logfile"; "/dev/null"])
       (<["XORG_RUN_AS_USER_OK" := "1"]> (systemEnvironment o))].
Proof.
  intros Hpipe Hcmd Hpath Hseat Hauth Hvt Hsplit.
  destruct (startServer_starts o s fd0 fd1 Hpipe) as [Hstart _].
  cbv zeta in Hstart. rewrite Hstart, Hsplit, Hcmd.
  rewrite <- server_suffix_spec.
  unfold XorgUtils.xorgUserCommand.
  rewrite <- join_space_app.
  2:{ unfold XorgUtils.xorgUserArguments. by destruct (XorgUtils.testing c). }
  2:{ done. }
  rewrite split_join_words.
  2:{ apply Forall_app. split; [|by apply server_args_words].
      by apply xorgUserArguments_words. }
  unfold XOrgUserHelper.server_args, spec_server_env, env_value.
  rewrite lookup_insert_ne by done.
  unfold XorgUtils.xorgUserArguments.
  by destruct (XorgUtils.testing c).
Qed.

Lemma helper_starts_configured_server_witness :
  let c := {| XorgUtils.testing := false;
              XorgUtils.XephyrPath := "/usr/bin/Xephyr";
              XorgUtils.ServerPath := "/usr/bin/X";
              XorgUtils.ServerArguments := "-nolisten  tcp";
              XorgUtils.seat_name := "seat0" |} in
  let o := world seven true everybody_exits in
  let s := XOrgUserHelper.XOrgUserHelper ":0" 3 (XorgUtils.xorgUserCommand c)
             "/usr/bin/sddm-greeter" in
  List.filter is_start (events_of (XOrgUserHelper.startServer o) s)
  = [EvStart 0%nat "/usr/bin/X"
       ["-nolisten"; "tcp"; "-background"; "none"; "-seat"; "seat0";
        "-noreset"; "-keeptty"; "-novtswitch"; "-verbose"; "3";
        "-auth"; "/run/user/1000/xauth_abc"; "-displayfd"; "6"; "vt2";
        "-logfile"; "/dev/null"]
       (<["XORG_RUN_AS_USER_OK" := "1"]> (systemEnvironment o))].
Proof.
  intros c o s.
  exact (helper_starts_configured_server o s c 5 6 eq_refl eq_refl eq_refl
           eq_refl eq_refl eq_refl eq_refl).
Defined.

(** ** What [startProcess] and the waits keep *)

Section PreservesStart.

Variable I : State -> Prop.
Hypothesis I_add_event : forall e s, I s -> I (add_event e s).
Hypothesis I_set_heap :
  forall n cs s, I s -> (heap_next s <= n)%nat -> I (set_heap n cs s).

Lemma preserves_startProcess (o : Oracle) (cmd : string)
    (env : QProcessEnvironment) :
  preserves I (XOrgUserHelper.startProcess o cmd env).
Proof.
  intros s Hs. unfold XOrgUserHelper.startProcess.
  destruct (splitCommand o cmd) as [|program args]; [done|].
  unfold_monad. cbn beta iota.
  destruct (waitForStarted o (heap_next s)); cbn [negb snd];
    repeat apply I_add_event;
    (apply I_set_heap; [apply I_set_heap; [done|lia] | cbn; lia]).
Qed.

Lemma preserves_startDisplayCommand (o : Oracle) :
  preserves I (XOrgUserHelper.startDisplayCommand o).
Proof.
  unfold XOrgUserHelper.startDisplayCommand.
  apply preserves_bind; [apply preserves_gets|]. intros display.
  apply preserves_bind; [apply preserves_startProcess|]. intros setCursor.
  apply preserves_bind.
  { destruct setCursor; [|apply preserves_ret].
    by apply preserves_wait_or_kill. }
  intros _. apply preserves_bind; [apply preserves_startProcess|].
  intros displayScript. destruct displayScript; [|apply preserves_ret].
  by apply preserves_wait_or_kill.
Qed.

End PreservesStart.

Lemma session_fixed_startDisplayCommand (o : Oracle) (display clientCmd : string)
    (n : proc) :
  preserves (session_fixed display clientCmd n)
    (XOrgUserHelper.startDisplayCommand o).
Proof.
  apply preserves_startDisplayCommand.
  - by intros e s.
  - intros n' cs s (Hd & Hc & Hn) Hle. repeat split; try done. cbn. lia.
Qed.

(** ** A successful [start], piece by piece *)

Lemma start_success (o : Oracle) (s : State) :
  result_of (XOrgUserHelper.start o) s = Some true ->
  exists s1 s2,
    XOrgUserHelper.startServer o (add_event EvXauthSetup s) = (Some true, s1)
    /\ XOrgUserHelper.startDisplayCommand o s1 = (Some tt, s2)
    /\ XOrgUserHelper.startClient o s2
       = (Some true, state_after (XOrgUserHelper.start o) s).
Proof.
  unfold result_of, state_after, XOrgUserHelper.start.
  cbv [bind log modify ret].
  destruct (XOrgUserHelper.startServer o (add_event EvXauthSetup s))
    as [[[|]|] s1] eqn:Hserver; cbn [negb fst snd]; try done.
  destruct (XOrgUserHelper.startDisplayCommand o s1) as [[[]|] s2] eqn:Hdisplay;
    cbn [fst snd]; try done.
  destruct (XOrgUserHelper.startClient o s2) as [[[|]|] s3] eqn:Hclient;
    cbn [negb fst snd]; try done.
  intros _. by exists s1, s2.
Qed.

Lemma startServer_success (o : Oracle) (s s1 : State) :
  XOrgUserHelper.startServer o s = (Some true, s1) ->
  m_display s1 = QString_fromLocal8Bit (display_bytes (readLine o))
  /\ m_clientCmd s1 = m_clientCmd s
  /\ m_clientProcess s1 = m_clientProcess s
  /\ m_serverProcess s1 = Some (heap_next s)
  /\ heap_next s1 = S (heap_next s)
  /\ exists evs,
       trace s1 = trace s ++ evs
       /\ List.filter is_addCookie evs = [EvAddCookie (m_display s1) true].
Proof.
  unfold XOrgUserHelper.startServer, XOrgUserHelper.startProcess.
  unfold_monad. cbn beta iota. normalize_log.
  repeat (case_step; normalize_log); intros [= <-]; normalize_log;
    cbv zeta;
    match goal with
    | H : (_ <? 2) = false |- _ =>
        pose proof (remove_last_byte _ (short_read _ H)) as Hbytes;
        unfold QByteArray_prepend, colon in Hbytes;
        cbn [length app] in Hbytes; rewrite !Hbytes
    end;
    (split; [reflexivity|]); (split; [reflexivity|]);
    (split; [reflexivity|]); (split; [reflexivity|]);
    (split; [reflexivity|]);
    eexists; (split; [reflexivity|]); reflexivity.
Qed.

Lemma startClient_success (o : Oracle) (s s3 : State) :
  XOrgUserHelper.startClient o s = (Some true, s3) ->
  m_display s3 = m_display s
  /\ m_serverProcess s3 = m_serverProcess s
  /\ m_clientProcess s3 = Some (heap_next s)
  /\ exists program args,
       splitCommand o (m_clientCmd s) = program :: args
       /\ trace s3
          = trace s
            ++ [EvConnect (heap_next s) QuitOnFault;
                EvStart (heap_next s) program args
                  (session_env o (m_display s));
                EvWaitForStarted (heap_next s) true;
                EvConnect (heap_next s) SessionFinished].
Proof.
  unfold XOrgUserHelper.startClient, XOrgUserHelper.startProcess, session_env.
  unfold_monad. cbn beta iota. normalize_log.
  destruct (splitCommand o (m_clientCmd s)) as [|program args]; [done|].
  normalize_log.
  destruct (waitForStarted o (heap_next s)); cbn [negb]; normalize_log;
    intros [= <-]; normalize_log.
  repeat split; try reflexivity. by exists program, args.
Qed.

(** X6: when [start] succeeds, one display name is used throughout: the
    name read from the server (the line without its last byte, after a
    colon) is the name kept in the object, the name the one authority
    cookie of the run is issued for, and the [DISPLAY] of the client; the
    client is started from the client command, with the authority file as
    [XAUTHORITY], as the last thing [start] does, after the cookie. *)
Theorem session_uses_one_display (o : Oracle) (s : State) :
  result_of (XOrgUserHelper.start o) s = Some true ->
  let s' := state_after (XOrgUserHelper.start o) s in
  exists client program args before,
    m_display s' = QString_fromLocal8Bit (display_bytes (readLine o))
    /\ m_clientProcess s' = Some client
    /\ splitCommand o (m_clientCmd s) = program :: args
    /\ events_of (XOrgUserHelper.start o) s
       = before
         ++ [EvConnect client QuitOnFault;
             EvStart client program args
               (<["XAUTHORITY" := authPath o]>
                  (<["DISPLAY" := m_display s']> (systemEnvironment o)));
             EvWaitForStarted client true;
             EvConnect client SessionFinished]
    /\ List.filter is_addCookie before = [EvAddCookie (m_display s') true].
Proof.
  intros Hok s'.
  destruct (start_success o s Hok) as (s1 & s2 & Hserver & Hdisplay & Hclient).
  fold s' in Hclient.
  apply startServer_success in Hserver
    as (Hname & Hcmd & _ & _ & Hheap & evsS & HtrS & Hcookie).
  pose proof (session_fixed_startDisplayCommand o (m_display s1)
                (m_clientCmd s) (heap_next s1) s1) as Hfixed.
  rewrite Hdisplay in Hfixed. cbn [snd] in Hfixed.
  destruct Hfixed as (Hd2 & Hc2 & _); [by repeat split|].
  destruct (emits_startDisplayCommand o s1) as (evsD & HtrD & HevsD).
  rewrite Hdisplay in HtrD. cbn [snd] in HtrD.
  apply startClient_success in Hclient
    as (Hd3 & _ & Hcp & program & args & Hsplit & HtrC).
  exists (heap_next s2), program, args, (EvXauthSetup :: evsS ++ evsD).
  rewrite Hd3, Hd2. split; [exact Hname|]. split; [exact Hcp|].
  split; [by rewrite <- Hc2|]. split.
  - unfold events_of. fold (state_after (XOrgUserHelper.start o) s).
    fold s'. rewrite HtrC, HtrD, HtrS. cbn [trace add_event].
    rewrite <- !app_assoc. rewrite drop_app_length.
    unfold session_env. rewrite Hd2. cbn [app]. by rewrite <- ?app_assoc.
  - cbn [List.filter is_addCookie]. rewrite List.filter_app, Hcookie.
    rewrite (filter_process_events is_addCookie evsD), app_nil_r;
      [done | by intros [] | done].
Qed.

Lemma session_uses_one_display_witness :
  let o := world seven true nobody_exits in
  result_of (XOrgUserHelper.start o) (helper0 3) = Some true
  /\ exists client program args before,
       m_display (state_after (XOrgUserHelper.start o) (helper0 3))
       = QString_fromLocal8Bit (display_bytes (readLine o))
       /\ m_clientProcess (state_after (XOrgUserHelper.start o) (helper0 3))
          = Some client
       /\ splitCommand o (m_clientCmd (helper0 3)) = program :: args
       /\ events_of (XOrgUserHelper.start o) (helper0 3)
          = before
            ++ [EvConnect client QuitOnFault;
                EvStart client program args
                  (<["XAUTHORITY" := authPath o]>
                     (<["DISPLAY"
                        := m_display
                             (state_after (XOrgUserHelper.start o) (helper0 3))]>
                        (systemEnvironment o)));
                EvWaitForStarted client true;
                EvConnect client SessionFinished]
       /\ List.filter is_addCookie before
          = [EvAddCookie
               (m_display (state_after (XOrgUserHelper.start o) (helper0 3)))
               true].
Proof.
  intros o. split; [reflexivity|].
  exact (session_uses_one_display o (helper0 3) eq_refl).
Defined.

(** ** The pipe to the server *)

Lemma precedesb_sound (A B : event -> bool) (evs : list event) :
  precedesb A B evs = true -> precedes A B evs.
Proof.
  induction evs as [|e evs IH]; intros Hb i j a b Hi Hj Ha Hb'; [done|].
  cbn [precedesb] in Hb. apply andb_prop in Hb as [Hhead Htail].
  destruct j as [|j].
  - cbn in Hj. injection Hj as <-. rewrite Hb' in Hhead.
    rewrite forallb_forall in Hhead.
    assert (In a (e :: evs)) as Hin.
    { apply list_elem_of_In. by eapply list_elem_of_lookup_2. }
    apply Hhead in Hin. rewrite Ha in Hin. discriminate.
  - destruct i as [|i]; [lia|]. cbn in Hi, Hj.
    specialize (IH Htail i j a b Hi Hj Ha Hb'). lia.
Qed.

Lemma pipe_ends (o : Oracle) (s : State) (fd0 fd1 : Z) (r : bool) :
  pipe o = Some (fd0, fd1) -> fd0 <> fd1 ->
  result_of (XOrgUserHelper.startServer o) s = Some r ->
  let evs := events_of (XOrgUserHelper.startServer o) s in
  countb (is_close fd1) evs = Nat.b2n (waitForStarted o (heap_next s))
  /\ countb (is_close fd0) evs
     = Nat.b2n (negb (existsb is_cookie_refused evs))
  /\ precedes (is_close fd1) is_readLine evs
  /\ precedes is_readLine (is_close fd0) evs.
Proof.
  intros Hpipe Hne. revert Hpipe.
  assert ((fd0 =? fd1) = false) as H01 by by apply Z.eqb_neq.
  assert ((fd1 =? fd0) = false) as H10 by (apply Z.eqb_neq; congruence).
  unfold XOrgUserHelper.startServer, XOrgUserHelper.startProcess. exec;
    intros Hpipe; try discriminate Hpipe; injection Hpipe as <- <-;
    intros Hr; try discriminate Hr;
    (split; [|split; [|split]]);
    try (apply precedesb_sound);
    unfold countb;
    cbn [List.filter existsb is_close is_cookie_refused is_readLine precedesb
         forallb negb andb orb length Nat.b2n];
    rewrite ?Z.eqb_refl, ?H01, ?H10;
    cbn [List.filter existsb is_close is_cookie_refused is_readLine precedesb
         forallb negb andb orb length Nat.b2n];
    reflexivity.
Qed.

(** X7: the two ends of the pipe [startServer] makes, when the server
    command is not empty: the write end is closed once if the server
    process started and is left open if it did not; the read end is closed
    once on every way out but one, the refused cookie, where it is left
    open; the write end is closed before the line is read and the read end
    after it. *)
Theorem pipe_ends_closed (o : Oracle) (s : State) (fd0 fd1 : Z) (r : bool) :
  pipe o = Some (fd0, fd1) -> fd0 <> fd1 ->
  result_of (XOrgUserHelper.startServer o) s = Some r ->
  let evs := events_of (XOrgUserHelper.startServer o) s in
  countb (is_close fd1) evs
  = (if waitForStarted o (heap_next s) then 1 else 0)%nat
  /\ countb (is_close fd0) evs
     = (if existsb is_cookie_refused evs then 0 else 1)%nat
  /\ precedes (is_close fd1) is_readLine evs
  /\ precedes is_readLine (is_close fd0) evs.
Proof.
  intros Hpipe Hne Hr evs.
  destruct (pipe_ends o s fd0 fd1 r Hpipe Hne Hr) as (H1 & H0 & Hbefore & Hafter).
  split; [exact H1|]. split; [|by split].
  subst evs. rewrite H0. by destruct (existsb is_cookie_refused _).
Qed.

Lemma pipe_ends_closed_witness :
  let o := world seven false nobody_exits in
  let evs := events_of (XOrgUserHelper.startServer o) (helper0 3) in
  countb (is_close 6) evs
  = (if waitForStarted o (heap_next (helper0 3)) then 1 else 0)%nat
  /\ countb (is_close 5) evs
     = (if existsb is_cookie_refused evs then 0 else 1)%nat
  /\ precedes (is_close 6) is_readLine evs
  /\ precedes is_readLine (is_close 5) evs.
Proof.
  intros o.
  assert (5 <> 6) as Hne by lia.
  exact (pipe_ends_closed o (helper0 3) 5 6 false eq_refl Hne eq_refl).
Defined.

(** ** [stop] after [start] *)

Lemma startServer_records (o : Oracle) (s : State) (fd0 fd1 : Z) :
  pipe o = Some (fd0, fd1) ->
  splits o (m_serverCmd s +:+ " "
            +:+ join_space
                  (XOrgUserHelper.server_args o
                     (<["XORG_RUN_AS_USER_OK" := "1"]> (systemEnvironment o))
                     fd1)) = true ->
  waitForStarted o (heap_next s) = true ->
  m_serverProcess (state_after (XOrgUserHelper.startServer o) s)
  = Some (heap_next s).
Proof.
  intros Hpipe Hsplits Hstarted. revert Hsplits.
  unfold splits, XOrgUserHelper.startServer, XOrgUserHelper.startProcess.
  unfold state_after. unfold_monad. cbn beta iota. rewrite Hpipe.
  normalize_log.
  destruct (splitCommand o _) as [|program args]; [done|]. intros _.
  normalize_log. rewrite Hstarted. cbn [negb]. normalize_log.
  repeat (case_step; normalize_log); reflexivity.
Qed.

Lemma startClient_keeps_server (o : Oracle) (p : option proc) :
  preserves (fun s => m_serverProcess s = p) (XOrgUserHelper.startClient o).
Proof.
  intros s Hs.
  unfold XOrgUserHelper.startClient, XOrgUserHelper.startProcess.
  unfold_monad. cbn beta iota. normalize_log.
  repeat (case_step; normalize_log); exact Hs.
Qed.

Lemma start_records_server (o : Oracle) (s : State) (fd0 fd1 : Z) :
  pipe o = Some (fd0, fd1) ->
  splits o (m_serverCmd s +:+ " "
            +:+ join_space
                  (XOrgUserHelper.server_args o
                     (<["XORG_RUN_AS_USER_OK" := "1"]> (systemEnvironment o))
                     fd1)) = true ->
  waitForStarted o (heap_next s) = true ->
  m_serverProcess (state_after (XOrgUserHelper.start o) s)
  = Some (heap_next s).
Proof.
  intros Hpipe Hsplits Hstarted.
  pose proof (startServer_records o (add_event EvXauthSetup s) fd0 fd1
                Hpipe Hsplits Hstarted) as Hserver.
  unfold state_after in *. unfold XOrgUserHelper.start.
  cbv [bind log modify ret].
  destruct (XOrgUserHelper.startServer o (add_event EvXauthSetup s))
    as [[[|]|] s1]; cbn [negb fst snd] in *; try done.
  assert (m_serverProcess (snd (XOrgUserHelper.startDisplayCommand o s1))
          = Some (heap_next s)) as Hdisplay.
  { by apply (preserves_startDisplayCommand
                (fun s' => m_serverProcess s' = Some (heap_next s))). }
  destruct (XOrgUserHelper.startDisplayCommand o s1) as [[[]|] s2];
    cbn [fst snd] in *; try done.
  pose proof (startClient_keeps_server o _ s2 Hdisplay) as Hclient.
  destruct (XOrgUserHelper.startClient o s2) as [[[|]|] s3];
    cbn [negb fst snd] in *; done.
Qed.

(** X8: [stop] after [start], whatever [start] returned.  Once the server
    process has been started, it is the server of the object even if
    [start] goes on to fail (the pipe cannot be opened, the line is too
    short, the cookie is refused, the client does not start); a [stop] that
    follows returns, asks that process to terminate, kills it if it has
    not finished within the grace period, releases it, removes the
    authority file and leaves the object without processes. *)
Theorem stop_after_start (o1 o2 : Oracle) (s : State) (fd0 fd1 : Z) :
  wfb s = true ->
  pipe o1 = Some (fd0, fd1) ->
  splits o1 (m_serverCmd s +:+ " "
             +:+ join_space
                   (XOrgUserHelper.server_args o1
                      (<["XORG_RUN_AS_USER_OK" := "1"]> (systemEnvironment o1))
                      fd1)) = true ->
  waitForStarted o1 (heap_next s) = true ->
  splits o2 (DisplayStopCommand o2) = true ->
  let server := heap_next s in
  let s1 := state_after (XOrgUserHelper.start o1) s in
  let s2 := state_after (XOrgUserHelper.stop o2) s1 in
  let evs := events_of (XOrgUserHelper.stop o2) s1 in
  m_serverProcess s1 = Some server
  /\ result_of (XOrgUserHelper.stop o2) s1 = Some tt
  /\ EvTerminate server ∈ evs
  /\ (is_finished (waitForFinished o2 server 5000) = false ->
      EvKill server ∈ evs)
  /\ EvDeleteLater server ∈ evs
  /\ EvRemoveFile (authPath o2) ∈ evs
  /\ m_serverProcess s2 = None /\ m_clientProcess s2 = None.
Proof.
  intros Hwf Hpipe Hsplits Hstarted Hstop server s1 s2 evs.
  pose proof (start_records_server o1 s fd0 fd1 Hpipe Hsplits Hstarted)
    as Hserver.
  fold s1 server in Hserver.
  pose proof (wfb_start o1 s Hwf) as Hwf1. fold s1 in Hwf1.
  assert (evs = stop_events o2 s1) as Hevs by by apply stop_events_of.
  assert (XOrgUserHelper.stop o2 s1 = (Some tt, stopped o2 s1)) as Hspec
    by by apply stop_spec.
  split; [exact Hserver|].
  split; [unfold result_of; by rewrite Hspec|].
  assert (forall e, e ∈ terminate_events o2 s1 server ++ teardown_events o2 s1 ->
                    e ∈ evs) as Hin.
  { intros e He. rewrite Hevs. unfold stop_events. rewrite Hserver.
    apply elem_of_app. by right. }
  split; [apply Hin, elem_of_app; left; apply list_elem_of_here|].
  split.
  { intros Hslow. apply Hin, elem_of_app. left.
    unfold terminate_events. rewrite Hslow.
    rewrite !elem_of_app. right. right. left. apply list_elem_of_here. }
  split.
  { apply Hin, elem_of_app. left. unfold terminate_events.
    rewrite !elem_of_app. right. right. right. apply list_elem_of_here. }
  split.
  { apply Hin, elem_of_app. right. unfold teardown_events.
    unfold splits in Hstop.
    destruct (splitCommand o2 (DisplayStopCommand o2)) as [|program args];
      [done|].
    rewrite !elem_of_app. right. right. apply list_elem_of_here. }
  subst s2. unfold state_after. by rewrite Hspec.
Qed.

Lemma stop_after_start_witness :
  let o := world seven false nobody_exits in
  let s := helper0 3 in
  let server := heap_next s in
  let s1 := state_after (XOrgUserHelper.start o) s in
  let s2 := state_after (XOrgUserHelper.stop o) s1 in
  let evs := events_of (XOrgUserHelper.stop o) s1 in
  result_of (XOrgUserHelper.start o) s = Some false
  /\ m_serverProcess s1 = Some server
  /\ result_of (XOrgUserHelper.stop o) s1 = Some tt
  /\ EvTerminate server ∈ evs
  /\ (is_finished (waitForFinished o server 5000) = false ->
      EvKill server ∈ evs)
  /\ EvDeleteLater server ∈ evs
  /\ EvRemoveFile (authPath o) ∈ evs
  /\ m_serverProcess s2 = None /\ m_clientProcess s2 = None.
Proof.
  intros o s. split; [reflexivity|].
  exact (stop_after_start o o s 5 6 eq_refl eq_refl eq_refl eq_refl eq_refl).
Defined.

(** ** The older helper: the cookie and the display *)

Lemma legacy_startServer_no_cookie (o : Oracle) :
  emits (fun e => is_addCookie e = false) (HelperStartXorgUser.startServer o).
Proof.
  unfold HelperStartXorgUser.startServer, HelperStartXorgUser.startProcess.
  repeat first
    [ eapply emits_weaken; [|apply emits_startProcess]; by intros []
    | emits_step ].
Qed.

Lemma legacy_startServer_success (o : Oracle) (s s1 : State) :
  HelperStartXorgUser.startServer o s = (Some true, s1) ->
  m_display s1 = QString_fromLocal8Bit (display_bytes (readLine o))
  /\ m_clientCmd s1 = m_clientCmd s
  /\ heap_next s1 = S (heap_next s).
Proof.
  unfold HelperStartXorgUser.startServer, HelperStartXorgUser.startProcess,
    XOrgUserHelper.startProcess.
  unfold_monad. cbn beta iota. normalize_log.
  repeat (case_step; normalize_log); intros [= <-]; normalize_log;
    cbv zeta;
    match goal with
    | H : (_ <? 2) = false |- _ =>
        pose proof (remove_last_byte _ (short_read _ H)) as Hbytes;
        unfold QByteArray_prepend, colon in Hbytes;
        cbn [length app] in Hbytes; rewrite !Hbytes
    end; done.
Qed.

Lemma legacy_startClient_success (o : Oracle) (s s3 : State) :
  HelperStartXorgUser.startClient o s = (Some true, s3) ->
  m_display s3 = m_display s
  /\ m_clientProcess s3 = Some (heap_next s)
  /\ exists program args,
       splitCommand o (m_clientCmd s) = program :: args
       /\ trace s3
          = trace s
            ++ [EvConnect (heap_next s) QuitOnFault;
                EvStart (heap_next s) program args
                  (session_env o (m_display s));
                EvWaitForStarted (heap_next s) true].
Proof.
  unfold HelperStartXorgUser.startClient, HelperStartXorgUser.startProcess,
    XOrgUserHelper.startProcess, session_env.
  unfold_monad. cbn beta iota. normalize_log.
  destruct (splitCommand o (m_clientCmd s)) as [|program args]; [done|].
  normalize_log.
  destruct (waitForStarted o (heap_next s)); cbn [negb]; normalize_log;
    intros [= <-]; normalize_log.
  repeat split; try reflexivity. by exists program, args.
Qed.

Lemma legacy_start_success (o : Oracle) (s : State) :
  result_of (HelperStartXorgUser.start o) s = Some true ->
  exists s1 s2,
    HelperStartXorgUser.startServer o
      (add_event (EvAddCookie (m_display s) true) (add_event EvXauthSetup s))
    = (Some true, s1)
    /\ XOrgUserHelper.startDisplayCommand o s1 = (Some tt, s2)
    /\ HelperStartXorgUser.startClient o s2
       = (Some true, state_after (HelperStartXorgUser.start o) s).
Proof.
  unfold result_of, state_after, HelperStartXorgUser.start,
    HelperStartXorgUser.startDisplayCommand.
  cbv [bind log modify ret gets]. cbn [m_display add_event].
  destruct (addCookie o (m_display s)); cbn [negb fst snd]; [|done].
  destruct (HelperStartXorgUser.startServer o _)
    as [[[|]|] s1] eqn:Hserver; cbn [negb fst snd]; try done.
  destruct (XOrgUserHelper.startDisplayCommand o s1) as [[[]|] s2] eqn:Hdisplay;
    cbn [fst snd]; try done.
  destruct (HelperStartXorgUser.startClient o s2) as [[[|]|] s3] eqn:Hclient;
    cbn [negb fst snd]; try done.
  intros _. by exists s1, s2.
Qed.

(** X9: the older helper asks for its one cookie before anything is
    started, for the display name the object has when [start] is entered
    (":0" after the constructor), not for the name the server reports.  A
    refused cookie ends [start] there, with nothing started.  When [start]
    succeeds, the client is the last process started and its [DISPLAY] is
    the name read from the server. *)
Theorem legacy_cookie_for_initial_display (o : Oracle) (s : State) :
  let evs := events_of (HelperStartXorgUser.start o) s in
  let s' := state_after (HelperStartXorgUser.start o) s in
  let cookie := EvAddCookie (m_display s) (addCookie o (m_display s)) in
  let display := QString_fromLocal8Bit (display_bytes (readLine o)) in
  take 2 evs = [EvXauthSetup; cookie]
  /\ List.filter is_addCookie evs = [cookie]
  /\ (addCookie o (m_display s) = false ->
      HelperStartXorgUser.start o s
      = (Some false, add_event cookie (add_event EvXauthSetup s)))
  /\ (result_of (HelperStartXorgUser.start o) s = Some true ->
      m_display s' = display
      /\ exists client program args before,
           m_clientProcess s' = Some client
           /\ splitCommand o (m_clientCmd s) = program :: args
           /\ evs = before
                    ++ [EvConnect client QuitOnFault;
                        EvStart client program args
                          (<["XAUTHORITY" := authPath o]>
                             (<["DISPLAY" := display]> (systemEnvironment o)));
                        EvWaitForStarted client true]).
Proof.
  intros evs s' cookie display.
  assert (take 2 evs = [EvXauthSetup; cookie]
          /\ List.filter is_addCookie evs = [cookie]
          /\ (addCookie o (m_display s) = false ->
              HelperStartXorgUser.start o s
              = (Some false, add_event cookie (add_event EvXauthSetup s))))
    as (Htake & Hfilter & Hrefused).
  { subst evs cookie.
    destruct (addCookie o (m_display s)) eqn:Hcookie.
    - destruct (legacy_start_events o s Hcookie) as (rest & Hev & Hrest & _).
      rewrite Hev. split; [reflexivity|]. split; [|done].
      cbn [List.filter is_addCookie]. rewrite List.filter_app.
      destruct (legacy_startServer_no_cookie o
                  (add_event (EvAddCookie (m_display s) true)
                     (add_event EvXauthSetup s))) as (evsS & HtrS & HevsS).
      unfold events_of. rewrite HtrS, drop_app_length.
      rewrite (filter_none is_addCookie evsS) by done.
      rewrite (filter_process_events is_addCookie rest);
        [done | by intros [] | done].
    - unfold events_of, HelperStartXorgUser.start.
      cbv [bind log modify ret gets]. cbn [m_display add_event].
      rewrite Hcookie. cbn [negb fst snd trace add_event].
      rewrite <- app_assoc, drop_app_length. done. }
  split; [exact Htake|]. split; [exact Hfilter|]. split; [exact Hrefused|].
  intros Hok.
  destruct (legacy_start_success o s Hok)
    as (s1 & s2 & Hserver & Hdisplay & Hclient).
  fold s' in Hclient.
  pose proof (legacy_start_success o s Hok) as _.
  destruct (emits_weaken _ (fun _ => True) _ (fun _ _ => Logic.I)
              (legacy_startServer_no_cookie o)
              (add_event (EvAddCookie (m_display s) true)
                 (add_event EvXauthSetup s))) as (evsS & HtrS & _).
  rewrite Hserver in HtrS. cbn [snd trace add_event] in HtrS.
  apply legacy_startServer_success in Hserver as (Hname & Hcmd & _).
  pose proof (session_fixed_startDisplayCommand o (m_display s1)
                (m_clientCmd s) (heap_next s1) s1) as Hfixed.
  rewrite Hdisplay in Hfixed. cbn [snd] in Hfixed.
  destruct Hfixed as (Hd2 & Hc2 & _); [by repeat split|].
  destruct (emits_startDisplayCommand o s1) as (evsD & HtrD & _).
  rewrite Hdisplay in HtrD. cbn [snd] in HtrD.
  apply legacy_startClient_success in Hclient
    as (Hd3 & Hcp & program & args & Hsplit & HtrC).
  split; [by rewrite Hd3, Hd2|].
  exists (heap_next s2), program, args,
    ([EvXauthSetup; EvAddCookie (m_display s) true] ++ evsS ++ evsD).
  split; [exact Hcp|]. split; [by rewrite <- Hc2|].
  subst evs. unfold events_of. fold (state_after (HelperStartXorgUser.start o) s).
  fold s'. rewrite HtrC, HtrD, HtrS.
  rewrite <- !app_assoc. rewrite drop_app_length.
  unfold session_env. rewrite Hd2, Hname. cbn [app].
  by rewrite <- ?app_assoc.
Qed.

Lemma legacy_cookie_for_initial_display_witness :
  let o := world seven true nobody_exits in
  let s := HelperStartXorgUser.XOrgUserHelper 3
             "/usr/bin/X -nolisten tcp" "/usr/bin/sddm-greeter" in
  result_of (HelperStartXorgUser.start o) s = Some true
  /\ List.filter is_addCookie (events_of (HelperStartXorgUser.start o) s)
     = [EvAddCookie ":0" true]
  /\ m_display (state_after (HelperStartXorgUser.start o) s) = ":7".
Proof.
  intros o s.
  destruct (legacy_cookie_for_initial_display o s) as (_ & Hfilter & _ & Hok).
  split; [reflexivity|]. split; [exact Hfilter|].
  exact (proj1 (Hok eq_refl)).
Defined.

(** ** The older [stop] *)

Lemma legacy_displayFinished_spec (o : Oracle) (s : State) :
  m_serverProcess s = None ->
  observers_of (heap_next s) (connections s) = [] ->
  splits o (DisplayStopCommand o) = true ->
  HelperStartXorgUserMain.displayFinished o s
  = (Some tt,
     set_heap (S (heap_next s)) (connections s ++ [(heap_next s, QuitOnFault)])
       (add_events (legacy_teardown_events o s) s)).
Proof.
  intros Hserver Hfresh Hsplits.
  unfold HelperStartXorgUserMain.displayFinished,
    HelperStartXorgUser.startProcess, HelperStartXorgUser.wait_or_kill,
    XOrgUserHelper.startProcess, XOrgUserHelper.wait_or_kill,
    legacy_teardown_events, session_env, splits in *.
  destruct (splitCommand o (DisplayStopCommand o)) as [|program args];
    [done|].
  unfold_monad. cbn beta iota. normalize_log.
  destruct (waitForStarted o (heap_next s)) eqn:Hstarted; cbn [negb].
  - rewrite waitForFinished_spec.
    + normalize_log. rewrite Hserver.
      destruct (is_finished (waitForFinished o (heap_next s) 5000));
        cbn [negb]; state_eq.
    + normalize_log. rewrite Hserver, observers_of_app, Hfresh.
      unfold observers_of. rewrite filter_cons_True by done. reflexivity.
  - state_eq.
Qed.

Lemma legacy_stop_spec (o : Oracle) (s : State) :
  wfb s = true -> splits o (DisplayStopCommand o) = true ->
  exists s',
    HelperStartXorgUserMain.stop o s = (Some tt, s')
    /\ members s' = members (stopped o s)
    /\ trace s' = trace s ++ legacy_stop_events o s.
Proof.
  intros Hwf Hsplits.
  pose proof (wfb_connections s Hwf) as Hfresh.
  apply observers_of_fresh in Hfresh.
  unfold HelperStartXorgUserMain.stop, stopped, members, legacy_stop_events,
    terminate_events.
  destruct (m_clientProcess s) as [c|] eqn:Hclient.
  - destruct (wfb_client s c Hwf Hclient) as (_ & p & Hserver & _).
    unfold_monad. cbn beta iota. rewrite Hclient.
    rewrite waitForFinished_spec
      by (cbn [m_serverProcess add_event]; by rewrite Hserver).
    normalize_log. rewrite Hserver.
    destruct (is_finished (waitForFinished o c 5000)); cbn [negb];
      normalize_log; rewrite Hserver;
      (rewrite waitForFinished_spec
        by (normalize_log; by rewrite Hserver));
      normalize_log; rewrite Hserver;
      destruct (is_finished (waitForFinished o p 5000)); cbn [negb];
      normalize_log; rewrite legacy_displayFinished_spec by done;
      (eexists; split; [reflexivity|]); normalize_log;
      (split; [reflexivity|]);
      rewrite <- ?app_assoc; cbn [app]; by rewrite <- ?app_assoc.
  - unfold_monad. cbn beta iota. rewrite Hclient.
    destruct (m_serverProcess s) as [p|] eqn:Hserver.
    + rewrite waitForFinished_spec
        by (normalize_log; by rewrite Hserver).
      normalize_log. rewrite Hserver.
      destruct (is_finished (waitForFinished o p 5000)); cbn [negb];
        normalize_log; rewrite legacy_displayFinished_spec by done;
        (eexists; split; [reflexivity|]); normalize_log;
        (split; [by rewrite Hclient|]);
        rewrite <- ?app_assoc; cbn [app]; by rewrite <- ?app_assoc.
    + eexists. split; [reflexivity|]. rewrite Hclient, Hserver.
      split; [reflexivity|]. by rewrite app_nil_r.
Qed.

Lemma with_platform_other (evs : list event) :
  Forall (fun e => is_start e = false) evs -> map with_platform evs = evs.
Proof.
  induction 1 as [|e evs He _ IH]; [done|].
  cbn [map]. rewrite IH. by destruct e.
Qed.

Lemma with_platform_wait_events (o : Oracle) (server : option proc)
    (cs : list (proc * observer)) (p : proc) (msecs : Z) :
  map with_platform (wait_events o server cs p msecs)
  = wait_events o server cs p msecs.
Proof. apply with_platform_other. by apply wait_events_Forall. Qed.

Lemma with_platform_terminate_events (o : Oracle) (s : State) (p : proc) :
  map with_platform (terminate_events o s p) = terminate_events o s p.
Proof.
  unfold terminate_events.
  rewrite !map_app, with_platform_wait_events.
  by destruct (is_finished (waitForFinished o p 5000)).
Qed.

Lemma with_platform_teardown_events (o : Oracle) (s : State) :
  map with_platform (legacy_teardown_events o s) = teardown_events o s.
Proof.
  unfold legacy_teardown_events, teardown_events, stop_env, session_env.
  destruct (splitCommand o (DisplayStopCommand o)) as [|program args];
    [done|].
  rewrite !map_app. cbn [map with_platform]. f_equal. f_equal.
  destruct (waitForStarted o (heap_next s)); [|done].
  rewrite !map_app, with_platform_wait_events.
  by destruct (is_finished (waitForFinished o (heap_next s) 5000)).
Qed.

(** X10: the two versions of [stop].  From the same well-formed object
    both return and leave the same members: no process, the script process
    allocated when there was a server.  Their logs agree event by event
    but for the one process [stop] starts, the display stop script: the
    newer helper sets [QT_QPA_PLATFORM] to [xcb] over the environment the
    older one gives it, whatever the ambient value. *)
Theorem stop_versions_differ_in_platform (o : Oracle) (s : State) :
  wfb s = true -> splits o (DisplayStopCommand o) = true ->
  result_of (HelperStartXorgUserMain.stop o) s = Some tt
  /\ result_of (XOrgUserHelper.stop o) s = Some tt
  /\ members (state_after (HelperStartXorgUserMain.stop o) s)
     = members (state_after (XOrgUserHelper.stop o) s)
  /\ events_of (XOrgUserHelper.stop o) s
     = map with_platform (events_of (HelperStartXorgUserMain.stop o) s)
  /\ (forall p program args env,
        EvStart p program args env
        ∈ events_of (HelperStartXorgUserMain.stop o) s ->
        env = <["XAUTHORITY" := authPath o]>
                (<["DISPLAY" := m_display s]> (systemEnvironment o))).
Proof.
  intros Hwf Hsplits.
  destruct (legacy_stop_spec o s Hwf Hsplits) as (s' & Hold & Hmembers & Htrace).
  pose proof (stop_spec o s Hwf Hsplits) as Hnew.
  assert (events_of (HelperStartXorgUserMain.stop o) s
          = legacy_stop_events o s) as Hevents.
  { unfold events_of. rewrite Hold. cbn [snd].
    by rewrite Htrace, drop_app_length. }
  unfold result_of, state_after. rewrite Hold, Hnew. cbn [fst snd].
  split; [done|]. split; [done|]. split; [exact Hmembers|].
  rewrite Hevents. split.
  - rewrite stop_events_of by done.
    unfold legacy_stop_events, stop_events. rewrite map_app. f_equal.
    + destruct (m_clientProcess s); [|done].
      by rewrite with_platform_terminate_events.
    + destruct (m_serverProcess s); [|done].
      by rewrite map_app, with_platform_terminate_events,
        with_platform_teardown_events.
  - intros p program args env Hin.
    assert (forall q, EvStart p program args env ∉ terminate_events o s q)
      as Hterm.
    { intros q Hq.
      assert (Forall (fun e => is_start e = false) (terminate_events o s q))
        as Hall.
      { unfold terminate_events. repeat (apply Forall_app; split).
        - by repeat constructor.
        - by apply wait_events_Forall.
        - destruct (is_finished _); by repeat constructor.
        - by repeat constructor. }
      rewrite Forall_forall in Hall. by apply Hall in Hq. }
    unfold legacy_stop_events in Hin. apply elem_of_app in Hin as [Hin|Hin].
    { destruct (m_clientProcess s); [by apply Hterm in Hin|].
      by apply elem_of_nil in Hin. }
    destruct (m_serverProcess s); [|by apply elem_of_nil in Hin].
    apply elem_of_app in Hin as [Hin|Hin]; [by apply Hterm in Hin|].
    unfold legacy_teardown_events in Hin.
    destruct (splitCommand o (DisplayStopCommand o)) as [|program' args'];
      [by apply elem_of_nil in Hin|].
    rewrite !elem_of_app in Hin. destruct Hin as [Hin|[Hin|Hin]].
    + in_log Hin. by injection Hin as -> -> -> ->.
    + destruct (waitForStarted o (heap_next s));
        [|by apply elem_of_nil in Hin].
      rewrite !elem_of_app in Hin. destruct Hin as [Hin|[Hin|Hin]].
      * assert (Forall (fun e => is_start e = false)
                  (wait_events o None
                     (connections s ++ [(heap_next s, QuitOnFault)])
                     (heap_next s) 5000)) as Hall
          by by apply wait_events_Forall.
        rewrite Forall_forall in Hall. by apply Hall in Hin.
      * destruct (is_finished _); in_log Hin.
      * in_log Hin.
    + in_log Hin.
Qed.

Lemma stop_versions_differ_in_platform_witness :
  let o := world seven true everybody_exits in
  result_of (HelperStartXorgUserMain.stop o) running = Some tt
  /\ result_of (XOrgUserHelper.stop o) running = Some tt
  /\ members (state_after (HelperStartXorgUserMain.stop o) running)
     = members (state_after (XOrgUserHelper.stop o) running)
  /\ events_of (XOrgUserHelper.stop o) running
     = map with_platform (events_of (HelperStartXorgUserMain.stop o) running)
  /\ (forall p program args env,
        EvStart p program args env
        ∈ events_of (HelperStartXorgUserMain.stop o) running ->
        env = <["XAUTHORITY" := authPath o]>
                (<["DISPLAY" := m_display running]> (systemEnvironment o))).
Proof.
  intros o.
  exact (stop_versions_differ_in_platform o running eq_refl eq_refl).
Defined.

(** ** MessageHandler.cpp: the log file *)

Section StandardLogger.

Import MessageHandler.

Variable w : World.

Lemma standardLogger_cases (type : QtMsgType) (msg : string) (s : Process) :
  let s' := standardLogger w type msg s in
  exists text evs,
    is_line_of (type, msg) text
    /\ output s' = output s ++ evs
    /\ journalEnabled s' = journalEnabled s
    /\ ((file_isOpen s = true /\ evs = file_block text
         /\ file_isOpen s' = true)
        \/ (file_isOpen s = false /\ file_isOpen s' = true
            /\ (evs = [FileOpen Append true] ++ file_block text
                \/ evs = [FileOpen Append false; FileOpen Truncate true]
                         ++ file_block text))
        \/ (file_isOpen s = false /\ file_isOpen s' = false
            /\ evs = stdout_block text)).
Proof.
  unfold standardLogger.
  destruct (file_isOpen s) eqn:Hopen; cbn [negb].
  - cbn [tick file_isOpen]. rewrite Hopen.
    eexists _, _. split; [|split; [|split]].
    + exists (currentDateTime w (now s)). cbn [fst snd]. by destruct type.
    + cbn [observe output tick]. by rewrite <- app_assoc.
    + reflexivity.
    + left. by destruct type.
  - destruct (file_open w (now s) Append) eqn:Happend; cbn [negb].
    + cbn [tick file_isOpen set_isOpen observe now].
      eexists _, _. split; [|split; [|split]].
      * exists (currentDateTime w (S (now s))). cbn [fst snd].
        by destruct type.
      * cbn [observe output tick set_isOpen]. by rewrite <- !app_assoc.
      * reflexivity.
      * right. left. split; [done|]. split; [done|]. left. by destruct type.
    + cbn [now observe set_isOpen].
      destruct (file_open w (S (now s)) Truncate) eqn:Htruncate;
        cbn [tick file_isOpen set_isOpen observe now].
      * eexists _, _. split; [|split; [|split]].
        -- exists (currentDateTime w (S (S (now s)))). cbn [fst snd].
           by destruct type.
        -- cbn [observe output tick set_isOpen]. by rewrite <- !app_assoc.
        -- reflexivity.
        -- right. left. split; [done|]. split; [done|]. right.
           by destruct type.
      * eexists _, _. split; [|split; [|split]].
        -- exists (currentDateTime w (S (S (now s)))). cbn [fst snd].
           by destruct type.
        -- cbn [observe output tick set_isOpen]. by rewrite <- !app_assoc.
        -- reflexivity.
        -- right. right. split; [done|]. split; [done|]. by destruct type.
Qed.

Lemma log_all_cons (m : QtMsgType * string) (ms : list (QtMsgType * string))
    (s : Process) :
  log_all w (m :: ms) s = log_all w ms (standardLogger w (fst m) (snd m) s).
Proof. reflexivity. Qed.

Lemma log_all_open (ms : list (QtMsgType * string)) (s : Process) :
  file_isOpen s = true ->
  exists texts,
    Forall2 is_line_of ms texts
    /\ output (log_all w ms s) = output s ++ concat (map file_block texts)
    /\ file_isOpen (log_all w ms s) = true.
Proof.
  revert s. induction ms as [|[type msg] ms IH]; intros s Hopen.
  - exists []. cbn. by rewrite app_nil_r.
  - rewrite log_all_cons. cbn [fst snd].
    destruct (standardLogger_cases type msg s)
      as (text & evs & Hline & Hout & _ & Hcases).
    destruct Hcases as [(_ & -> & Hopen')|[(Hclosed & _)|(Hclosed & _)]];
      [|congruence..].
    destruct (IH _ Hopen') as (texts & Hlines & Hout' & Hopen'').
    exists (text :: texts). split; [by constructor|]. split; [|done].
    rewrite Hout', Hout. cbn [map concat]. by rewrite <- app_assoc.
Qed.

Lemma log_all_normal_form (ms : list (QtMsgType * string)) (s : Process) :
  exists (k : nat) texts opening,
    Forall2 is_line_of ms texts
    /\ output (log_all w ms s)
       = output s
         ++ concat (map stdout_block (take k texts))
         ++ opening ++ concat (map file_block (drop k texts))
    /\ (opening = [] \/ opening = [FileOpen Append true]
        \/ opening = [FileOpen Append false; FileOpen Truncate true])
    /\ (file_isOpen s = true -> k = 0%nat /\ opening = [])
    /\ (opening <> [] -> file_isOpen s = false /\ (k < length ms)%nat)
    /\ (opening = [] -> file_isOpen s = false -> k = length ms)
    /\ (file_isOpen (log_all w ms s) = true
        <-> file_isOpen s = true \/ opening <> []).
Proof.
  revert s. induction ms as [|[type msg] ms IH]; intros s.
  - exists 0%nat, [], [].
    split; [constructor|]. split; [cbn; by rewrite app_nil_r|].
    split; [by left|]. split; [done|]. split; [done|]. split; [done|].
    cbn. split; [by left | intros [?|?]; done].
  - rewrite log_all_cons. cbn [fst snd].
    destruct (standardLogger_cases type msg s)
      as (text & evs & Hline & Hout & _ & Hcases).
    destruct Hcases
      as [(Hopen & -> & Hopen')|[(Hclosed & Hopen' & Hevs)|(Hclosed & Hclosed' & ->)]].
    + destruct (log_all_open ms _ Hopen') as (texts & Hlines & Hout' & Hopen'').
      exists 0%nat, (text :: texts), [].
      split; [by constructor|]. split.
      { rewrite Hout', Hout. cbn [take drop map concat app].
        by rewrite <- app_assoc. }
      split; [by left|]. split; [done|]. split; [done|].
      split; [congruence|]. split; [by left | done].
    + destruct (log_all_open ms _ Hopen') as (texts & Hlines & Hout' & Hopen'').
      assert (exists opening,
                 evs = opening ++ file_block text
                 /\ (opening = [FileOpen Append true]
                     \/ opening = [FileOpen Append false;
                                   FileOpen Truncate true]))
        as (opening & -> & Hopening).
      { destruct Hevs as [->| ->]; eexists; split; eauto. }
      exists 0%nat, (text :: texts), opening.
      split; [by constructor|]. split.
      { rewrite Hout', Hout. cbn [take drop map concat app].
        by rewrite <- !app_assoc. }
      split; [by right|]. split; [congruence|].
      split; [intros _; split; [done | cbn; lia]|].
      split; [by destruct Hopening as [->| ->]|].
      split; [intros _; right; by destruct Hopening as [->| ->] | done].
    + destruct (IH (standardLogger w type msg s))
        as (k & texts & opening & Hlines & Hout' & Hopening & Hwas_open
            & Hopened & Hnone & Hfinal).
      exists (S k), (text :: texts), opening.
      split; [by constructor|]. split.
      { rewrite Hout', Hout. cbn [take drop map concat].
        by rewrite <- !app_assoc. }
      split; [done|]. split; [congruence|].
      split; [intros Hne; split; [done | cbn; apply Hopened in Hne; lia]|].
      split; [intros He _; cbn; f_equal; by apply Hnone|].
      rewrite Hfinal. split; intros [?|?]; try congruence; by right.
Qed.

End StandardLogger.

(** X11: [standardLogger] over the messages of a run, whatever the file
    system answers and when.  Every message gives one line, in order: a
    time stamp, the tag of its type, the text.  The first [k] messages
    find the file closed and fail to open it, for appending and then for
    truncating, and are printed (up to a NUL); the next message opens it,
    for appending or, failing that, for truncating; from then on every
    line is written to the file and flushed, no further open is tried and
    nothing is printed.  A file that was open at the start is not opened
    again. *)
Theorem standard_logger_opens_once (w : MessageHandler.World)
    (ms : list (MessageHandler.QtMsgType * string))
    (s : MessageHandler.Process) :
  exists (k : nat) texts opening,
    Forall2 MessageHandler.is_line_of ms texts
    /\ MessageHandler.effects_of (MessageHandler.log_all w ms) s
       = concat (map MessageHandler.stdout_block (take k texts))
         ++ opening
         ++ concat (map MessageHandler.file_block (drop k texts))
    /\ (opening = []
        \/ opening = [MessageHandler.FileOpen MessageHandler.Append true]
        \/ opening = [MessageHandler.FileOpen MessageHandler.Append false;
                      MessageHandler.FileOpen MessageHandler.Truncate true])
    /\ (MessageHandler.file_isOpen s = true -> k = 0%nat /\ opening = [])
    /\ (opening <> [] ->
        MessageHandler.file_isOpen s = false /\ (k < length ms)%nat)
    /\ (opening = [] -> MessageHandler.file_isOpen s = false ->
        k = length ms)
    /\ (MessageHandler.file_isOpen (MessageHandler.log_all w ms s) = true
        <-> MessageHandler.file_isOpen s = true \/ opening <> []).
Proof.
  destruct (log_all_normal_form w ms s)
    as (k & texts & opening & Hlines & Hout & Hrest).
  exists k, texts, opening. split; [exact Hlines|]. split; [|exact Hrest].
  unfold MessageHandler.effects_of. by rewrite Hout, drop_app_length.
Qed.

(** A run: the file cannot be opened for the first message, which is
    printed; the second message opens it by truncating; the third finds it
    open. *)
Example standard_logger_run :
  let w := sample_world 0 false in
  MessageHandler.effects_of
    (MessageHandler.log_all w
       [(MessageHandler.QtWarningMsg, "HELPER: no pipe");
        (MessageHandler.QtDebugMsg, "HELPER: again");
        (MessageHandler.QtCriticalMsg, "HELPER: gone")])
    MessageHandler.started
  = [MessageHandler.FileOpen MessageHandler.Append false;
     MessageHandler.FileOpen MessageHandler.Truncate false;
     MessageHandler.Printf
       ("[12:00:00.000] (WW) HELPER: no pipe" +:+ MessageHandler.newline);
     MessageHandler.FflushStdout;
     MessageHandler.FileOpen MessageHandler.Append false;
     MessageHandler.FileOpen MessageHandler.Truncate true;
     MessageHandler.FileWrite
       ("[12:00:00.000] (II) HELPER: again" +:+ MessageHandler.newline);
     MessageHandler.FileFlush;
     MessageHandler.FileWrite
       ("[12:00:00.000] (EE) HELPER: gone" +:+ MessageHandler.newline);
     MessageHandler.FileFlush].
Proof. reflexivity. Qed.

(** ** MessageHandler.cpp: journal or file *)

Section Journal.

Import MessageHandler.

Variable w : World.

(** The answer of [isJournalEnabled] is settled in [s] when asking
    changes nothing: without journald in the build, or once the static is
    initialised. *)
Lemma settled_iff (enabled : bool) (s : Process) :
  isJournalEnabled w s = (enabled, s)
  <-> (HAVE_JOURNALD w = false /\ enabled = false)
      \/ (HAVE_JOURNALD w = true /\ journalEnabled s = Some enabled).
Proof.
  unfold isJournalEnabled. destruct (HAVE_JOURNALD w).
  - destruct (journalEnabled s) as [b|] eqn:Hcache.
    + split.
      * intros [= ->]. by right.
      * intros [[? _]|[_ [= ->]]]; done.
    + split; [|intros [[? _]|[_ ?]]; done].
      destruct (negb (sd_booted w (now s) =? 0)).
      * destruct (hasConsoleAttached w _) as [console s1].
        intros [= _ Hs]. apply (f_equal journalEnabled) in Hs.
        cbn in Hs. congruence.
      * intros [= _ Hs]. apply (f_equal journalEnabled) in Hs.
        cbn in Hs. congruence.
  - split.
    + intros [= <-]. by left.
    + intros [[_ ->]|[? _]]; done.
Qed.

Lemma settled_transfer (enabled : bool) (s s' : Process) :
  isJournalEnabled w s = (enabled, s) ->
  journalEnabled s' = journalEnabled s ->
  isJournalEnabled w s' = (enabled, s').
Proof.
  rewrite !settled_iff. intros [?|[? Hcache]] Hsame; [by left|].
  right. by rewrite Hsame.
Qed.

Lemma hasConsoleAttached_keeps (s : Process) :
  journalEnabled (snd (hasConsoleAttached w s)) = journalEnabled s
  /\ file_isOpen (snd (hasConsoleAttached w s)) = file_isOpen s.
Proof.
  unfold hasConsoleAttached.
  destruct (qEnvironmentVariableIsSet w (now s) _); [done|].
  cbn [observe now]. destruct (open_tty w (S (now s))) as [fd errno].
  destruct (0 <=? fd); [done|].
  by destruct ((errno =? ENOENT) || (errno =? EPERM) || (errno =? ENXIO)).
Qed.

Lemma isJournalEnabled_settles (s : Process) :
  let r := isJournalEnabled w s in
  isJournalEnabled w (snd r) = (fst r, snd r)
  /\ file_isOpen (snd r) = file_isOpen s.
Proof.
  cbv zeta. rewrite settled_iff. unfold isJournalEnabled.
  destruct (HAVE_JOURNALD w); [|split; [by left | done]].
  destruct (journalEnabled s) as [b|] eqn:Hcache; [split; [by right | done]|].
  destruct (negb (sd_booted w (now s) =? 0)).
  - pose proof (hasConsoleAttached_keeps
                  (observe (SdBooted (sd_booted w (now s))) s)) as [_ Hopen].
    destruct (hasConsoleAttached w _) as [console s1].
    cbn [fst snd] in *. split; [by right | exact Hopen].
  - split; [by right | done].
Qed.

Lemma journaldLogger_keeps (type : QtMsgType) (context : QMessageLogContext)
    (msg : string) (s : Process) :
  journalEnabled (journaldLogger w type context msg s) = journalEnabled s.
Proof. reflexivity. Qed.

Lemma standardLogger_keeps (type : QtMsgType) (msg : string) (s : Process) :
  journalEnabled (standardLogger w type msg s) = journalEnabled s.
Proof.
  by destruct (standardLogger_cases w type msg s) as (_ & _ & _ & _ & ? & _).
Qed.

Lemma handle_settled (enabled : bool) (m : message) (s : Process) :
  isJournalEnabled w s = (enabled, s) ->
  handle w m s
  = (if enabled
     then journaldLogger w (msg_type m) (msg_context m) (msg_text m) s
     else standardLogger w (msg_type m)
            (prefix_of (msg_program m) +:+ msg_text m) s)
  /\ isJournalEnabled w (handle w m s) = (enabled, handle w m s).
Proof.
  intros Hsettled.
  assert (handle w m s
          = if enabled
            then journaldLogger w (msg_type m) (msg_context m) (msg_text m) s
            else standardLogger w (msg_type m)
                   (prefix_of (msg_program m) +:+ msg_text m) s) as Hhandle.
  { unfold handle, DaemonMessageHandler, HelperMessageHandler,
      GreeterMessageHandler, messageHandler, prefix_of.
    destruct (msg_program m); by rewrite Hsettled. }
  split; [exact Hhandle|]. rewrite Hhandle.
  apply (settled_transfer enabled s); [done|].
  destruct enabled; [apply journaldLogger_keeps | apply standardLogger_keeps].
Qed.

Lemma handle_all_journal (ms : list message) (s : Process) :
  isJournalEnabled w s = (true, s) ->
  exists evs,
    output (handle_all w ms s) = output s ++ evs
    /\ Forall2 (fun m e => exists priority code_file code_line func,
                   e = JournalPrint priority code_file code_line func
                         (c_str (msg_text m))) ms evs
    /\ file_isOpen (handle_all w ms s) = file_isOpen s.
Proof.
  revert s. induction ms as [|m ms IH]; intros s Hsettled.
  - exists []. cbn. by rewrite app_nil_r.
  - destruct (handle_settled true m s Hsettled) as [Hhandle Hsettled'].
    destruct (IH _ Hsettled') as (evs & Hout & Hall & Hopen).
    unfold handle_all in *. cbn [fold_left]. rewrite Hout, Hopen, Hhandle.
    eexists (_ :: evs). split; [|split; [|reflexivity]].
    + unfold journaldLogger. cbn [observe output].
      rewrite <- app_assoc. reflexivity.
    + constructor; [|done]. by eexists _, _, _, _.
Qed.

Lemma handle_all_standard (ms : list message) (s : Process) :
  isJournalEnabled w s = (false, s) ->
  handle_all w ms s
  = log_all w
      (map (fun m => (msg_type m, prefix_of (msg_program m) +:+ msg_text m))
         ms) s.
Proof.
  revert s. induction ms as [|m ms IH]; intros s Hsettled; [done|].
  destruct (handle_settled false m s Hsettled) as [Hhandle Hsettled'].
  unfold handle_all, log_all in *. cbn [fold_left map fst snd].
  rewrite IH by done. by rewrite Hhandle.
Qed.

End Journal.

Lemma handle_first (w : MessageHandler.World) (m : MessageHandler.message)
    (s : MessageHandler.Process) :
  MessageHandler.handle w m s
  = MessageHandler.handle w m (snd (MessageHandler.isJournalEnabled w s)).
Proof.
  destruct (isJournalEnabled_settles w s) as [Hsettled _].
  destruct (handle_settled w _ m _ Hsettled) as [Hhandle _].
  rewrite Hhandle. clear Hhandle Hsettled.
  unfold MessageHandler.handle, MessageHandler.DaemonMessageHandler,
    MessageHandler.HelperMessageHandler, MessageHandler.GreeterMessageHandler,
    MessageHandler.messageHandler, MessageHandler.prefix_of.
  destruct (MessageHandler.msg_program m); cbn beta;
    by destruct (MessageHandler.isJournalEnabled w s) as [[] s1].
Qed.

(** X12: the handlers decide once between the journal and the log file,
    before the first message, and every message of the run, from whichever
    of the three handlers, goes the way decided then, whatever the
    outside answers later.  On the way of the journal each message gives
    one journal entry, with its text as it came (up to a NUL) and no
    prefix, and the log file is not touched; on the other way the run is
    [standardLogger] on the messages with the prefix of their program. *)
Theorem handlers_keep_one_route (w : MessageHandler.World)
    (ms : list MessageHandler.message) (s : MessageHandler.Process) :
  ms <> [] ->
  let enabled := fst (MessageHandler.isJournalEnabled w s) in
  let s1 := snd (MessageHandler.isJournalEnabled w s) in
  let s' := MessageHandler.handle_all w ms s in
  MessageHandler.isJournalEnabled w s' = (enabled, s')
  /\ (enabled = true ->
      MessageHandler.file_isOpen s' = MessageHandler.file_isOpen s
      /\ exists evs,
           MessageHandler.output s' = MessageHandler.output s1 ++ evs
           /\ Forall2
                (fun m e =>
                   exists priority code_file code_line func,
                     e = MessageHandler.JournalPrint priority code_file
                           code_line func
                           (MessageHandler.c_str (MessageHandler.msg_text m)))
                ms evs)
  /\ (enabled = false ->
      s' = MessageHandler.log_all w
             (map (fun m =>
                     (MessageHandler.msg_type m,
                      MessageHandler.prefix_of (MessageHandler.msg_program m)
                      +:+ MessageHandler.msg_text m)) ms) s1).
Proof.
  intros Hms enabled s1 s'.
  destruct (isJournalEnabled_settles w s) as [Hsettled Hopen].
  fold enabled s1 in Hsettled, Hopen.
  assert (s' = MessageHandler.handle_all w ms s1) as Hs'.
  { subst s' s1. destruct ms as [|m ms]; [done|].
    unfold MessageHandler.handle_all. cbn [fold_left].
    by rewrite handle_first. }
  split.
  - rewrite Hs'. clear Hs' Hms. revert Hsettled. generalize s1.
    induction ms as [|m ms IH]; intros s2 Hsettled; [done|].
    unfold MessageHandler.handle_all in *. cbn [fold_left].
    apply IH. by apply handle_settled.
  - split.
    + intros Henabled. rewrite Henabled in Hsettled.
      destruct (handle_all_journal w ms s1 Hsettled) as (evs & Hout & Hall & Hopen').
      rewrite Hs'. split; [congruence|]. by exists evs.
    + intros Henabled. rewrite Henabled in Hsettled.
      rewrite Hs'. by apply handle_all_standard.
Qed.

Lemma handlers_keep_one_route_witness :
  let w := sample_world 1 false in
  let ms := [sample_message MessageHandler.Helper "no pipe";
             sample_message MessageHandler.Daemon "helper failed"] in
  MessageHandler.effects_of (MessageHandler.handle_all w ms)
    MessageHandler.started
  = [MessageHandler.SdBooted 1;
     MessageHandler.EnvironmentVariableIsSet "SDDM_JOURNAL_ENABLED" false;
     MessageHandler.OpenTty (-1);
     MessageHandler.Isatty 0 0;
     MessageHandler.JournalPrint 4 "CODE_FILE=unknown" "CODE_LINE=0"
       "unknown" "no pipe";
     MessageHandler.JournalPrint 4 "CODE_FILE=unknown" "CODE_LINE=0"
       "unknown" "helper failed"]
  /\ MessageHandler.isJournalEnabled w
       (MessageHandler.handle_all w ms MessageHandler.started)
     = (true, MessageHandler.handle_all w ms MessageHandler.started).
Proof.
  intros w ms. split; [reflexivity|].
  assert (ms <> []) as Hms by done.
  exact (proj1 (handlers_keep_one_route w ms MessageHandler.started Hms)).
Defined.

(** Case analysis on [H : e ∈ l] for an explicit list of effects. *)
Ltac in_effects H :=
  lazymatch type of H with
  | _ ∈ [] => apply elem_of_nil in H; contradiction
  | _ ∈ _ :: _ =>
      apply elem_of_cons in H as [H|H];
      [try discriminate H; try (injection H as ->) | in_effects H]
  end.

(** X13: the first call of [isJournalEnabled] in a build with journald.
    The answer is kept in the static: asked again, in whatever later
    state of the process, it is the same and nothing is probed.  The
    journal is used when [sd_booted] is not 0 (an error, a negative
    value, counts as booted) and no console is found; when [sd_booted] is
    0, nothing else is asked; when [SDDM_JOURNAL_ENABLED] is set no
    terminal is opened; a terminal that could be opened means no journal,
    and it is closed at once, the only descriptor closed. *)
Theorem journal_decision_made_once (w : MessageHandler.World)
    (s : MessageHandler.Process) :
  MessageHandler.HAVE_JOURNALD w = true ->
  MessageHandler.journalEnabled s = None ->
  let enabled := fst (MessageHandler.isJournalEnabled w s) in
  let s1 := snd (MessageHandler.isJournalEnabled w s) in
  let evs := MessageHandler.effects_of
               (fun s => snd (MessageHandler.isJournalEnabled w s)) s in
  let booted := MessageHandler.sd_booted w (MessageHandler.now s) in
  MessageHandler.journalEnabled s1 = Some enabled
  /\ (forall s2,
        MessageHandler.journalEnabled s2 = MessageHandler.journalEnabled s1 ->
        MessageHandler.isJournalEnabled w s2 = (enabled, s2))
  /\ head evs = Some (MessageHandler.SdBooted booted)
  /\ (booted = 0 -> enabled = false /\ evs = [MessageHandler.SdBooted 0])
  /\ (booted <> 0 ->
      MessageHandler.qEnvironmentVariableIsSet w (S (MessageHandler.now s))
        "SDDM_JOURNAL_ENABLED" = true ->
      enabled = true
      /\ evs = [MessageHandler.SdBooted booted;
                MessageHandler.EnvironmentVariableIsSet
                  "SDDM_JOURNAL_ENABLED" true])
  /\ (forall fd,
        MessageHandler.OpenTty fd ∈ evs -> 0 <= fd ->
        enabled = false /\ last evs = Some (MessageHandler.Close fd))
  /\ (forall fd,
        MessageHandler.Close fd ∈ evs ->
        MessageHandler.OpenTty fd ∈ evs /\ 0 <= fd)
  /\ (enabled = true -> booted <> 0).
Proof.
  intros Hbuild Hcache enabled s1 evs booted.
  split.
  { destruct (isJournalEnabled_settles w s) as [Hsettled _].
    apply settled_iff in Hsettled as [[? _]|[_ ?]]; [congruence | done]. }
  split.
  { intros s2 Hsame. apply (settled_transfer w enabled s1); [|done].
    by destruct (isJournalEnabled_settles w s). }
  subst enabled s1 evs booted.
  unfold MessageHandler.effects_of, MessageHandler.isJournalEnabled,
    MessageHandler.hasConsoleAttached.
  rewrite Hbuild, Hcache.
  destruct (Z.eqb_spec (MessageHandler.sd_booted w (MessageHandler.now s)) 0)
    as [Hbooted|Hbooted]; cbn [negb].
  - cbn [fst snd MessageHandler.output MessageHandler.set_journalEnabled
         MessageHandler.observe].
    rewrite drop_app_length, Hbooted.
    split; [done|]. split; [done|]. split; [done|].
    split; [intros fd Hin; in_effects Hin|].
    split; [intros fd Hin; in_effects Hin | done].
  - cbn [MessageHandler.observe MessageHandler.now].
    destruct (MessageHandler.qEnvironmentVariableIsSet w _ _) eqn:Hset.
    + cbn [fst snd MessageHandler.output MessageHandler.set_journalEnabled
           MessageHandler.observe negb].
      rewrite <- app_assoc, drop_app_length. cbn [app].
      split; [done|]. split; [done|]. split; [done|].
      split; [intros fd Hin; in_effects Hin|].
      split; [intros fd Hin; in_effects Hin | done].
    + destruct (MessageHandler.open_tty w _) as [fd errno].
      destruct (Z.leb_spec 0 fd) as [Hfd|Hfd].
      * cbn [fst snd MessageHandler.output MessageHandler.set_journalEnabled
             MessageHandler.observe negb].
        rewrite <- !app_assoc, drop_app_length. cbn [app].
        split; [done|]. split; [done|]. split; [done|].
        split; [intros fd' Hin; in_effects Hin; done|].
        split; [|done].
        intros fd' Hin. in_effects Hin. split; [|done].
        apply list_elem_of_In. cbn. tauto.
      * destruct ((errno =? MessageHandler.ENOENT)
                  || (errno =? MessageHandler.EPERM)
                  || (errno =? MessageHandler.ENXIO));
          cbn [fst snd MessageHandler.output MessageHandler.set_journalEnabled
               MessageHandler.observe negb];
          rewrite <- !app_assoc, drop_app_length; cbn [app];
          (split; [done|]); (split; [done|]); (split; [done|]);
          (split; [intros fd' Hin; in_effects Hin; lia|]);
          (split; [intros fd' Hin; in_effects Hin | done]).
Qed.

Lemma journal_decision_made_once_witness :
  let w := sample_world (-1) true in
  let s := MessageHandler.started in
  let evs := MessageHandler.effects_of
               (fun s => snd (MessageHandler.isJournalEnabled w s)) s in
  fst (MessageHandler.isJournalEnabled w s) = false
  /\ evs = [MessageHandler.SdBooted (-1);
            MessageHandler.EnvironmentVariableIsSet "SDDM_JOURNAL_ENABLED"
              false;
            MessageHandler.OpenTty 3; MessageHandler.Close 3]
  /\ forall fd,
       MessageHandler.Close fd ∈ evs ->
       MessageHandler.OpenTty fd ∈ evs /\ 0 <= fd.
Proof.
  intros w s evs. split; [reflexivity|]. split; [reflexivity|].
  destruct (journal_decision_made_once w s eq_refl eq_refl)
    as (_ & _ & _ & _ & _ & _ & Hclose & _).
  exact Hclose.
Defined.

(** X14: [setupJournalFds] redirects both standard streams or neither.
    It first settles whether the journal is used.  Without the journal it
    returns true and does nothing more.  With it, the result is true
    exactly when both journal streams were obtained, and then, and only
    then, standard output is redirected to the first and standard error
    to the second, in this order; a first stream that cannot be had ends
    the call before a second is asked for; a second that cannot be had
    closes the first: on failure no stream is left open and nothing is
    redirected. *)
Theorem journal_streams_both_or_neither (w : MessageHandler.World)
    (identifier : string) (s : MessageHandler.Process) :
  let enabled := fst (MessageHandler.isJournalEnabled w s) in
  let s1 := snd (MessageHandler.isJournalEnabled w s) in
  let ok := fst (MessageHandler.setupJournalFds w identifier s) in
  let s' := snd (MessageHandler.setupJournalFds w identifier s) in
  let name := MessageHandler.c_str identifier in
  let rest := drop (length (MessageHandler.output s1))
                (MessageHandler.output s') in
  (enabled = false -> ok = true /\ s' = s1)
  /\ (enabled = true ->
      (ok = true <->
       exists out err,
         0 <= out /\ 0 <= err
         /\ rest = [MessageHandler.JournalStreamFd name 6 out;
                    MessageHandler.JournalStreamFd name 4 err;
                    MessageHandler.Dup2 out 1; MessageHandler.Dup2 err 2])
      /\ (ok = false ->
          List.filter MessageHandler.is_dup2 rest = []
          /\ ((exists out,
                 out < 0 /\ rest = [MessageHandler.JournalStreamFd name 6 out])
              \/ (exists out err,
                    0 <= out /\ err < 0
                    /\ rest = [MessageHandler.JournalStreamFd name 6 out;
                               MessageHandler.JournalStreamFd name 4 err;
                               MessageHandler.Close out]))))
  /\ MessageHandler.isJournalEnabled w s' = (enabled, s')
  /\ MessageHandler.file_isOpen s' = MessageHandler.file_isOpen s.
Proof.
  intros enabled s1 ok s' name rest.
  destruct (isJournalEnabled_settles w s) as [Hsettled Hopen].
  fold enabled s1 in Hsettled, Hopen.
  assert (MessageHandler.HAVE_JOURNALD w = false -> enabled = false /\ s1 = s)
    as Hnone.
  { intros Hbuild. subst enabled s1.
    unfold MessageHandler.isJournalEnabled. by rewrite Hbuild. }
  subst ok s' rest. unfold MessageHandler.setupJournalFds.
  destruct (MessageHandler.HAVE_JOURNALD w) eqn:Hbuild.
  2: { destruct (Hnone eq_refl) as [Henabled Hs1]. cbn [fst snd].
       rewrite Henabled, <- Hs1.
       split; [done|]. split; [done|]. split; [by rewrite <- Henabled | done]. }
  clear Hnone. fold enabled s1.
  assert (MessageHandler.isJournalEnabled w s = (enabled, s1)) as ->
    by (subst enabled s1; by destruct (MessageHandler.isJournalEnabled w s)).
  destruct enabled.
  2: { cbn [fst snd]. repeat split; done. }
  fold name.
  set (out := MessageHandler.sd_journal_stream_fd w (MessageHandler.now s1)
                name MessageHandler.LOG_INFO).
  destruct (Z.ltb_spec out 0) as [Hout|Hout].
  { cbn [fst snd MessageHandler.output MessageHandler.observe].
    rewrite drop_app_length.
    split; [done|]. split.
    - intros _. split.
      + split; [done|]. by intros (out' & err' & _ & _ & ?).
      + intros _. split; [done|]. left. by exists out.
    - split; [|done]. by apply (settled_transfer w true s1). }
  cbn [MessageHandler.now MessageHandler.observe].
  set (err := MessageHandler.sd_journal_stream_fd w
                (S (MessageHandler.now s1)) name MessageHandler.LOG_WARNING).
  destruct (Z.ltb_spec err 0) as [Herr|Herr];
    cbn [fst snd MessageHandler.output MessageHandler.observe];
    rewrite <- !app_assoc, drop_app_length; cbn [app].
  - split; [done|]. split.
    + intros _. split.
      * split; [done|]. by intros (out' & err' & _ & _ & ?).
      * intros _. split; [done|]. right. by exists out, err.
    + split; [|done]. by apply (settled_transfer w true s1).
  - split; [done|]. split.
    + intros _. split; [|done]. split; [|done].
      intros _. by exists out, err.
    + split; [|done]. by apply (settled_transfer w true s1).
Qed.

(** A run with the journal: the second stream cannot be had, the first is
    closed and nothing is redirected. *)
Example journal_streams_run :
  let w := {| MessageHandler.HAVE_JOURNALD := true;
              MessageHandler.PATH_MAX := 4096;
              MessageHandler.file_open := fun _ _ => true;
              MessageHandler.currentDateTime := fun _ => "12:00:00.000";
              MessageHandler.qEnvironmentVariableIsSet := fun _ _ => true;
              MessageHandler.open_tty := fun _ => (3, 0);
              MessageHandler.isatty := fun _ _ => 1;
              MessageHandler.sd_booted := fun _ => 1;
              MessageHandler.sd_journal_stream_fd :=
                fun t _ _ => if Nat.eqb t 2 then 7 else -1 |} in
  MessageHandler.setupJournalFds w "sddm-helper" MessageHandler.started
  = (false,
     {| MessageHandler.file_isOpen := false;
        MessageHandler.journalEnabled := Some true;
        MessageHandler.now := 5%nat;
        MessageHandler.output :=
          [MessageHandler.SdBooted 1;
           MessageHandler.EnvironmentVariableIsSet "SDDM_JOURNAL_ENABLED" true;
           MessageHandler.JournalStreamFd "sddm-helper" 6 7;
           MessageHandler.JournalStreamFd "sddm-helper" 4 (-1);
           MessageHandler.Close 7] |}).
Proof. reflexivity. Qed.

(** ** Computations that do not read the log *)

Lemma with_trace_id (s : State) : with_trace (trace s) s = s.
Proof. by destruct s. Qed.

Lemma blind_ret {A} (a : A) : blind (ret a).
Proof.
  intros s. exists []. split; [by rewrite app_nil_r|].
  intros t. unfold ret. cbn [fst snd]. by rewrite app_nil_r.
Qed.

Lemma blind_null {A} : blind (@undefined_behaviour A).
Proof.
  intros s. exists []. split; [by rewrite app_nil_r|].
  intros t. unfold undefined_behaviour. cbn [fst snd]. by rewrite app_nil_r.
Qed.

Lemma blind_gets {A} (f : State -> A) :
  (forall t s, f (with_trace t s) = f s) -> blind (gets f).
Proof.
  intros Hf s. exists []. split; [by rewrite app_nil_r|].
  intros t. unfold gets. cbn [fst snd]. by rewrite Hf, app_nil_r.
Qed.

Lemma blind_log (e : event) : blind (log e).
Proof. intros s. exists [e]. split; [done|]. by intros t. Qed.

Lemma blind_bind {A B} (m : M A) (k : A -> M B) :
  blind m -> (forall a, blind (k a)) -> blind (bind m k).
Proof.
  intros Hm Hk s. destruct (Hm s) as (evs1 & Htr1 & Hblind1).
  unfold bind. destruct (m s) as [[a|] s1] eqn:Hms; cbn [fst snd] in *.
  - destruct (Hk a s1) as (evs2 & Htr2 & Hblind2).
    exists (evs1 ++ evs2). split; [by rewrite Htr2, Htr1, app_assoc|].
    intros t. by rewrite Hblind1, Hblind2, app_assoc.
  - exists evs1. split; [done|]. intros t. by rewrite Hblind1.
Qed.

Lemma blind_when (c : bool) (m : M unit) : blind m -> blind (when c m).
Proof. destruct c; [done | intros _; apply blind_ret]. Qed.

Lemma blind_new_QProcess : blind new_QProcess.
Proof.
  intros s. exists []. split; [cbn; by rewrite app_nil_r|].
  intros t. unfold new_QProcess. cbn [fst snd]. f_equal.
  apply state_ext; try reflexivity. cbn. by rewrite app_nil_r.
Qed.

Lemma blind_connect_finished (p : proc) (ob : observer) :
  blind (connect_finished p ob).
Proof. intros s. exists [EvConnect p ob]. split; [done|]. by intros t. Qed.

Lemma blind_slots (obs : list observer) (exitCode : Z) (st : ExitStatus) :
  blind (slots obs exitCode st).
Proof.
  induction obs as [|ob obs IH]; cbn [slots]; [apply blind_ret|].
  apply blind_bind; [|intros _; exact IH].
  destruct ob; unfold slot, quit.
  - apply blind_when, blind_log.
  - apply blind_bind; [by apply blind_gets|].
    intros [p|]; [|apply blind_null].
    apply blind_bind; [apply blind_log|]. intros _. apply blind_log.
Qed.

Lemma blind_wait_or_kill (o : Oracle) (p : proc) (msecs : Z) :
  blind (XOrgUserHelper.wait_or_kill o p msecs).
Proof.
  unfold XOrgUserHelper.wait_or_kill, QProcess_waitForFinished, emit_finished.
  apply blind_bind.
  - apply blind_bind; [apply blind_log|]. intros _.
    destruct (waitForFinished o p msecs); try apply blind_ret.
    apply blind_bind; [|intros _; apply blind_ret].
    apply blind_bind; [by apply blind_gets|].
    intros cs. apply blind_slots.
  - intros finished. apply blind_bind; [|intros _; apply blind_log].
    apply blind_when, blind_log.
Qed.

Lemma blind_startProcess (o : Oracle) (cmd : string)
    (env : QProcessEnvironment) :
  blind (XOrgUserHelper.startProcess o cmd env).
Proof.
  unfold XOrgUserHelper.startProcess, QProcess_waitForStarted.
  destruct (splitCommand o cmd) as [|program args]; [apply blind_null|].
  apply blind_bind; [apply blind_new_QProcess|]. intros process.
  apply blind_bind; [apply blind_connect_finished|]. intros _.
  apply blind_bind; [apply blind_log|]. intros _.
  apply blind_bind.
  - apply blind_bind; [apply blind_log|]. intros _. apply blind_ret.
  - intros started. destruct (negb started); apply blind_ret.
Qed.

Lemma blind_startDisplayCommand (o : Oracle) :
  blind (XOrgUserHelper.startDisplayCommand o).
Proof.
  unfold XOrgUserHelper.startDisplayCommand.
  apply blind_bind; [by apply blind_gets|]. intros display.
  apply blind_bind; [apply blind_startProcess|]. intros setCursor.
  apply blind_bind.
  { destruct setCursor; [apply blind_wait_or_kill | apply blind_ret]. }
  intros _. apply blind_bind; [apply blind_startProcess|].
  intros displayScript.
  destruct displayScript; [apply blind_wait_or_kill | apply blind_ret].
Qed.

(** ** The two versions of [start] *)

(** One way through both versions of a function: the same object but for
    the log, and the same events but for those of one version only. *)
Ltac same_but_log :=
  eexists _, _; split; [reflexivity|];
  split;
  [ f_equal; apply state_ext; try reflexivity;
    cbn [trace with_trace add_event set_serverCmd set_display
         set_serverProcess set_clientProcess set_heap];
    rewrite <- ?app_assoc; cbn [app]; reflexivity
  | reflexivity ].

Lemma startServer_versions (o : Oracle) (s : State) (c : event) :
  addCookie o (QString_fromLocal8Bit (display_bytes (readLine o))) = true ->
  exists evsN evsO,
    trace (snd (XOrgUserHelper.startServer o s)) = trace s ++ evsN
    /\ HelperStartXorgUser.startServer o (add_event c s)
       = (fst (XOrgUserHelper.startServer o s),
          with_trace (trace s ++ c :: evsO)
            (snd (XOrgUserHelper.startServer o s)))
    /\ List.filter in_both_versions evsN = List.filter in_both_versions evsO.
Proof.
  intros Hcookie.
  unfold XOrgUserHelper.startServer, HelperStartXorgUser.startServer,
    HelperStartXorgUser.startProcess, HelperStartXorgUser.server_args,
    XOrgUserHelper.startProcess.
  unfold_monad. cbn beta iota zeta. normalize_log.
  destruct (pipe o) as [[fd0 fd1]|]; normalize_log; [|same_but_log].
  destruct (splitCommand o _) as [|program args]; normalize_log;
    [same_but_log|].
  destruct (waitForStarted o (heap_next s)); cbn [negb]; normalize_log;
    [|same_but_log].
  destruct (open o); cbn [negb]; normalize_log; [|same_but_log].
  destruct (Z.of_nat (length (readLine o)) <? 2) eqn:Hshort; normalize_log;
    [same_but_log|].
  rewrite !(remove_last_byte _ (short_read _ Hshort)), Hcookie.
  cbn [negb]. normalize_log.
  destruct (0 <? m_fd s); normalize_log; same_but_log.
Qed.

Lemma startClient_versions (o : Oracle) (s : State) (t : list event) :
  let new := XOrgUserHelper.startClient o s in
  let old := HelperStartXorgUser.startClient o (with_trace t s) in
  exists evs,
    trace (snd new) = trace s ++ evs
    /\ trace (snd old) = t ++ List.filter in_both_versions evs
    /\ fst old = fst new
    /\ fields (snd old) = fields (snd new)
    /\ connections (snd new)
       = connections (snd old)
         ++ match fst new, m_clientProcess (snd new) with
            | Some true, Some c => [(c, SessionFinished)]
            | _, _ => []
            end.
Proof.
  unfold XOrgUserHelper.startClient, HelperStartXorgUser.startClient,
    HelperStartXorgUser.startProcess, XOrgUserHelper.startProcess.
  unfold_monad. cbn beta iota zeta. normalize_log.
  cbn [with_trace m_display m_clientCmd heap_next connections trace].
  destruct (splitCommand o (m_clientCmd s)) as [|program args].
  { exists []. cbn. by rewrite !app_nil_r. }
  normalize_log.
  cbn [with_trace m_display m_clientCmd heap_next connections trace].
  destruct (waitForStarted o (heap_next s)); cbn [negb]; normalize_log;
    cbn [with_trace m_display m_clientCmd heap_next connections trace fields
         m_fd m_serverCmd m_serverProcess m_clientProcess];
    (eexists; split; [reflexivity|]);
    cbn [List.filter in_both_versions is_addCookie is_session_connect orb negb];
    rewrite <- ?app_assoc; cbn [app]; rewrite ?app_nil_r; done.
Qed.

Lemma filter_in_both_versions_twice (evs : list event) :
  List.filter in_both_versions (List.filter in_both_versions evs)
  = List.filter in_both_versions evs.
Proof.
  induction evs as [|e evs IH]; [done|]. cbn [List.filter].
  destruct (in_both_versions e) eqn:He; [|done].
  cbn [List.filter]. by rewrite He, IH.
Qed.

(** X15: the two versions of [start], in a world where the cookie is
    accepted both for the name the object starts with, as the older
    version asks, and for the name the server reports, as the newer one
    does.  They return the same and leave the same object, but for the
    second lambda the newer version connects to the client; they start the
    same processes with the same arguments and environments, make the
    same calls on the pipe and write the same report, in the same order:
    their logs differ only in the cookie and in that connection. *)
Theorem start_versions_agree (o : Oracle) (s : State) :
  addCookie o (m_display s) = true ->
  addCookie o (QString_fromLocal8Bit (display_bytes (readLine o))) = true ->
  let new := XOrgUserHelper.start o in
  let old := HelperStartXorgUser.start o in
  result_of old s = result_of new s
  /\ List.filter in_both_versions (events_of old s)
     = List.filter in_both_versions (events_of new s)
  /\ fields (state_after old s) = fields (state_after new s)
  /\ connections (state_after new s)
     = connections (state_after old s)
       ++ match result_of new s, m_clientProcess (state_after new s) with
          | Some true, Some c => [(c, SessionFinished)]
          | _, _ => []
          end.
Proof.
  intros Hinitial Hreported.
  destruct (startServer_versions o (add_event EvXauthSetup s)
              (EvAddCookie (m_display s) true) Hreported)
    as (evsN & evsO & HtrN & Hold & Hfilter).
  cbv zeta.
  unfold result_of, state_after, events_of, XOrgUserHelper.start,
    HelperStartXorgUser.start, HelperStartXorgUser.startDisplayCommand.
  cbv [bind log modify ret gets]. cbn [m_display add_event].
  rewrite Hinitial. cbn [negb]. rewrite Hold. clear Hold.
  assert (forall evs evs',
            List.filter in_both_versions evs
            = List.filter in_both_versions evs' ->
            List.filter in_both_versions
              (drop (length (trace s))
                 (((trace s ++ [EvXauthSetup])
                   ++ EvAddCookie (m_display s) true :: evsO) ++ evs))
            = List.filter in_both_versions
                (drop (length (trace s))
                   (((trace s ++ [EvXauthSetup]) ++ evsN) ++ evs')))
    as Hlogs.
  { intros evs evs' Hsame.
    rewrite <- !app_assoc, !drop_app_length, !List.filter_app.
    cbn [app List.filter in_both_versions is_addCookie is_session_connect
         orb negb].
    by rewrite Hfilter, Hsame. }
  cbn [trace add_event] in *.
  destruct (XOrgUserHelper.startServer o (add_event EvXauthSetup s))
    as [[[|]|] sN]; cbn [fst snd negb trace with_trace] in *.
  - destruct (blind_startDisplayCommand o sN) as (evsD & HtrD & HblindD).
    rewrite HblindD. clear HblindD.
    destruct (XOrgUserHelper.startDisplayCommand o sN) as [[[]|] sD];
      cbn [fst snd trace with_trace] in *.
    + destruct (startClient_versions o sD
                  (((trace s ++ [EvXauthSetup])
                    ++ EvAddCookie (m_display s) true :: evsO) ++ evsD))
        as (evsC & HtrC & HtrO & Hresult & Hfields & Hconnections).
      cbv zeta in *.
      destruct (XOrgUserHelper.startClient o sD) as [rN sC].
      destruct (HelperStartXorgUser.startClient o _) as [rO sO].
      cbn [fst snd] in *. subst rO.
      assert (List.filter in_both_versions (drop (length (trace s)) (trace sO))
              = List.filter in_both_versions
                  (drop (length (trace s)) (trace sC))) as Hevents.
      { rewrite HtrO, HtrC, HtrD, HtrN, <- !(app_assoc _ evsD).
        apply Hlogs.
        by rewrite !List.filter_app, filter_in_both_versions_twice. }
      destruct rN as [[|]|]; cbn [negb fst snd] in *;
        (split; [reflexivity|]); (split; [exact Hevents|]);
        (split; [exact Hfields | exact Hconnections]).
    + split; [reflexivity|]. split; [|by rewrite app_nil_r].
      rewrite HtrD, HtrN. by apply Hlogs.
  - split; [reflexivity|]. split; [|by rewrite app_nil_r].
    rewrite HtrN, <- (app_nil_r (_ :: evsO)), app_assoc,
      <- (app_nil_r (_ ++ evsN)).
    by apply Hlogs.
  - split; [reflexivity|]. split; [|by rewrite app_nil_r].
    rewrite HtrN, <- (app_nil_r (_ :: evsO)), app_assoc,
      <- (app_nil_r (_ ++ evsN)).
    by apply Hlogs.
Qed.

Lemma start_versions_agree_witness :
  let o := world seven true everybody_exits in
  let s := helper0 3 in
  result_of (HelperStartXorgUser.start o) s
  = result_of (XOrgUserHelper.start o) s
  /\ List.filter in_both_versions (events_of (HelperStartXorgUser.start o) s)
     = List.filter in_both_versions (events_of (XOrgUserHelper.start o) s)
  /\ fields (state_after (HelperStartXorgUser.start o) s)
     = fields (state_after (XOrgUserHelper.start o) s)
  /\ connections (state_after (XOrgUserHelper.start o) s)
     = connections (state_after (HelperStartXorgUser.start o) s)
       ++ match result_of (XOrgUserHelper.start o) s,
                m_clientProcess (state_after (XOrgUserHelper.start o) s) with
          | Some true, Some c => [(c, SessionFinished)]
          | _, _ => []
          end.
Proof.
  intros o s. exact (start_versions_agree o s eq_refl eq_refl).
Defined.

(** ** The display setup commands *)

Lemma auxiliary_spec (o : Oracle) (s : State) (cmd : string) (msecs : Z) :
  observers_of (heap_next s) (connections s) = [] ->
  splits o cmd = true ->
  exists r s1,
    XOrgUserHelper.startProcess o cmd (session_env o (m_display s)) s
    = (Some r, s1)
    /\ match r with
       | Some p => XOrgUserHelper.wait_or_kill o p msecs
       | None => ret tt
       end s1
       = (Some tt, after_auxiliary (auxiliary_events o s cmd msecs) s).
Proof.
  intros Hfresh Hsplits.
  unfold XOrgUserHelper.startProcess, XOrgUserHelper.wait_or_kill,
    auxiliary_events, after_auxiliary, splits in *.
  destruct (splitCommand o cmd) as [|program args]; [done|].
  unfold_monad. cbn beta iota. normalize_log.
  destruct (waitForStarted o (heap_next s)) eqn:Hstarted; cbn [negb].
  - eexists _, _. split; [reflexivity|]. cbn beta iota.
    rewrite waitForFinished_spec.
    + normalize_log.
      destruct (is_finished (waitForFinished o (heap_next s) msecs));
        cbn [negb]; state_eq.
    + normalize_log. rewrite observers_of_app, Hfresh.
      unfold observers_of. rewrite filter_cons_True by done.
      cbn. by destruct (m_serverProcess s).
  - eexists _, _. split; [reflexivity|]. cbn beta iota. state_eq.
Qed.

Lemma startDisplayCommand_spec (o : Oracle) (s : State) :
  forallb (fun c => Nat.ltb (fst c) (heap_next s)) (connections s) = true ->
  splits o cursor_command = true ->
  splits o (DisplayCommand o) = true ->
  let evs1 := auxiliary_events o s cursor_command 1000 in
  let s1 := after_auxiliary evs1 s in
  let evs2 := auxiliary_events o s1 (DisplayCommand o) 30000 in
  XOrgUserHelper.startDisplayCommand o s
  = (Some tt, after_auxiliary evs2 s1).
Proof.
  intros Hfresh Hcursor Hscript evs1 s1 evs2.
  destruct (auxiliary_spec o s cursor_command 1000) as (r1 & s1' & Hstart1 & Hwait1);
    [by apply observers_of_fresh | done |].
  destruct (auxiliary_spec o s1 (DisplayCommand o) 30000)
    as (r2 & s2' & Hstart2 & Hwait2); [|done|].
  { apply observers_of_fresh. unfold s1, after_auxiliary.
    cbn [heap_next set_heap connections]. rewrite forallb_app.
    apply andb_true_iff. split; [by apply forallb_ltb_S|].
    cbn [forallb fst]. rewrite andb_true_r. apply Nat.ltb_lt. lia. }
  unfold XOrgUserHelper.startDisplayCommand. cbv [bind gets].
  fold cursor_command. fold (session_env o (m_display s)).
  rewrite Hstart1, Hwait1. fold evs1 s1.
  change (m_display s) with (m_display s1).
  by rewrite Hstart2, Hwait2.
Qed.




(** ** When [start] succeeds *)

Lemma startServer_result (o : Oracle) (s : State) (fd0 fd1 : Z) :
  pipe o = Some (fd0, fd1) ->
  splits o (m_serverCmd s +:+ " "
            +:+ join_space
                  (XOrgUserHelper.server_args o
                     (<["XORG_RUN_AS_USER_OK" := "1"]> (systemEnvironment o))
                     fd1)) = true ->
  let s1 := state_after (XOrgUserHelper.startServer o) s in
  result_of (XOrgUserHelper.startServer o) s
  = Some (waitForStarted o (heap_next s) && open o
          && negb (Z.of_nat (length (readLine o)) <? 2)
          && addCookie o
               (QString_fromLocal8Bit (display_bytes (readLine o))))
  /\ heap_next s1 = S (heap_next s)
  /\ m_clientCmd s1 = m_clientCmd s.
Proof.
  intros Hpipe Hsplits. revert Hsplits.
  unfold splits, XOrgUserHelper.startServer, XOrgUserHelper.startProcess.
  unfold result_of, state_after. unfold_monad. cbn beta iota zeta.
  rewrite Hpipe. normalize_log.
  destruct (splitCommand o _) as [|program args]; [done|]. intros _.
  normalize_log.
  destruct (waitForStarted o (heap_next s)); cbn [negb andb]; normalize_log;
    [|done].
  destruct (open o); cbn [negb andb]; normalize_log; [|done].
  destruct (Z.of_nat (length (readLine o)) <? 2) eqn:Hshort;
    cbn [negb andb]; normalize_log; [done|].
  rewrite !(remove_last_byte _ (short_read _ Hshort)).
  destruct (addCookie o _); cbn [negb]; normalize_log; [|done].
  by destruct (0 <? m_fd s).
Qed.

Lemma startClient_result (o : Oracle) (s : State) :
  splits o (m_clientCmd s) = true ->
  result_of (XOrgUserHelper.startClient o) s
  = Some (waitForStarted o (heap_next s)).
Proof.
  unfold splits, XOrgUserHelper.startClient, XOrgUserHelper.startProcess.
  unfold result_of. unfold_monad. cbn beta iota zeta.
  destruct (splitCommand o (m_clientCmd s)) as [|program args]; [done|].
  intros _. normalize_log.
  by destruct (waitForStarted o (heap_next s)).
Qed.

(** X17: [start] from a well-formed object, when the four commands it
    runs split into a program and its arguments.  It has a defined
    result, and the result is true exactly when the pipe was made, the
    server process started, the pipe could be opened, the line read has
    at least two bytes, the cookie for the name read was accepted and the
    client process started.  Neither the cursor command nor the display
    setup command has a say: they may fail to start, time out or exit
    with an error.  The client is the fourth process [start] allocates. *)
Theorem start_succeeds_iff (o : Oracle) (s : State) :
  wfb s = true ->
  (forall fd0 fd1,
     pipe o = Some (fd0, fd1) ->
     splits o (m_serverCmd s +:+ " "
               +:+ join_space
                     (XOrgUserHelper.server_args o
                        (<["XORG_RUN_AS_USER_OK" := "1"]>
                           (systemEnvironment o)) fd1)) = true) ->
  splits o cursor_command = true ->
  splits o (DisplayCommand o) = true ->
  splits o (m_clientCmd s) = true ->
  result_of (XOrgUserHelper.start o) s
  = Some (match pipe o with
          | Some _ =>
              waitForStarted o (heap_next s) && open o
              && negb (Z.of_nat (length (readLine o)) <? 2)
              && addCookie o
                   (QString_fromLocal8Bit (display_bytes (readLine o)))
              && waitForStarted o (3 + heap_next s)%nat
          | None => false
          end).
Proof.
  intros Hwf Hserver Hcursor Hscript Hclient.
  unfold result_of, XOrgUserHelper.start. cbv [bind log modify ret].
  destruct (pipe o) as [[fd0 fd1]|] eqn:Hpipe.
  2: { unfold XOrgUserHelper.startServer. unfold_monad. by rewrite Hpipe. }
  destruct (startServer_result o (add_event EvXauthSetup s) fd0 fd1 Hpipe
              (Hserver fd0 fd1 eq_refl)) as (Hresult & Hheap & Hcmd).
  destruct (startServer_keeps_wf o (add_event EvXauthSetup s) Hwf)
    as [Hwf1 _].
  unfold result_of, state_after in *.
  destruct (XOrgUserHelper.startServer o (add_event EvXauthSetup s))
    as [r1 s1]; cbn [fst snd heap_next m_clientCmd add_event] in *. subst r1.
  destruct (waitForStarted o (heap_next s) && open o
            && negb (Z.of_nat (length (readLine o)) <? 2)
            && addCookie o _); cbn [negb andb]; [|done].
  rewrite (startDisplayCommand_spec o s1 (wfb_connections s1 Hwf1) Hcursor
             Hscript).
  pose proof (startClient_result o
                (after_auxiliary
                   (auxiliary_events o
                      (after_auxiliary
                         (auxiliary_events o s1 cursor_command 1000) s1)
                      (DisplayCommand o) 30000)
                   (after_auxiliary
                      (auxiliary_events o s1 cursor_command 1000) s1)))
    as Hstarted.
  unfold result_of in Hstarted.
  destruct (XOrgUserHelper.startClient o _) as [r3 s3].
  cbn [fst snd] in *. rewrite Hstarted by (cbn; by rewrite Hcmd).
  cbn [after_auxiliary heap_next set_heap add_events]. rewrite Hheap.
  cbn [heap_next add_event Nat.add].
  destruct (waitForStarted o (S (S (S (heap_next s))))); reflexivity.
Qed.

Lemma start_succeeds_iff_witness :
  let o := world seven true cursor_fails in
  result_of (XOrgUserHelper.start o) (helper0 3) = Some true.
Proof.
  intros o.
  assert (forall fd0 fd1,
            pipe o = Some (fd0, fd1) ->
            splits o (m_serverCmd (helper0 3) +:+ " "
                      +:+ join_space
                            (XOrgUserHelper.server_args o
                               (<["XORG_RUN_AS_USER_OK" := "1"]>
                                  (systemEnvironment o)) fd1)) = true)
    as Hserver.
  { intros fd0 fd1 [= <- <-]. reflexivity. }
  exact (start_succeeds_iff o (helper0 3) eq_refl Hserver eq_refl eq_refl
           eq_refl).
Defined.
